(** * dpkt DNS and GTP-C codecs: a shallow embedding

    The development follows [dpkt/dns.py] and [dpkt/gtp_c.py].  Python byte
    strings are lists of [byte]; Python integers are [Z] where the code
    applies sign-sensitive bit operations to them and [N] where they are
    offsets and lengths of a buffer; exceptions are an explicit error type
    threaded through a small error monad; objects mutated in place are
    records passed through state-passing functions. *)

From Stdlib Require Import ZArith NArith List Lia Bool.
From Stdlib Require Import Strings.Byte Strings.String Strings.Ascii.
From stdpp Require Import base option list countable gmap relations.

(** ** Byte strings *)

Abbreviation bytes := (list byte).

Definition ord (b : byte) : N := Byte.to_N b.

Definition byte_of_N (n : N) : byte :=
  match Byte.of_N (n mod 256) with
  | Some b => b
  | None => x00
  end.

(** [l[a:b]] for non-negative [a] and [b]: Python truncates at the end. *)
Definition slice {A} (l : list A) (a b : N) : list A :=
  take (N.to_nat b - N.to_nat a) (drop (N.to_nat a) l).

(** [l[a:]] *)
Definition slice_from {A} (l : list A) (a : N) : list A :=
  drop (N.to_nat a) l.

(** [len(l)] *)
Definition py_len {A} (l : list A) : N := N.of_nat (length l).

#[global] Instance byte_eq_decision : EqDecision byte := Byte.byte_eq_dec.

#[global] Instance byte_countable : Countable byte :=
  inj_countable Byte.to_N Byte.of_N Byte.of_to_N.

(** ** Exceptions and the error monad *)

Inductive unpack_msg : Set :=
| InvalidPointer      (* 'Invalid label compression pointer' *)
| NameTooLong         (* 'name longer than 255 bytes' *)
| InvalidLabelLength  (* 'Invalid label length %02x' *)
| InvalidPacket       (* 'invalid %s: %r', raised by the packet constructor *)
| TruncatedFTEID.     (* an F-TEID value that is too short *)

(** The exceptions that the code lets out.  [NeedData] and [UnpackError]
    are the decode errors of dpkt: [dpkt.NeedData] is a subclass of
    [dpkt.UnpackError] (the tests of [dns.py] catch the former as the
    latter). *)
Inductive exn : Set :=
| NeedData
| UnpackError (m : unpack_msg)
| PackError
| StructError
| TypeError
| IndexError
| AttributeError
| ValueError.

Inductive result (A : Type) : Type :=
| Ok (a : A)
| Raise (e : exn).
Arguments Ok {A} a.
Arguments Raise {A} e.

#[global] Instance result_ret : MRet result := fun _ a => Ok a.

#[global] Instance result_bind : MBind result := fun _ _ k r =>
  match r with
  | Ok a => k a
  | Raise e => Raise e
  end.

(** ** The struct module: unsigned big-endian integers *)

Fixpoint be_bytes (w : nat) (v : N) : bytes :=
  match w with
  | O => []
  | S w' => be_bytes w' (v / 256) ++ [byte_of_N v]
  end.

Definition be_value (bs : bytes) : N :=
  fold_left (fun acc b => (acc * 256 + ord b)%N) bs 0%N.

(** [struct.pack] of one unsigned field of [w] bytes ('B', 'H', 'I'):
    a value out of range raises [struct.error]. *)
Definition struct_pack (w : nat) (v : Z) : result bytes :=
  if ((0 <=? v) && (v <? 2 ^ (8 * Z.of_nat w)))%Z
  then Ok (be_bytes w (Z.to_N v))
  else Raise StructError.

(** [struct.unpack] of one unsigned field of [w] bytes: the buffer must have
    exactly [w] bytes. *)
Definition struct_unpack (w : nat) (bs : bytes) : result N :=
  if Nat.eqb (length bs) w then Ok (be_value bs) else Raise StructError.

(** [struct.pack('>HH', a, b)] and the like: one field after the other,
    each given with its width in bytes. *)
Fixpoint struct_pack_fields (fields : list (nat * Z)) : result bytes :=
  match fields with
  | [] => Ok []
  | (w, v) :: rest =>
    b ← struct_pack w v; bs ← struct_pack_fields rest; Ok (b ++ bs)
  end.

(** ** Methods that mutate [self]: state passing with exceptions

    A method gets the object and returns the object as it has left it, also
    when it raises. *)

Definition stx (S A : Type) : Type := S -> S * result A.

#[global] Instance stx_ret {S} : MRet (stx S) := fun _ a s => (s, Ok a).

#[global] Instance stx_bind {S} : MBind (stx S) := fun _ _ k m s =>
  match m s with
  | (s', Ok a) => k a s'
  | (s', Raise e) => (s', Raise e)
  end.

Definition lift {S A} (r : result A) : stx S A := fun s => (s, r).
Definition get {S} : stx S S := fun s => (s, Ok s).
Definition modify {S} (f : S -> S) : stx S unit := fun s => (f s, Ok tt).

(** [sep.join(parts)] *)
Fixpoint join (sep : bytes) (parts : list bytes) : bytes :=
  match parts with
  | [] => []
  | [p] => p
  | p :: ps => p ++ sep ++ join sep ps
  end.

(** * dns.py *)

Module dns.
Local Open Scope N_scope.

(** ** unpack_name *)

(** The local variables of [unpack_name] that live across loop iterations. *)
Record name_state : Type := NameState {
  off : N;
  start_off : N;
  saved_off : N;
  name_length : N;
  name : list bytes;
}.

Definition init_state (o : N) : name_state :=
  {| off := o; start_off := o; saved_off := 0; name_length := 0; name := [] |}.

(** Outcome of one pass through the body of [while True]. *)
Inductive step : Type :=
| Continue (st : name_state)
| Break (st : name_state)
| Throw (e : exn).

(** One pass through the loop body.  [buf !! off] is [None] exactly when
    [off >= len(buf)], the case in which the code raises [NeedData]. *)
Definition unpack_name_body (buf : bytes) (st : name_state) : step :=
  match buf !! N.to_nat (off st) with
  | None => Throw NeedData
  | Some b =>
    let n := ord b in
    if n =? 0 then
      Break {| off := off st + 1; start_off := start_off st;
               saved_off := saved_off st; name_length := name_length st;
               name := name st |}
    else if N.land n 0xc0 =? 0xc0 then
      match struct_unpack 2 (slice buf (off st) (off st + 2)) with
      | Raise e => Throw e
      | Ok w =>
        let ptr := N.land w 0x3fff in
        if start_off st <=? ptr then Throw (UnpackError InvalidPointer)
        else
          let off2 := off st + 2 in
          Continue {| off := ptr; start_off := ptr;
                      saved_off := if saved_off st =? 0 then off2 else saved_off st;
                      name_length := name_length st;
                      name := name st |}
      end
    else if N.land n 0xc0 =? 0x00 then
      let off1 := off st + 1 in
      let name' := name st ++ [slice buf off1 (off1 + n)] in
      let name_length' := name_length st + (n + 1) in
      if 255 <? name_length' then Throw (UnpackError NameTooLong)
      else
        Continue {| off := off1 + n; start_off := start_off st;
                    saved_off := saved_off st; name_length := name_length';
                    name := name' |}
    else Throw (UnpackError InvalidLabelLength)
  end.

(** The statements after the loop.  The final [codecs.decode(_, 'utf-8')]
    is not applied: the name is returned as the joined label bytes. *)
Definition unpack_name_return (st : name_state) : bytes * N :=
  (join [x2e] (name st), if saved_off st =? 0 then off st else saved_off st).

Fixpoint unpack_name_loop (fuel : nat) (buf : bytes) (st : name_state)
  : option (result (bytes * N)) :=
  match fuel with
  | O => None
  | S fuel' =>
    match unpack_name_body buf st with
    | Continue st' => unpack_name_loop fuel' buf st'
    | Break st' => Some (Ok (unpack_name_return st'))
    | Throw e => Some (Raise e)
    end
  end.

(** Every pass that continues either lowers [start_off] or raises
    [name_length], which stays below 256. *)
Definition measure (st : name_state) : nat :=
  N.to_nat (start_off st) + (256 - N.to_nat (name_length st)).

(** [None] stands for a loop that has not finished within its fuel;
    [unpack_name_terminates] shows that this never happens. *)
Definition unpack_name (buf : bytes) (o : N) : option (result (bytes * N)) :=
  unpack_name_loop (S (measure (init_state o))) buf (init_state o).

(** The cursor of the decoder moves from [st] to [st'] in one pass. *)
Definition pass (buf : bytes) (st st' : name_state) : Prop :=
  unpack_name_body buf st = Continue st'.

(** The states the decoder goes through when started at offset [o]. *)
Definition visits (buf : bytes) (o : N) (st : name_state) : Prop :=
  rtc (pass buf) (init_state o) st.

(** The length octet of an ordinary label under the cursor. *)
Definition label_at (buf : bytes) (st : name_state) : option N :=
  match buf !! N.to_nat (off st) with
  | Some b =>
    if negb (ord b =? 0) && (N.land (ord b) 0xc0 =? 0x00) then Some (ord b)
    else None
  | None => None
  end.

(** The 14-bit target of a complete compression pointer under the cursor. *)
Definition pointer_at (buf : bytes) (st : name_state) : option N :=
  match buf !! N.to_nat (off st) with
  | Some b =>
    if N.land (ord b) 0xc0 =? 0xc0 then
      match struct_unpack 2 (slice buf (off st) (off st + 2)) with
      | Ok w => Some (N.land w 0x3fff)
      | Raise _ => None
      end
    else None
  | None => None
  end.

Definition B (s : string) : bytes := list_byte_of_string s.
Arguments B s%_string.

(** The buffers of [test_circular_pointers] and [test_very_long_name]. *)
Definition circular_pointers : bytes :=
  [xc0; x00; x01; x00; x00; x01; x00; x00; x00; x00; x00; x00]
  ++ [x07] ++ B "example" ++ [x03] ++ B "com" ++ [xc0; x00].

Definition very_long_name : bytes :=
  [x00; x00; x01; x00; x00; x01; x00; x00; x00; x00; x00; x00]
  ++ mjoin (replicate 16 ([x10] ++ B "abcdef0123456789")) ++ [x00].

(** A name of four labels whose length octets and bytes add up to 255. *)
Definition name_of_255 : bytes :=
  mjoin (replicate 3 ([x3f] ++ replicate 63 x61)) ++ [x3e] ++ replicate 62 x61 ++ [x00].

(** A name of four 63-byte labels: 256 octets with the length octets. *)
Definition name_of_256 : bytes :=
  mjoin (replicate 4 ([x3f] ++ replicate 63 x61)) ++ [x00].

(** ** pack_name *)

(** [bytes.upper()]: the ASCII letters a-z are mapped to A-Z. *)
Definition upper_byte (b : byte) : byte :=
  if (0x61 <=? ord b) && (ord b <=? 0x7a) then byte_of_N (ord b - 0x20) else b.

Definition upper (s : bytes) : bytes := map upper_byte s.

(** [s.split(sep)] for a one-byte separator. *)
Fixpoint split (sep : byte) (s : bytes) : list bytes :=
  match s with
  | [] => [[]]
  | c :: s' =>
    if decide (c = sep) then [] :: split sep s'
    else match split sep s' with
         | l :: ls => (c :: l) :: ls
         | [] => [[c]]
         end
  end.

(** The body of [for i, label in enumerate(labels)], on [labels[i:]].  The
    dictionary is mutated in place, also when a later [struct.pack] raises,
    so it is returned next to the result. *)
Fixpoint pack_name_loop (labels : list bytes) (off : N) (buf : bytes)
    (label_ptrs : gmap bytes N) : gmap bytes N * result bytes :=
  match labels with
  | [] => (label_ptrs, Ok buf)
  | label :: rest =>
    let key := upper (join [x2e] labels) in
    let ptr := label_ptrs !! key in
    match ptr with
    | Some (Npos p) =>
      (* a stored, non-zero offset: emit the pointer and [break] *)
      (label_ptrs,
       w ← struct_pack 2 (Z.of_N (N.lor 0xc000 (Npos p))); Ok (buf ++ w))
    | _ =>
      let label_ptrs' :=
        if 1 <? py_len key then
          let ptr := off + py_len buf in
          if ptr <? 0xc000 then <[key := ptr]> label_ptrs else label_ptrs
        else label_ptrs in
      match struct_pack 1 (Z.of_N (py_len label)) with
      | Raise e => (label_ptrs', Raise e)
      | Ok i => pack_name_loop rest off (buf ++ i ++ label) label_ptrs'
      end
    end
  end.

(** [name] is the name after [codecs.encode(name, 'utf-8')]. *)
Definition pack_name (name : bytes) (off : N) (label_ptrs : gmap bytes N)
  : gmap bytes N * result bytes :=
  let labels := match name with [] => [] | _ => split x2e name end in
  pack_name_loop (labels ++ [[]]) off [] label_ptrs.

(** The 14-bit target that [unpack_name] reads from a 2-byte pointer. *)
Definition pointer_target (w : bytes) : N := N.land (be_value w) 0x3fff.

(** ** The flags word of the header *)

Definition DNS_CD : Z := 0x0010.
Definition DNS_AD : Z := 0x0020.
Definition DNS_Z  : Z := 0x0040.
Definition DNS_RA : Z := 0x0080.
Definition DNS_RD : Z := 0x0100.
Definition DNS_TC : Z := 0x0200.
Definition DNS_AA : Z := 0x0400.
Definition DNS_QR : Z := 0x8000.

(** [int((op & mask) == mask)] *)
Definition flag_get (mask op : Z) : Z :=
  if (Z.land op mask =? mask)%Z then 1%Z else 0%Z.

(** [if v: op |= mask  else: op &= ~mask] *)
Definition flag_set (mask v op : Z) : Z :=
  if (v =? 0)%Z then Z.land op (Z.lnot mask) else Z.lor op mask.

Definition qr (op : Z) : Z := flag_get DNS_QR op.
Definition set_qr (v op : Z) : Z := flag_set DNS_QR v op.

Definition opcode (op : Z) : Z := Z.land (Z.shiftr op 11) 0xf.
Definition set_opcode (v op : Z) : Z :=
  Z.lor (Z.land op (Z.lnot 0x7800)) (Z.shiftl (Z.land v 0xf) 11).

Definition aa (op : Z) : Z := flag_get DNS_AA op.
Definition set_aa (v op : Z) : Z := flag_set DNS_AA v op.

Definition tc (op : Z) : Z := flag_get DNS_TC op.
Definition set_tc (v op : Z) : Z := flag_set DNS_TC v op.

Definition rd (op : Z) : Z := flag_get DNS_RD op.
Definition set_rd (v op : Z) : Z := flag_set DNS_RD v op.

Definition ra (op : Z) : Z := flag_get DNS_RA op.
Definition set_ra (v op : Z) : Z := flag_set DNS_RA v op.

Definition zero (op : Z) : Z := flag_get DNS_Z op.
Definition set_zero (v op : Z) : Z := flag_set DNS_Z v op.

Definition rcode (op : Z) : Z := Z.land op 0xf.
Definition set_rcode (v op : Z) : Z :=
  Z.lor (Z.land op (Z.lnot 0xf)) (Z.land v 0xf).

(** The properties that the class defines over [op]. *)
Inductive accessor : Set := QR | OPCODE | AA | TC | RD | RA | ZERO | RCODE.

Definition getter (a : accessor) : Z -> Z :=
  match a with
  | QR => qr | OPCODE => opcode | AA => aa | TC => tc
  | RD => rd | RA => ra | ZERO => zero | RCODE => rcode
  end.

Definition setter (a : accessor) : Z -> Z -> Z :=
  match a with
  | QR => set_qr | OPCODE => set_opcode | AA => set_aa | TC => set_tc
  | RD => set_rd | RA => set_ra | ZERO => set_zero | RCODE => set_rcode
  end.

(** ** Encoding a message *)

Record Q : Type := MkQ {
  q_name : bytes;
  q_type : Z;
  q_cls : Z;
}.

(** An encode step: it reads and updates [self.label_ptrs]. *)
Abbreviation packer := (stx (gmap bytes N)).

Definition pack_q (buf : bytes) (q : Q) : packer bytes :=
  nm ← pack_name (q_name q) (py_len buf);
  tc ← lift (struct_pack_fields [(2%nat, q_type q); (2%nat, q_cls q)]);
  mret (buf ++ nm ++ tc).

Section encode.
(** A resource record: its header fields, and [RR.pack_rdata], the
    per-type packer of its payload, which the results below do not
    look into. *)
Context {RR : Type}.
Context (rr_name : RR -> bytes) (rr_type rr_cls rr_ttl : RR -> Z).
Context (pack_rdata : RR -> N -> packer bytes).

Record DNS : Type := MkDNS {
  id : Z;
  op : Z;
  qd : list Q;
  an : list RR;
  ns : list RR;
  ar : list RR;
}.

Definition pack_rr (buf : bytes) (rr : RR) : packer bytes :=
  nm ← pack_name (rr_name rr) (py_len buf);
  rdata ← pack_rdata rr (py_len buf + py_len nm + 10);
  h ← lift (struct_pack_fields
              [(2%nat, rr_type rr); (2%nat, rr_cls rr); (4%nat, rr_ttl rr);
               (2%nat, Z.of_N (py_len rdata))]);
  mret (buf ++ nm ++ h ++ rdata).

(** [for x in xs: buf = f(buf, x)] *)
Fixpoint pack_each {X} (f : bytes -> X -> packer bytes) (xs : list X)
    (buf : bytes) : packer bytes :=
  match xs with
  | [] => mret buf
  | x :: xs' => buf' ← f buf x; pack_each f xs' buf'
  end.

(** [DNS.__bytes__]: the table starts empty and is dropped at the end. *)
Definition DNS_bytes (m : DNS) : result bytes :=
  snd ((buf ← lift (struct_pack_fields
                      [(2%nat, id m); (2%nat, op m);
                       (2%nat, Z.of_N (py_len (qd m))); (2%nat, Z.of_N (py_len (an m)));
                       (2%nat, Z.of_N (py_len (ns m))); (2%nat, Z.of_N (py_len (ar m)))]);
        buf ← pack_each pack_q (qd m) buf;
        buf ← pack_each pack_rr (an m) buf;
        buf ← pack_each pack_rr (ns m) buf;
        pack_each pack_rr (ar m) buf) ∅).
End encode.

(** A record that carries its payload in [rdata]: [pack_rdata] starts with
    [if self.rdata: return self.rdata]. *)
Record raw_rr : Type := MkRR {
  r_name : bytes;
  r_type : Z;
  r_cls : Z;
  r_ttl : Z;
  r_rdata : bytes;
}.

(** [RR.pack_rdata] on such a record: without [rdata], the branch of its
    type reads an attribute that the record does not have, except for OPT. *)
Definition raw_pack_rdata (rr : raw_rr) (off : N) : packer bytes :=
  match r_rdata rr with
  | _ :: _ => mret (r_rdata rr)
  | [] =>
    if bool_decide (r_type rr ∈ [1; 2; 5; 12; 6; 15; 16; 13; 28; 33]%Z)
    then lift (Raise AttributeError)
    else if (r_type rr =? 41)%Z then mret []
    else lift (Raise PackError)
  end.

(** The message of the second half of [test_basic]. *)
Definition cnn_query : DNS (RR := raw_rr) :=
  {| id := 0x05f5; op := 0x0100;
     qd := [ {| q_name := B "www.cnn.com"; q_type := 1; q_cls := 1 |} ];
     an := []; ns := []; ar := [] |}.

(** ** Auxiliary notions of the proofs *)

(** The invariant of the loop of [unpack_name] on its length counter. *)
Definition capped (st : name_state) : Prop := name_length st <= 255.

(** The loop started in [st] with the fuel that [st] needs. *)
Definition run (buf : bytes) (st : name_state) : option (result (bytes * N)) :=
  unpack_name_loop (S (measure st)) buf st.

(** The octets that a list of labels takes on the wire: each label with
    its length octet. *)
Definition octets (labels : list bytes) : N :=
  foldr (fun l acc => py_len l + 1 + acc) 0 labels.

(** The bits of [op] that an accessor reads and writes. *)
Definition field_mask (a : accessor) : Z :=
  match a with
  | QR => DNS_QR | OPCODE => 0x7800%Z | AA => DNS_AA | TC => DNS_TC
  | RD => DNS_RD | RA => DNS_RA | ZERO => DNS_Z | RCODE => 0xf%Z
  end.

(** What the guard of [pack_name] does keep out of the table. *)
Definition below_guard (t : gmap bytes N) : Prop :=
  map_Forall (fun _ v => v < 0xc000) t.

(** What an accessor reads back after a value [v] has been set: a flag reads
    0 or 1, a 4-bit field reads the low 4 bits of [v]. *)
Definition field_value (a : accessor) (v : Z) : Z :=
  match a with
  | OPCODE | RCODE => Z.land v 0xf
  | _ => if (v =? 0)%Z then 0%Z else 1%Z
  end.

(** Before the first jump the cursor has only moved forward; the offset
    saved at the first jump lies after the start and within the buffer. *)
Definition saved_ok (buf : bytes) (o : N) (st : name_state) : Prop :=
  if saved_off st =? 0 then o <= off st
  else o + 2 <= saved_off st <= py_len buf.

(** The labels of a name as [pack_name] takes them from its argument. *)
Definition labels_of (name : bytes) : list bytes :=
  match name with [] => [] | _ => split x2e name end.

(** Labels on the wire without compression: each one after its length
    octet. *)
Definition wire (labels : list bytes) : bytes :=
  concat (map (fun l => byte_of_N (py_len l) :: l) labels).

(** A key that [pack_name] takes as not in the table: [label_ptrs.get]
    gives [None] or 0. *)
Definition absent (t : gmap bytes N) (k : bytes) : Prop :=
  t !! k = None \/ t !! k = Some 0.

(** [struct.unpack('>HH', bs)]: exactly four bytes, or [struct.error]. *)
Definition struct_unpack_HH (bs : bytes) : result (N * N) :=
  if Nat.eqb (length bs) 4 then Ok (be_value (take 2 bs), be_value (drop 2 bs))
  else Raise StructError.

(** [DNS.unpack_q]: the question read at [off], and the offset after it. *)
Definition unpack_q (buf : bytes) (off : N) : option (result (Q * N)) :=
  match unpack_name buf off with
  | None => None
  | Some (Raise e) => Some (Raise e)
  | Some (Ok (nm, off)) =>
    Some ('(ty, cls) ← struct_unpack_HH (slice buf off (off + 4));
          Ok (MkQ nm (Z.of_N ty) (Z.of_N cls), off + 4))
  end.

End dns.

(** * The packet base class

    Modelled from the spec: [dpkt/dpkt.py], the Field Codec of section 4.1
    on which every class of [gtp_c.py] is built, is missing from the
    sources.  Decoding reads the declared fixed-width fields from the start
    of the buffer in network byte order and leaves the rest as payload, and
    fails with a length error when the buffer is shorter than the header;
    encoding serializes the current values of the fields.  The model takes
    a field value that does not fit its width to fail with a pack error,
    and the length of a packet to be its header length plus the length of
    its payload. *)

Module Packet.
Local Open Scope N_scope.

(** Modelled from the spec: the read of the fixed header, given the widths
    of its fields; the fields are returned in order, with the payload. *)
Definition unpack (widths : list nat) (buf : bytes) : result (list N * bytes) :=
  let hdr_len := foldr Nat.add 0%nat widths in
  if (length buf <? hdr_len)%nat then Raise StructError
  else
    Ok ((fix fields (ws : list nat) (b : bytes) : list N :=
           match ws with
           | [] => []
           | w :: ws' => be_value (take w b) :: fields ws' (drop w b)
           end) widths buf,
        drop hdr_len buf).

(** Modelled from the spec: what the constructor makes of an error of
    [struct] raised while it decodes [buf]. *)
Definition init {A} (hdr_len : N) (unpack : bytes -> result A) (buf : bytes)
  : result A :=
  match unpack buf with
  | Raise StructError =>
    if py_len buf <? hdr_len then Raise NeedData
    else Raise (UnpackError InvalidPacket)
  | r => r
  end.

(** Modelled from the spec: the write of the fixed header from the current
    values of the fields. *)
Definition pack_hdr (fields : list (nat * Z)) : result bytes :=
  match struct_pack_fields fields with
  | Raise StructError => Raise PackError
  | r => r
  end.

End Packet.

(** * gtp_c.py *)

Module gtp_c.
Local Open Scope Z_scope.

Definition compat_ord (b : byte) : Z := Z.of_N (ord b).

(** The byte that [struct.pack('B', v)] writes for [0 <= v <= 255]. *)
Definition byte_of_Z (v : Z) : byte := byte_of_N (Z.to_N v).

(** What an attribute of an object holds; [PUnset] is an attribute that
    was never assigned. *)
Inductive pyval : Type :=
| PUnset
| PNone
| PInt (z : Z)
| PBytes (b : bytes).

(** An operand of [>>] and [&]. *)
Definition as_int (v : pyval) : result Z :=
  match v with
  | PInt z => Ok z
  | PUnset => Raise AttributeError
  | PNone | PBytes _ => Raise TypeError
  end.

(** An operand of [+] with a byte string. *)
Definition as_bytes (v : pyval) : result bytes :=
  match v with
  | PBytes b => Ok b
  | PUnset => Raise AttributeError
  | PNone | PInt _ => Raise TypeError
  end.

Definition TV_RESERVED := 0.
Definition TV_CAUSE := 1.
Definition TV_IMSI := 2.
Definition TV_RAI := 3.
Definition TV_TLLI := 4.
Definition TV_P_TMSI := 5.
Definition TV_REORDER_REQUIRED := 8.
Definition TV_AUTH_TRIPLET := 9.
Definition TV_MAP_CAUSE := 11.
Definition TV_P_TMSI_SIGN := 12.
Definition TV_MS_VALIDATED := 13.
Definition TV_RECOVERY := 14.
Definition TV_SELECTION_MODE := 15.
Definition TV_TEID_DATA_1 := 16.
Definition TV_TEID_C_PLANE := 17.
Definition TV_TEID_DATA_2 := 18.
Definition TV_TEARDOWN_IND := 19.
Definition TV_NSAPI := 20.
Definition TV_RANAP_CAUSE := 21.
Definition TV_RAB_CXT := 22.
Definition TV_RADIO_PRIORITY_SMS := 23.
Definition TV_RADIO_PRIORITY := 24.
Definition TV_PACKET_FLOW_ID := 25.
Definition TV_CHARGING_CHARS := 26.
Definition TV_TRACE_REFERENCE := 27.
Definition TV_TRACE_TYPE := 28.
Definition TV_MS_NOT_REACHABLE_REASON := 29.
Definition TV_CHARGING_ID := 127.

Definition TV_LEN_DICT : gmap Z Z :=
  list_to_map [
    (TV_RESERVED, 0); (TV_CAUSE, 1); (TV_IMSI, 8); (TV_RAI, 6); (TV_TLLI, 4);
    (TV_P_TMSI, 4); (TV_REORDER_REQUIRED, 1); (TV_AUTH_TRIPLET, 28);
    (TV_MAP_CAUSE, 1); (TV_P_TMSI_SIGN, 3); (TV_MS_VALIDATED, 1);
    (TV_RECOVERY, 1); (TV_SELECTION_MODE, 1); (TV_TEID_DATA_1, 4);
    (TV_TEID_C_PLANE, 4); (TV_TEID_DATA_2, 5); (TV_TEARDOWN_IND, 1);
    (TV_NSAPI, 1); (TV_RANAP_CAUSE, 1); (TV_RAB_CXT, 9);
    (TV_RADIO_PRIORITY_SMS, 1); (TV_RADIO_PRIORITY, 1);
    (TV_PACKET_FLOW_ID, 2); (TV_CHARGING_CHARS, 2); (TV_TRACE_REFERENCE, 2);
    (TV_TRACE_TYPE, 2); (TV_MS_NOT_REACHABLE_REASON, 1); (TV_CHARGING_ID, 4)
  ].

(** [b''.join([bytes(d) for d in ds])] *)
Fixpoint join_bytes {IE} (to_bytes : IE -> result bytes) (ds : list IE)
  : result bytes :=
  match ds with
  | [] => Ok []
  | d :: ds' => b ← to_bytes d; bs ← join_bytes to_bytes ds'; Ok (b ++ bs)
  end.

(** What the [data] attribute of a message holds: the payload bytes, or
    the list of its information elements. *)
Inductive body (IE : Type) : Type :=
| BBytes (b : bytes)
| BList (ies : list IE).
Arguments BBytes {IE} b.
Arguments BList {IE} ies.

(** ** class IEv1 *)

Module IEv1.

Record t : Type := mk {
  type : Z;
  len : pyval;
  data : bytes;
}.

Definition hdr_len : N := 1.

Definition encoding (self : t) : Z := Z.land (Z.shiftr (type self) 7) 0x1.

Definition set_encoding (e : Z) (self : t) : t :=
  mk (Z.lor (Z.land (type self) (Z.lnot 0x80)) (Z.shiftl (Z.land e 0x1) 7))
     (len self) (data self).

Definition unpack (buf : bytes) : result t :=
  '(fields, data) ← Packet.unpack [1%nat] buf;
  let type := Z.of_N (hd 0%N fields) in
  if Z.land (Z.shiftr type 7) 0x1 =? 0 then
    (* [TV_LEN_DICT.get(self.type)], then [self.data[:self.len]] *)
    match TV_LEN_DICT !! type with
    | Some l => Ok (mk type (PInt l) (take (Z.to_nat l) data))
    | None => Ok (mk type PNone data)
    end
  else
    l ← struct_unpack 2 (take 2 data);
    Ok (mk type (PInt (Z.of_N l)) (slice data 2 (2 + l))).

(** [IEv1(buf)] *)
Definition of_bytes (buf : bytes) : result t := Packet.init hdr_len unpack buf.

Definition pack_hdr (self : t) : result bytes :=
  data ← Packet.pack_hdr [(1%nat, type self)];
  if encoding self =? 0 then Ok data
  else
    match len self with
    | PInt l => packed_len ← struct_pack 2 l; Ok (data ++ packed_len)
    | PUnset => Raise AttributeError
    | PNone | PBytes _ => Raise StructError
    end.

Definition __len__ (self : t) : N :=
  if encoding self =? 0 then (hdr_len + py_len (data self))%N
  else (hdr_len + 2 + py_len (data self))%N.

Definition __bytes__ (self : t) : result bytes :=
  h ← pack_hdr self; Ok (h ++ data self).

(** An element that [bytes] and the constructor take to each other: a TV
    element of a type of the table with a value of the length the table
    gives, or a TLV element whose [len] is the length of its value. *)
Definition well_formed (self : t) : Prop :=
  0 <= type self < 256 /\
  if encoding self =? 0 then
    TV_LEN_DICT !! type self = Some (Z.of_N (py_len (data self)))
  else
    len self = PInt (Z.of_N (py_len (data self))) /\
    (py_len (data self) < 65536)%N.

(** The element as the constructor reads it back: [len] is set, also for
    a TV element. *)
Definition decoded (self : t) : t :=
  mk (type self) (PInt (Z.of_N (py_len (data self)))) (data self).

End IEv1.

(** ** class IEv2 *)

Module IEv2.

Record t : Type := mk {
  type : Z;
  len : Z;
  flags : Z;
  data : bytes;
}.

Definition hdr_len : N := 4.

Definition cr_flag (self : t) : Z := Z.land (Z.shiftr (flags self) 4) 0xf.

(** The setter is [pass]. *)
Definition set_cr_flag (c : Z) (self : t) : t := self.

Definition instance (self : t) : Z := Z.land (flags self) 0xf.

(** The setter is [pass]. *)
Definition set_instance (c : Z) (self : t) : t := self.

Definition unpack (buf : bytes) : result t :=
  '(fields, data) ← Packet.unpack [1%nat; 2%nat; 1%nat] buf;
  let type := Z.of_N (nth 0 fields 0%N) in
  let len := Z.of_N (nth 1 fields 0%N) in
  let flags := Z.of_N (nth 2 fields 0%N) in
  Ok (mk type len flags (take (Z.to_nat len) data)).

(** [IEv2(buf)] *)
Definition of_bytes (buf : bytes) : result t := Packet.init hdr_len unpack buf.

Definition pack_hdr : stx t bytes :=
  modify (fun self => mk (type self) (Z.of_N (py_len (data self)))
                         (flags self) (data self));;
  self ← get;
  lift (Packet.pack_hdr
          [(1%nat, type self); (2%nat, len self); (1%nat, flags self)]).

Definition __len__ (self : t) : N := (hdr_len + py_len (data self))%N.

(** [bytes(ie)]: the header, then the value. *)
Definition __bytes__ (self : t) : result bytes :=
  h ← snd (pack_hdr self); Ok (h ++ data self).

(** The element as [pack_hdr] leaves it: [len] is the length of the
    value. *)
Definition packed (self : t) : t :=
  mk (type self) (Z.of_N (py_len (data self))) (flags self) (data self).

(** The elements of a list after [[bytes(d) for d in ds]]: [bytes(d)] calls
    [d.pack_hdr()], which sets [d.len] before it writes the header.  Every
    element is left as [pack_hdr] leaves it, up to and including the first
    one whose header cannot be written; the elements after that one are
    not reached. *)
Fixpoint after_bytes (ds : list t) : list t :=
  match ds with
  | [] => []
  | d :: ds' =>
    match pack_hdr d with
    | (d', Ok _) => d' :: after_bytes ds'
    | (d', Raise _) => d' :: ds'
    end
  end.

End IEv2.

(** [while self.data: ie = IE(self.data); l.append(ie);
     self.data = self.data[len(ie):]].  [None] stands for a loop that has
    not finished within its fuel. *)
Fixpoint unpack_ies {IE} (of_bytes : bytes -> result IE) (ie_len : IE -> N)
    (fuel : nat) (data : bytes) : option (result (list IE)) :=
  match data with
  | [] => Some (Ok [])
  | _ =>
    match fuel with
    | O => None
    | S fuel' =>
      match of_bytes data with
      | Raise e => Some (Raise e)
      | Ok ie =>
        match unpack_ies of_bytes ie_len fuel' (slice_from data (ie_len ie)) with
        | Some (Ok l) => Some (Ok (ie :: l))
        | r => r
        end
      end
    end
  end.

(** ** class GTPv1C *)

Module GTPv1C.

Record t : Type := mk {
  flags : Z;
  type : Z;
  len : Z;
  teid : Z;
  seqnum : pyval;
  npdu : pyval;
  next_type : pyval;
  data : body IEv1.t;
  ies : option (list IEv1.t);
}.

Definition hdr_len : N := 8.

Definition version (self : t) : Z := Z.land (Z.shiftr (flags self) 5) 0x7.
Definition proto_type (self : t) : Z := Z.land (Z.shiftr (flags self) 4) 0x1.
Definition e_flag (self : t) : Z := Z.land (Z.shiftr (flags self) 2) 0x1.
Definition s_flag (self : t) : Z := Z.land (Z.shiftr (flags self) 1) 0x1.
Definition np_flag (self : t) : Z := Z.land (flags self) 0x1.
Definition additionals (self : t) : Z := Z.land (flags self) 0x7.

Definition set_seqnum v (self : t) : t :=
  mk (flags self) (type self) (len self) (teid self) v (npdu self)
     (next_type self) (data self) (ies self).
Definition set_npdu v (self : t) : t :=
  mk (flags self) (type self) (len self) (teid self) (seqnum self) v
     (next_type self) (data self) (ies self).
Definition set_next_type v (self : t) : t :=
  mk (flags self) (type self) (len self) (teid self) (seqnum self) (npdu self)
     v (data self) (ies self).
Definition set_data d (self : t) : t :=
  mk (flags self) (type self) (len self) (teid self) (seqnum self) (npdu self)
     (next_type self) d (ies self).
Definition set_len l (self : t) : t :=
  mk (flags self) (type self) l (teid self) (seqnum self) (npdu self)
     (next_type self) (data self) (ies self).

Definition Packet_pack_hdr : stx t bytes :=
  self ← get;
  lift (Packet.pack_hdr [(1%nat, flags self); (1%nat, type self);
                         (2%nat, len self); (4%nat, teid self)]).

Definition pack_hdr : stx t bytes :=
  self ← get;
  match data self with
  | BBytes _ => Packet_pack_hdr
  | BList ds =>
    data ← lift (join_bytes IEv1.__bytes__ ds);
    (if negb (additionals self =? 0) then
       s ← lift (as_int (seqnum self));
       modify (set_seqnum
                 (PBytes [byte_of_Z (Z.land (Z.shiftr s 8) 0xff); byte_of_Z (Z.land s 0xff)]));;
       n ← lift (as_int (npdu self));
       modify (set_npdu (PBytes [byte_of_Z (Z.land n 0xff)]));;
       x ← lift (as_int (next_type self));
       modify (set_next_type (PBytes [byte_of_Z (Z.land x 0xff)]))
     else
       modify (set_seqnum (PBytes []));;
       modify (set_npdu (PBytes []));;
       modify (set_next_type (PBytes [])));;
    self ← get;
    s ← lift (as_bytes (seqnum self));
    n ← lift (as_bytes (npdu self));
    x ← lift (as_bytes (next_type self));
    ds_bytes ← lift (join_bytes IEv1.__bytes__ ds);
    modify (set_data (BBytes (s ++ n ++ x ++ ds_bytes)));;
    modify (set_len (Z.of_N (py_len (s ++ n ++ x ++ ds_bytes))));;
    Packet_pack_hdr
  end.

(** [bytes(msg)]: the list comprehension over [self.ies] first, which
    raises an [AttributeError] on a message that has no [ies], then
    [pack_hdr].  The bytes of an [IEv1] are computed without a change to
    the element. *)
Definition __bytes__ : stx t bytes :=
  self ← get;
  match ies self with
  | None => lift (Raise AttributeError)
  | Some l =>
    ie_bytes ← lift (join_bytes IEv1.__bytes__ l);
    h ← pack_hdr;
    mret (h ++ ie_bytes)
  end.

Definition set_flags f (self : t) : t :=
  mk f (type self) (len self) (teid self) (seqnum self) (npdu self)
     (next_type self) (data self) (ies self).

Definition set_version (v : Z) (self : t) : t :=
  set_flags (Z.lor (Z.land (flags self) (Z.lnot 0xe0)) (Z.shiftl (Z.land v 0x7) 5)) self.
Definition set_proto_type (p : Z) (self : t) : t :=
  set_flags (Z.lor (Z.land (flags self) (Z.lnot 0x10)) (Z.shiftl (Z.land p 0x1) 4)) self.
Definition set_e_flag (e : Z) (self : t) : t :=
  set_flags (Z.lor (Z.land (flags self) (Z.lnot 0x4)) (Z.shiftl (Z.land e 0x1) 2)) self.
Definition set_s_flag (s : Z) (self : t) : t :=
  set_flags (Z.lor (Z.land (flags self) (Z.lnot 0x2)) (Z.shiftl (Z.land s 0x1) 1)) self.
Definition set_np_flag (n : Z) (self : t) : t :=
  set_flags (Z.lor (Z.land (flags self) (Z.lnot 0x1)) (Z.land n 0x1)) self.

(** The properties of the class that have a setter. *)
Inductive accessor : Type := VERSION | PROTO_TYPE | E_FLAG | S_FLAG | NP_FLAG.

Definition getter (a : accessor) : t -> Z :=
  match a with
  | VERSION => version | PROTO_TYPE => proto_type | E_FLAG => e_flag
  | S_FLAG => s_flag | NP_FLAG => np_flag
  end.

Definition setter (a : accessor) : Z -> t -> t :=
  match a with
  | VERSION => set_version | PROTO_TYPE => set_proto_type
  | E_FLAG => set_e_flag | S_FLAG => set_s_flag | NP_FLAG => set_np_flag
  end.

(** The number of bits of the field of an accessor. *)
Definition width (a : accessor) : Z :=
  match a with VERSION => 3 | _ => 1 end.

(** [self.data[i]] *)
Definition item (data : bytes) (i : nat) : result Z :=
  match data !! i with
  | Some b => Ok (compat_ord b)
  | None => Raise IndexError
  end.

(** The part of [unpack] before the loop over the information elements:
    the message with its fields set, and the payload left in [self.data]
    for the loop. *)
Definition unpack_fields (buf : bytes) : result (t * bytes) :=
  '(fields, data) ← Packet.unpack [1%nat; 1%nat; 2%nat; 4%nat] buf;
  let flags := Z.of_N (nth 0 fields 0%N) in
  let type := Z.of_N (nth 1 fields 0%N) in
  let len := Z.of_N (nth 2 fields 0%N) in
  let teid := Z.of_N (nth 3 fields 0%N) in
  if negb (Z.land flags 0x7 =? 0) then
    d0 ← item data 0; d1 ← item data 1;
    let seqnum := Z.lor (Z.shiftl d0 8) d1 in
    npdu ← item data 2;
    next_type ← item data 3;
    Ok (mk flags type len teid (PInt seqnum) (PInt npdu) (PInt next_type)
           (BBytes (slice_from data 4)) None,
        slice_from data 4)
  else
    Ok (mk flags type len teid PUnset PUnset PUnset (BBytes data) None, data).

Definition unpack (buf : bytes) : option (result t) :=
  match unpack_fields buf with
  | Raise e => Some (Raise e)
  | Ok (self, data) =>
    match unpack_ies IEv1.of_bytes IEv1.__len__ (length data) data with
    | None => None
    | Some (Raise e) => Some (Raise e)
    | Some (Ok l) =>
      Some (Ok (mk (flags self) (type self) (len self) (teid self)
                   (seqnum self) (npdu self) (next_type self)
                   (BList l) (Some l)))
    end
  end.

(** [GTPv1C(buf)] *)
Definition of_bytes (buf : bytes) : option (result t) :=
  match unpack buf with
  | Some r => Some (Packet.init hdr_len (fun _ => r) buf)
  | None => None
  end.

End GTPv1C.

(** ** class GTPv2C *)

Module GTPv2C.

Record t : Type := mk {
  flags : Z;
  type : Z;
  len : Z;
  teid : pyval;
  seqnum : pyval;
  priority : pyval;
  data : body IEv2.t;
  ies : option (list IEv2.t);
}.

Definition hdr_len : N := 4.

Definition version (self : t) : Z := Z.land (Z.shiftr (flags self) 5) 0x7.
Definition p_flag (self : t) : Z := Z.land (Z.shiftr (flags self) 4) 0x1.
Definition t_flag (self : t) : Z := Z.land (Z.shiftr (flags self) 3) 0x1.

Definition set_t_flag (v : Z) (self : t) : t :=
  mk (Z.lor (Z.land (flags self) (Z.lnot 0x8)) (Z.shiftl (Z.land v 0x1) 3))
     (type self) (len self) (teid self) (seqnum self) (priority self)
     (data self) (ies self).

Definition set_teid v (self : t) : t :=
  mk (flags self) (type self) (len self) v (seqnum self) (priority self)
     (data self) (ies self).
Definition set_seqnum v (self : t) : t :=
  mk (flags self) (type self) (len self) (teid self) v (priority self)
     (data self) (ies self).
Definition set_data d (self : t) : t :=
  mk (flags self) (type self) (len self) (teid self) (seqnum self)
     (priority self) d (ies self).
Definition set_len l (self : t) : t :=
  mk (flags self) (type self) l (teid self) (seqnum self) (priority self)
     (data self) (ies self).
Definition set_ies i (self : t) : t :=
  mk (flags self) (type self) (len self) (teid self) (seqnum self)
     (priority self) (data self) i.

(** [self.data[i]] *)
Definition item (data : bytes) (i : nat) : result Z :=
  match data !! i with
  | Some b => Ok (compat_ord b)
  | None => Raise IndexError
  end.

(** The part of [unpack] before the loop over the information elements:
    the message with its fields set, and the payload left in [self.data]
    for the loop. *)
Definition unpack_fields (buf : bytes) : result (t * bytes) :=
  '(fields, data) ← Packet.unpack [1%nat; 1%nat; 2%nat] buf;
  let flags := Z.of_N (nth 0 fields 0%N) in
  let type := Z.of_N (nth 1 fields 0%N) in
  let len := Z.of_N (nth 2 fields 0%N) in
  if negb (Z.land (Z.shiftr flags 3) 0x1 =? 0) then
    d0 ← item data 0; d1 ← item data 1; d2 ← item data 2; d3 ← item data 3;
    let teid := Z.lor (Z.lor (Z.lor (Z.shiftl d0 24) (Z.shiftl d1 16))
                             (Z.shiftl d2 8)) d3 in
    d4 ← item data 4; d5 ← item data 5; d6 ← item data 6;
    let seqnum := Z.lor (Z.lor (Z.shiftl d4 16) (Z.shiftl d5 8)) d6 in
    d7 ← item data 7;
    let priority := Z.land (Z.shiftr d7 4) 0xf in
    Ok (mk flags type len (PInt teid) (PInt seqnum) (PInt priority)
           (BBytes (slice_from data 8)) None,
        slice_from data 8)
  else
    Ok (mk flags type len PUnset (PBytes (slice data 0 3)) PUnset
           (BBytes (slice_from data 5)) None,
        slice_from data 5).

Definition unpack (buf : bytes) : option (result t) :=
  match unpack_fields buf with
  | Raise e => Some (Raise e)
  | Ok (self, data) =>
    match unpack_ies IEv2.of_bytes IEv2.__len__ (length data) data with
    | None => None
    | Some (Raise e) => Some (Raise e)
    | Some (Ok l) =>
      Some (Ok (mk (flags self) (type self) (len self) (teid self)
                   (seqnum self) (priority self) (BList l) (Some l)))
    end
  end.

(** [GTPv2C(buf)] *)
Definition of_bytes (buf : bytes) : option (result t) :=
  match unpack buf with
  | Some r => Some (Packet.init hdr_len (fun _ => r) buf)
  | None => None
  end.

Definition Packet_pack_hdr : stx t bytes :=
  self ← get;
  lift (Packet.pack_hdr [(1%nat, flags self); (1%nat, type self);
                         (2%nat, len self)]).

(** The list comprehension [[bytes(d) for d in self.data]] sets the [len]
    of the elements that it goes through; they are stored back in [data]
    as it leaves them.  The record has no object identity: the list that
    [unpack] puts in both [data] and [ies] is held twice, and what a
    method does to the elements of one attribute shows in that attribute. *)
Definition pack_hdr : stx t bytes :=
  self ← get;
  match data self with
  | BBytes _ => Packet_pack_hdr
  | BList ds =>
    modify (set_data (BList (IEv2.after_bytes ds)));;
    data ← lift (join_bytes IEv2.__bytes__ ds);
    s ← lift (as_int (seqnum self));
    let seqnum := [byte_of_Z (Z.land (Z.shiftr s 16) 0xff);
                   byte_of_Z (Z.land (Z.shiftr s 8) 0xff);
                   byte_of_Z (Z.land s 0xff)] in
    modify (set_seqnum (PBytes seqnum));;
    let data := seqnum ++ [x00] ++ data in
    data ← (if negb (t_flag self =? 0) then
              t ← lift (as_int (teid self));
              let teid := [byte_of_Z (Z.land (Z.shiftr t 24) 0xff);
                           byte_of_Z (Z.land (Z.shiftr t 16) 0xff);
                           byte_of_Z (Z.land (Z.shiftr t 8) 0xff);
                           byte_of_Z (Z.land t 0xff)] in
              modify (set_teid (PBytes teid));;
              mret (teid ++ data)
            else mret data);
    modify (set_data (BBytes data));;
    modify (set_len (Z.of_N (py_len data)));;
    Packet_pack_hdr
  end.

Definition set_flags f (self : t) : t :=
  mk f (type self) (len self) (teid self) (seqnum self) (priority self)
     (data self) (ies self).

Definition set_version (v : Z) (self : t) : t :=
  set_flags (Z.lor (Z.land (flags self) (Z.lnot 0xe0)) (Z.shiftl (Z.land v 0x7) 5)) self.
Definition set_p_flag (p : Z) (self : t) : t :=
  set_flags (Z.lor (Z.land (flags self) (Z.lnot 0x10)) (Z.shiftl (Z.land p 0x1) 4)) self.

(** The properties of the class that have a setter. *)
Inductive accessor : Type := VERSION | P_FLAG | T_FLAG.

Definition getter (a : accessor) : t -> Z :=
  match a with VERSION => version | P_FLAG => p_flag | T_FLAG => t_flag end.

Definition setter (a : accessor) : Z -> t -> t :=
  match a with
  | VERSION => set_version | P_FLAG => set_p_flag | T_FLAG => set_t_flag
  end.

(** The number of bits of the field of an accessor. *)
Definition width (a : accessor) : Z :=
  match a with VERSION => 3 | _ => 1 end.

(** [bytes(msg)]: the list comprehension over [self.ies] first, which
    raises an [AttributeError] on a message that has no [ies] and sets the
    [len] of the elements that it goes through, then [pack_hdr]. *)
Definition __bytes__ : stx t bytes :=
  self ← get;
  match ies self with
  | None => lift (Raise AttributeError)
  | Some l =>
    modify (set_ies (Some (IEv2.after_bytes l)));;
    ie_bytes ← lift (join_bytes IEv2.__bytes__ l);
    h ← pack_hdr;
    mret (h ++ ie_bytes)
  end.

End GTPv2C.

(** An Echo Response without TEID, sequence number 1, with a Recovery IE
    of restart counter 7: the message and the bytes that the header and
    [pack_hdr]'s body make for it. *)
Definition echo_response_message : GTPv2C.t :=
  GTPv2C.mk 0x40 2 0 PUnset (PInt 1) PUnset (BList [IEv2.mk 3 0 0 [x07]]) None.

Definition echo_response : bytes :=
  [x40; x02; x00; x09; x00; x00; x01; x00; x03; x00; x01; x00; x07].

(** The Create Session Request of [test_unpack]: the header with the T
    flag, TEID 0x10 and sequence number 0x01000a, an IMSI element and an
    APN element. *)
Definition create_session_request : bytes :=
  [x48; x20; x00; x29; x00; x00; x00; x10; x01; x00; x0a; x00]
  ++ [x01; x00; x08; x00; x44; x90; x01; x12; x23; x34; x45; xf5]
  ++ [x47; x00; x11; x00] ++ dns.B "some.operator.net".



(** ** Auxiliary notions of the proofs *)

(** Where the field of an accessor starts in the flags octet. *)
Definition v1_shift (a : GTPv1C.accessor) : Z :=
  match a with
  | GTPv1C.VERSION => 5 | GTPv1C.PROTO_TYPE => 4 | GTPv1C.E_FLAG => 2
  | GTPv1C.S_FLAG => 1 | GTPv1C.NP_FLAG => 0
  end.

Definition v2_shift (a : GTPv2C.accessor) : Z :=
  match a with GTPv2C.VERSION => 5 | GTPv2C.P_FLAG => 4 | GTPv2C.T_FLAG => 3 end.

(** What the setters compute: the bits of [x] outside the field of [w]
    bits at [sh], the low [w] bits of [v] inside. *)
Definition put sh w v x : Z :=
  Z.lor (Z.land x (Z.lnot (Z.shiftl (Z.ones w) sh)))
        (Z.shiftl (Z.land v (Z.ones w)) sh).

(** What the getters compute. *)
Definition take_field sh w x : Z := Z.land (Z.shiftr x sh) (Z.ones w).

End gtp_c.

(** * The F-TEID sub-codec

    Modelled from the spec: [encode_fteid] and [decode_fteid], which the
    factory and the tests import from [gtp_c], are missing from the
    sources.  Section 4.7 gives the layout: one flags byte (bit 7: IPv4
    present, bit 6: IPv6 present, bits 5-0: interface type), the TEID as 4
    bytes big-endian, then the IPv4 address (4 bytes) and the IPv6 address
    (16 bytes) when present, in that order.  Encoding fails with a value
    error when neither address is given; decoding fails when fewer than 5
    bytes are present or when the bytes of a flagged address are not all
    there.  Addresses are modelled in their packed form. *)

Module fteid.
Local Open Scope Z_scope.

Record t : Type := mk {
  teid : Z;
  interface_type : Z;
  ipv4 : option bytes;
  ipv6 : option bytes;
}.

(** Modelled from the spec: the flags byte of an F-TEID value. *)
Definition flags_byte (interface_type : Z) (ipv4 ipv6 : option bytes) : Z :=
  Z.lor (Z.lor (if ipv4 is Some _ then 0x80 else 0)
               (if ipv6 is Some _ then 0x40 else 0))
        (Z.land interface_type 0x3f).

(** Modelled from the spec: [encode_fteid(teid, interface_type, ipv4, ipv6)]. *)
Definition encode_fteid (teid interface_type : Z) (ipv4 ipv6 : option bytes)
  : result bytes :=
  match ipv4, ipv6 with
  | None, None => Raise ValueError
  | _, _ =>
    t ← struct_pack 4 teid;
    Ok ([byte_of_N (Z.to_N (flags_byte interface_type ipv4 ipv6))] ++ t
        ++ default [] ipv4 ++ default [] ipv6)
  end.

(** Modelled from the spec: one optional address of [n] bytes at the head
    of [rest], present when [flag] is set in the flags byte. *)
Definition address (flags flag : Z) (n : nat) (rest : bytes)
  : result (option bytes * bytes) :=
  if Z.land flags flag =? 0 then Ok (None, rest)
  else if (length rest <? n)%nat then Raise (UnpackError TruncatedFTEID)
  else Ok (Some (take n rest), drop n rest).

(** Modelled from the spec: [decode_fteid(buf)]. *)
Definition decode_fteid (buf : bytes) : result t :=
  if (length buf <? 5)%nat then Raise (UnpackError TruncatedFTEID)
  else
    let flags := Z.of_N (be_value (take 1 buf)) in
    let teid := Z.of_N (be_value (take 4 (drop 1 buf))) in
    '(ipv4, rest) ← address flags 0x80 4 (drop 5 buf);
    '(ipv6, _) ← address flags 0x40 16 rest;
    Ok (mk teid (Z.land flags 0x3f) ipv4 ipv6).

End fteid.

(** * gtpc_factory.py: the encoding helpers

    A [str] argument is a [string]: a sequence of characters with code
    points below 256.  Integer arguments are [Z].  [_encode_apn], the one
    helper that writes the UTF-8 bytes of its argument, is also given for
    a [str] of any characters, in [unicode]. *)

Module gtpc_factory.
Local Open Scope N_scope.

#[global] Instance ascii_eq_decision : EqDecision ascii := ascii_dec.

(** The characters of a [str]. *)
Definition chars (s : string) : list ascii := list_ascii_of_string s.

(** [s.split(sep)] for a separator of one character. *)
Fixpoint split (sep : ascii) (s : list ascii) : list (list ascii) :=
  match s with
  | [] => [[]]
  | c :: s' =>
    if decide (c = sep) then [] :: split sep s'
    else match split sep s' with
         | l :: ls => (c :: l) :: ls
         | [] => [[c]]
         end
  end.

(** [int(c, 16)] for a string [c] of one character: the value of a
    hexadecimal digit, or a [ValueError]. *)
Definition int16 (c : ascii) : result N :=
  let n := N_of_ascii c in
  if (48 <=? n) && (n <=? 57) then Ok (n - 48)
  else if (97 <=? n) && (n <=? 102) then Ok (n - 87)
  else if (65 <=? n) && (n <=? 70) then Ok (n - 55)
  else Raise ValueError.

(** [bytes(int(s[i + 1], 16) << 4 | int(s[i], 16)
           for i in range(0, len(s), 2))], on [s[i:]]. *)
Fixpoint semi_octets (s : list ascii) : result bytes :=
  match s with
  | lo :: hi :: rest =>
    h ← int16 hi; l ← int16 lo;
    bs ← semi_octets rest;
    Ok (byte_of_N (N.lor (N.shiftl h 4) l) :: bs)
  | _ => Ok []
  end.

Definition _encode_imsi (imsi_str : string) : result bytes :=
  let s := chars imsi_str in
  let s := if Nat.odd (length s) then s ++ ["F"%char] else s in
  semi_octets s.

(** [c.encode()] for one character: UTF-8 of a code point below 256. *)
Definition utf8 (c : ascii) : bytes :=
  let n := N_of_ascii c in
  if n <? 128 then [byte_of_N n]
  else [byte_of_N (N.lor 0xc0 (N.shiftr n 6)); byte_of_N (N.lor 0x80 (N.land n 0x3f))].

(** [label.encode()] *)
Definition encode (label : list ascii) : bytes := flat_map utf8 label.

(** [bytes([n])] *)
Definition bytes_of_int (n : N) : result bytes :=
  if n <? 256 then Ok [byte_of_N n] else Raise ValueError.

(** [for label in labels: out += bytes([len(label)]) + label.encode()] *)
Fixpoint encode_labels (labels : list (list ascii)) (out : bytes) : result bytes :=
  match labels with
  | [] => Ok out
  | label :: rest =>
    n ← bytes_of_int (py_len label);
    encode_labels rest (out ++ n ++ encode label)
  end.

Definition _encode_apn (apn_str : string) : result bytes :=
  encode_labels (split "."%char (chars apn_str)) [].

(** [struct.pack('!Q', v)[-5:]] *)
Definition _br (v : Z) : result bytes :=
  b ← struct_pack 8 v; Ok (drop (length b - 5) b).

Definition _encode_bearer_qos (qci pci pl pvi mbr_ul mbr_dl gbr_ul gbr_dl : Z)
  : result bytes :=
  let flags := Z.lor (Z.lor (Z.shiftl (Z.land pci 0x1) 6) (Z.shiftl (Z.land pl 0xf) 2))
                     (Z.shiftl (Z.land pvi 0x1) 1) in
  h ← struct_pack_fields [(1%nat, flags); (1%nat, qci)];
  a ← _br mbr_ul; b ← _br mbr_dl; c ← _br gbr_ul; d ← _br gbr_dl;
  Ok (h ++ a ++ b ++ c ++ d).

(** ** [_encode_apn] on a [str] of any characters

    A [str] is a sequence of code points, numbers below 0x110000. *)

Module unicode.

(** [s.split(sep)] for a separator of one character. *)
Fixpoint split (sep : N) (s : list N) : list (list N) :=
  match s with
  | [] => [[]]
  | c :: s' =>
    if decide (c = sep) then [] :: split sep s'
    else match split sep s' with
         | l :: ls => (c :: l) :: ls
         | [] => [[c]]
         end
  end.

(** [c.encode()] for one character: the UTF-8 bytes of its code point,
    one to four of them.  A surrogate (U+D800 to U+DFFF) is refused with a
    [UnicodeEncodeError], which is a [ValueError]. *)
Definition utf8 (c : N) : result bytes :=
  if c <? 0x80 then Ok [byte_of_N c]
  else if c <? 0x800 then
    Ok [byte_of_N (N.lor 0xc0 (N.shiftr c 6));
        byte_of_N (N.lor 0x80 (N.land c 0x3f))]
  else if c <? 0x10000 then
    if (0xd800 <=? c) && (c <? 0xe000) then Raise ValueError
    else
      Ok [byte_of_N (N.lor 0xe0 (N.shiftr c 12));
          byte_of_N (N.lor 0x80 (N.land (N.shiftr c 6) 0x3f));
          byte_of_N (N.lor 0x80 (N.land c 0x3f))]
  else
    Ok [byte_of_N (N.lor 0xf0 (N.shiftr c 18));
        byte_of_N (N.lor 0x80 (N.land (N.shiftr c 12) 0x3f));
        byte_of_N (N.lor 0x80 (N.land (N.shiftr c 6) 0x3f));
        byte_of_N (N.lor 0x80 (N.land c 0x3f))].

(** [label.encode()] *)
Fixpoint encode (label : list N) : result bytes :=
  match label with
  | [] => Ok []
  | c :: rest => b ← utf8 c; bs ← encode rest; Ok (b ++ bs)
  end.

(** [for label in labels: out += bytes([len(label)]) + label.encode()] *)
Fixpoint encode_labels (labels : list (list N)) (out : bytes) : result bytes :=
  match labels with
  | [] => Ok out
  | label :: rest =>
    n ← bytes_of_int (py_len label);
    e ← encode label;
    encode_labels rest (out ++ n ++ e)
  end.

Definition _encode_apn (apn_str : list N) : result bytes :=
  encode_labels (split 46 apn_str) [].

End unicode.

(** ** Auxiliary notions of the proofs *)

(** The semi-octet of a digit string at position [i]: the low half of
    octet [i / 2] for an even [i], the high half for an odd one. *)
Definition semi_octet (out : bytes) (i : nat) : option N :=
  b ← out !! (i / 2)%nat;
  Some (if Nat.even i then N.land (ord b) 15 else N.shiftr (ord b) 4).

Definition is_decimal (c : ascii) : Prop := 48 <= N_of_ascii c <= 57.

Definition is_ascii (c : ascii) : Prop := N_of_ascii c < 128.

(** The code points of the characters of a [string]. *)
Definition points (s : list ascii) : list N := map N_of_ascii s.

(** A code point that a [str] can hold and UTF-8 can encode: below
    0x110000 and not a surrogate. *)
Definition scalar (c : N) : Prop := c < 0xd800 \/ 0xe000 <= c < 0x110000.

(** The number of characters of a label from code point [k] on. *)
Definition chars_from (k : N) (label : list N) : N :=
  py_len (filter (fun c => k <= c) label).

End gtpc_factory.

(** * Properties *)

(** ** Byte strings and struct *)

Lemma ord_bounded b : (ord b < 256)%N.
Proof. unfold ord. pose proof (Byte.to_N_bounded b). lia. Qed.

Lemma ord_byte_of_N n : ord (byte_of_N n) = (n mod 256)%N.
Proof.
  unfold ord, byte_of_N.
  pose proof (Byte.to_of_N_option_map (n mod 256)) as H.
  assert (Hlt : (n mod 256 < 256)%N) by (apply N.mod_lt; lia).
  destruct (n mod 256 <=? 255)%N eqn:E; [|apply N.leb_gt in E; lia].
  destruct (Byte.of_N (n mod 256)); simpl in H; congruence.
Qed.

Lemma be_value_snoc bs b : be_value (bs ++ [b]) = (be_value bs * 256 + ord b)%N.
Proof. unfold be_value. by rewrite fold_left_app. Qed.

Lemma length_be_bytes w v : length (be_bytes w v) = w.
Proof.
  revert v. induction w as [|w IH]; intros v; simpl; [done|].
  rewrite length_app, IH. simpl. lia.
Qed.

Lemma be_value_be_bytes w v : be_value (be_bytes w v) = (v mod 256 ^ N.of_nat w)%N.
Proof.
  revert v. induction w as [|w IH]; intros v.
  - simpl. by rewrite N.mod_1_r.
  - cbn [be_bytes]. rewrite be_value_snoc, IH, ord_byte_of_N.
    rewrite Nat2N.inj_succ, N.pow_succ_r'.
    rewrite (N.Div0.mod_mul_r v 256 (256 ^ N.of_nat w)). lia.
Qed.

(** What is packed is what is read back, for a value that fits. *)
Lemma struct_unpack_pack w v bs :
  struct_pack w v = Ok bs -> struct_unpack w bs = Ok (Z.to_N v).
Proof.
  unfold struct_pack, struct_unpack.
  destruct (_ && _)%bool eqn:E; [|done]. intros [= <-].
  rewrite length_be_bytes, Nat.eqb_refl, be_value_be_bytes.
  apply andb_true_iff in E as [H0 H1].
  apply Z.leb_le in H0. apply Z.ltb_lt in H1.
  f_equal. apply N.mod_small.
  apply N2Z.inj_lt. rewrite Z2N.id by done.
  rewrite N2Z.inj_pow. replace (Z.of_N 256) with (2 ^ 8)%Z by done.
  rewrite <- Z.pow_mul_r by lia. by rewrite nat_N_Z.
Qed.

(** ** The error monads *)

Lemma bind_ok {A B} (r : result A) (k : A -> result B) b :
  r ≫= k = Ok b -> exists a, r = Ok a /\ k a = Ok b.
Proof. destruct r as [a|e]; [|done]. intros H. by exists a. Qed.

Lemma struct_pack_2 v bs :
  struct_pack 2 v = Ok bs -> exists a b, bs = [a; b].
Proof.
  unfold struct_pack. destruct (_ && _)%bool; [|done]. intros [= <-].
  by eexists _, _.
Qed.

Lemma struct_pack_1 v bs : struct_pack 1 v = Ok bs -> exists a, bs = [a].
Proof.
  unfold struct_pack. destruct (_ && _)%bool; [|done]. intros [= <-].
  by eexists.
Qed.

Lemma stx_bind_ok {S A B} (m : stx S A) (k : A -> stx S B) s s' b :
  (m ≫= k) s = (s', Ok b) ->
  exists s1 a, m s = (s1, Ok a) /\ k a s1 = (s', Ok b).
Proof.
  unfold mbind, stx_bind. destruct (m s) as [s1 [a|e]]; [|done].
  intros H. by exists s1, a.
Qed.

Lemma struct_pack_fields_cons w v rest bs :
  struct_pack_fields ((w, v) :: rest) = Ok bs ->
  exists b bs', struct_pack w v = Ok b /\ struct_pack_fields rest = Ok bs' /\
                bs = b ++ bs'.
Proof.
  cbn [struct_pack_fields]. intros H.
  apply bind_ok in H as (b & Hb & H). apply bind_ok in H as (bs' & Hbs & H).
  injection H as <-. by exists b, bs'.
Qed.

Lemma struct_pack_ok w v :
  (0 <= v < 2 ^ (8 * Z.of_nat w))%Z ->
  struct_pack w v = Ok (be_bytes w (Z.to_N v)).
Proof.
  intros [H0 H1]. unfold struct_pack.
  apply Z.leb_le in H0. apply Z.ltb_lt in H1. by rewrite H0, H1.
Qed.

(** ** unpack_name: termination, the pointer guard and the length cap *)

Module unpack_name_properties.
Import dns.
Local Open Scope N_scope.

Ltac body_cases H :=
  unfold pass, unpack_name_body in H;
  repeat match type of H with
  | context [match ?x with _ => _ end] => destruct x eqn:?
  end; try discriminate.

Ltac bool_hyps :=
  repeat match goal with
  | H : (_ <=? _) = true |- _ => apply N.leb_le in H
  | H : (_ <=? _) = false |- _ => apply N.leb_gt in H
  | H : (_ <? _) = true |- _ => apply N.ltb_lt in H
  | H : (_ <? _) = false |- _ => apply N.ltb_ge in H
  | H : (_ =? _) = true |- _ => apply N.eqb_eq in H
  | H : (_ =? _) = false |- _ => apply N.eqb_neq in H
  end.

Lemma pass_decreases buf st st' :
  pass buf st st' -> capped st ->
  capped st' /\ (measure st' < measure st)%nat /\ start_off st' <= start_off st.
Proof.
  unfold capped, measure. intros H Hc.
  body_cases H; injection H as <-; simpl; bool_hyps; lia.
Qed.

Lemma loop_fuel_mono buf f f' st r :
  (f <= f')%nat ->
  unpack_name_loop f buf st = Some r -> unpack_name_loop f' buf st = Some r.
Proof.
  revert f' st. induction f as [|f IH]; intros f' st Hle; [done|].
  destruct f' as [|f']; [lia|]. simpl.
  destruct (unpack_name_body buf st); eauto with lia.
Qed.

Lemma loop_fuel_enough buf f st :
  capped st -> (measure st < f)%nat -> is_Some (unpack_name_loop f buf st).
Proof.
  revert st. induction f as [|f IH]; intros st Hc Hm; [lia|]. simpl.
  destruct (unpack_name_body buf st) as [st'| |] eqn:E; [|by eexists..].
  destruct (pass_decreases buf st st' E Hc) as (Hc' & Hm' & _).
  apply IH; [done|lia].
Qed.

Lemma run_pass buf st st' : capped st -> pass buf st st' -> run buf st = run buf st'.
Proof.
  intros Hc Hp. destruct (pass_decreases buf st st' Hp Hc) as (Hc' & Hm & _).
  destruct (loop_fuel_enough buf (S (measure st')) st' Hc') as [r Hr]; [lia|].
  unfold run at 1. simpl. rewrite Hp. unfold run. rewrite Hr.
  eapply loop_fuel_mono; [|done]. lia.
Qed.

Lemma run_throw buf st e : unpack_name_body buf st = Throw e -> run buf st = Some (Raise e).
Proof. intros H. unfold run. simpl. by rewrite H. Qed.

Lemma visits_capped buf o st : visits buf o st -> capped st /\ start_off st <= o.
Proof.
  unfold visits. revert st. apply rtc_ind_r.
  - unfold capped. simpl. lia.
  - intros st st' _ Hp [Hc Hs]. destruct (pass_decreases buf _ _ Hp Hc) as (? & _ & ?). split; [done|lia].
Qed.

Lemma visits_run buf o st : visits buf o st -> unpack_name buf o = run buf st.
Proof.
  unfold visits. revert st. apply rtc_ind_r; [done|].
  intros st st' Hv Hp IH. rewrite IH. apply run_pass; [|done].
  by apply (visits_capped buf o).
Qed.

Lemma pointer_guard buf st target :
  pointer_at buf st = Some target -> start_off st <= target ->
  unpack_name_body buf st = Throw (UnpackError InvalidPointer).
Proof.
  unfold pointer_at, unpack_name_body. intros H Hle.
  destruct (buf !! N.to_nat (off st)) as [b|]; [|done].
  destruct (N.land (ord b) 192 =? 192) eqn:E; [|done].
  assert ((ord b =? 0) = false) as ->.
  { apply N.eqb_neq. intros Hz. rewrite Hz in E. done. }
  destruct (struct_unpack 2 _) as [w|]; [|done].
  injection H as <-. apply N.leb_le in Hle. by rewrite Hle.
Qed.

Lemma slice_head (buf : bytes) o a b :
  slice buf o (o + 2) = [a; b] -> buf !! N.to_nat o = Some a.
Proof.
  unfold slice. intros H.
  replace (N.to_nat o) with (N.to_nat o + 0)%nat at 1 by lia.
  rewrite <- (lookup_drop buf (N.to_nat o) 0).
  destruct (drop (N.to_nat o) buf) as [|c l]; [by rewrite take_nil in H|].
  replace (N.to_nat (o + 2) - N.to_nat o)%nat with 2%nat in H by lia.
  simpl in H. by injection H as ->.
Qed.

Lemma unpack_name_terminates buf o : is_Some (unpack_name buf o).
Proof. apply loop_fuel_enough; unfold capped, measure; simpl; lia. Qed.

(** C1.  [unpack_name] raises the decode error 'Invalid label compression
    pointer' whenever the decoder arrives at a complete compression pointer
    whose 14-bit target is not below [start_off], the start of the stretch
    of the name that it is decoding; [start_off] never exceeds the offset
    [o] at which the name starts, so a target at or after [o] is always
    refused.  In particular a name at [o] that is a pointer to offset 0, in
    a buffer whose first two bytes are themselves a pointer to offset 0,
    ends in that error; and the loop ends for every buffer and offset. *)
Theorem unpack_name_pointer_guard :
  (forall buf o st target,
     visits buf o st -> pointer_at buf st = Some target ->
     start_off st <= target ->
     unpack_name buf o = Some (Raise (UnpackError InvalidPointer)))
  /\ (forall buf o st target,
     visits buf o st -> pointer_at buf st = Some target ->
     o <= target ->
     unpack_name buf o = Some (Raise (UnpackError InvalidPointer)))
  /\ (forall buf o,
     slice buf 0 2 = [xc0; x00] -> slice buf o (o + 2) = [xc0; x00] ->
     unpack_name buf o = Some (Raise (UnpackError InvalidPointer)))
  /\ (forall buf o, exists r, unpack_name buf o = Some r).
Proof.
  assert (Hstrong : forall buf o st target,
     visits buf o st -> pointer_at buf st = Some target ->
     start_off st <= target ->
     unpack_name buf o = Some (Raise (UnpackError InvalidPointer))).
  { intros buf o st target Hv Hp Hle.
    rewrite (visits_run buf o st Hv). apply run_throw. by eapply pointer_guard. }
  split; [done|]. split; [|split].
  - intros buf o st target Hv Hp Hle. eapply Hstrong; [done..|].
    destruct (visits_capped buf o st Hv). lia.
  - intros buf o H0 Ho.
    assert (Hat0 : forall s, pointer_at buf (NameState 0 0 s 0 []) = Some 0).
    { intros s. unfold pointer_at. simpl off. rewrite (slice_head buf 0 _ _ H0).
      change (0 + 2) with 2. rewrite H0. reflexivity. }
    destruct (N.eq_dec o 0) as [->|Hne].
    + apply (Hstrong buf 0 (init_state 0) 0); [apply rtc_refl|apply Hat0|simpl; lia].
    + apply (Hstrong buf o (NameState 0 0 (o + 2) 0 []) 0); [|apply Hat0|simpl; lia].
      apply rtc_once. unfold pass, unpack_name_body. simpl.
      rewrite Ho, (slice_head buf o _ _ Ho).
      change (ord xc0 =? 0) with false. change (N.land (ord xc0) 192 =? 192) with true.
      change (struct_unpack 2 [xc0; x00]) with (@Ok N 49152).
      cbv beta iota zeta. change (N.land 49152 16383) with 0.
      destruct (o <=? 0) eqn:E; [apply N.leb_le in E; lia|done].
  - intros buf o. apply unpack_name_terminates.
Qed.

Lemma octets_snoc labels l : octets (labels ++ [l]) = octets labels + (py_len l + 1).
Proof. unfold octets. induction labels as [|l' ls IH]; simpl; lia. Qed.

Lemma len_slice {A} (l : list A) a b :
  a <= b -> b <= py_len l -> py_len (slice l a b) = b - a.
Proof.
  unfold py_len, slice. intros Hab Hb. rewrite length_take, length_drop. lia.
Qed.

Lemma len_app {A} (l k : list A) : py_len (l ++ k) = py_len l + py_len k.
Proof. unfold py_len. rewrite length_app. lia. Qed.

Lemma len_join_dot labels :
  labels <> [] -> py_len (join [x2e] labels) + 1 = octets labels.
Proof.
  induction labels as [|l [|l' ls] IH]; intros Hne; [done|cbn; lia|].
  change (join [x2e] (l :: l' :: ls)) with (l ++ [x2e] ++ join [x2e] (l' :: ls)).
  change (octets (l :: l' :: ls)) with (py_len l + 1 + octets (l' :: ls)).
  rewrite <- IH by done. rewrite !len_app. change (py_len [x2e]) with 1. lia.
Qed.

Lemma body_too_long buf st :
  unpack_name_body buf st = Throw (UnpackError NameTooLong) <->
  exists n, label_at buf st = Some n /\ 255 < name_length st + (n + 1).
Proof.
  unfold unpack_name_body, label_at.
  destruct (buf !! N.to_nat (off st)) as [b|]; [|split; [done|by intros (? & ? & ?)]].
  destruct (ord b =? 0) eqn:E0; simpl; [split; [done|by intros (? & ? & ?)]|].
  destruct (N.land (ord b) 192 =? 192) eqn:E1.
  { assert ((N.land (ord b) 192 =? 0) = false) as ->.
    { apply N.eqb_eq in E1. rewrite E1. done. }
    split; [|by intros (? & ? & ?)].
    unfold struct_unpack. destruct (Nat.eqb _ _); [|done].
    by destruct (_ <=? _). }
  destruct (N.land (ord b) 192 =? 0); [|split; [done|by intros (? & ? & ?)]].
  destruct (255 <? _) eqn:E2; bool_hyps.
  - split; [intros _; by exists (ord b)|done].
  - split; [done|]. intros (n & [= <-] & ?). lia.
Qed.

Lemma loop_throw_visits buf e f st :
  unpack_name_loop f buf st = Some (Raise e) ->
  exists st', rtc (pass buf) st st' /\ unpack_name_body buf st' = Throw e.
Proof.
  revert st. induction f as [|f IH]; intros st; [done|]. simpl.
  destruct (unpack_name_body buf st) as [st1| |e'] eqn:E; [|done|].
  - intros H. destruct (IH _ H) as (st' & Hr & Hb).
    exists st'. split; [|done]. by eapply rtc_l.
  - intros [= ->]. exists st. split; [apply rtc_refl|done].
Qed.

Lemma pass_in_buffer buf st st' : pass buf st st' -> off st < py_len buf.
Proof.
  unfold pass, unpack_name_body. intros H.
  destruct (buf !! N.to_nat (off st)) eqn:E; [|done].
  apply lookup_lt_Some in E. unfold py_len. lia.
Qed.

Lemma visits_name_length buf o st :
  visits buf o st -> off st <= py_len buf -> name_length st = octets (name st).
Proof.
  unfold visits. revert st.
  apply (rtc_ind_r (fun st => off st <= py_len buf -> name_length st = octets (name st)));
    [done|].
  intros st st' _ Hp IH Hin.
  pose proof (pass_in_buffer _ _ _ Hp) as Hlt.
  assert (Hnl : name_length st = octets (name st)) by (apply IH; lia).
  body_cases Hp; injection Hp as <-; simpl in *; try done.
  all: rewrite octets_snoc, len_slice by lia; lia.
Qed.

Lemma octets_label_bytes labels :
  octets labels = py_len (mjoin labels) + py_len labels.
Proof.
  induction labels as [|l ls IH]; [done|].
  change (octets (l :: ls)) with (py_len l + 1 + octets ls).
  change (mjoin (l :: ls)) with (l ++ mjoin ls).
  rewrite IH, len_app. unfold py_len. cbn [length]. lia.
Qed.

(** C6.  The decoder keeps in [name_length] the octets of the labels read
    so far, each label counted with its length octet: the label bytes plus
    the number of labels, which is one more than the length of the decoded
    name, the labels joined with dots.  Decoding fails with 'name longer
    than 255 bytes' exactly when it arrives at a label that takes this
    count above 255: a count that stays at or below 255, that is a decoded
    name of at most 254 bytes, is never refused by the cap.  A name of 255
    such octets decodes, one of 256 is refused. *)
Theorem unpack_name_length_cap :
  (forall buf o st n,
     visits buf o st -> label_at buf st = Some n ->
     255 < name_length st + (n + 1) ->
     unpack_name buf o = Some (Raise (UnpackError NameTooLong)))
  /\ (forall buf o,
     unpack_name buf o = Some (Raise (UnpackError NameTooLong)) ->
     exists st n, visits buf o st /\ label_at buf st = Some n /\
                  255 < name_length st + (n + 1))
  /\ (forall buf o st,
     visits buf o st -> off st <= py_len buf ->
     name_length st = octets (name st)
     /\ name_length st = py_len (mjoin (name st)) + py_len (name st)
     /\ (name st <> [] -> name_length st = py_len (join [x2e] (name st)) + 1))
  /\ (exists nm, unpack_name name_of_255 0 = Some (Ok (nm, 256)) /\ py_len nm = 254)
  /\ unpack_name name_of_256 0 = Some (Raise (UnpackError NameTooLong)).
Proof.
  split; [|split; [|split; [|split]]].
  - intros buf o st n Hv Hl Hgt. rewrite (visits_run buf o st Hv).
    apply run_throw, body_too_long. by exists n.
  - intros buf o H. apply loop_throw_visits in H as (st & Hv & Hb).
    apply body_too_long in Hb as (n & ? & ?). by exists st, n.
  - intros buf o st Hv Hin.
    pose proof (visits_name_length buf o st Hv Hin) as Hn.
    split; [done|]. split.
    + by rewrite Hn, octets_label_bytes.
    + intros Hne. by rewrite Hn, <- len_join_dot.
  - eexists. split; [vm_compute; reflexivity|]. vm_compute. reflexivity.
  - vm_compute. reflexivity.
Qed.

(** Four labels of 63 bytes have 252 label bytes and make a decoded name
    of 255 bytes; the decoder refuses them, because with their four length
    octets they take 256 octets. *)
Lemma unpack_name_cap_refuses_255_bytes :
  let labels := replicate 4 (replicate 63 x61) in
  name_of_256 = wire labels ++ [x00]
  /\ py_len (mjoin labels) = 252
  /\ py_len (join [x2e] labels) = 255
  /\ unpack_name name_of_256 0 = Some (Raise (UnpackError NameTooLong)).
Proof. cbv zeta. repeat split; vm_compute; reflexivity. Qed.

(** The buffer of [test_circular_pointers], decoded at the question. *)
Lemma unpack_name_pointer_guard_witness :
  unpack_name circular_pointers 12 = Some (Raise (UnpackError InvalidPointer)).
Proof.
  apply (proj1 unpack_name_pointer_guard circular_pointers 12
           (NameState 0 0 26 12 [B "example"; B "com"]) 0).
  - unfold visits.
    eapply rtc_l; [unfold pass; vm_compute; reflexivity|].
    eapply rtc_l; [unfold pass; vm_compute; reflexivity|].
    eapply rtc_l; [unfold pass; vm_compute; reflexivity|].
    apply rtc_refl.
  - vm_compute. reflexivity.
  - vm_compute. discriminate.
Defined.

(** Four labels of 63 bytes: the fourth takes the count to 256. *)
Lemma unpack_name_length_cap_witness :
  unpack_name name_of_256 0 = Some (Raise (UnpackError NameTooLong)).
Proof.
  apply (proj1 unpack_name_length_cap name_of_256 0
           (NameState 192 0 0 192 (replicate 3 (replicate 63 x61))) 63).
  - unfold visits.
    eapply rtc_l; [unfold pass; vm_compute; reflexivity|].
    eapply rtc_l; [unfold pass; vm_compute; reflexivity|].
    eapply rtc_l; [unfold pass; vm_compute; reflexivity|].
    apply rtc_refl.
  - vm_compute. reflexivity.
  - vm_compute. reflexivity.
Defined.

End unpack_name_properties.

(** ** The flags word *)

Module flags_properties.
Import dns.
Local Open Scope Z_scope.

Lemma land_flag_set mask v op k :
  Z.land mask k = 0 -> Z.land (flag_set mask v op) k = Z.land op k.
Proof.
  intros Hd. unfold flag_set. destruct (v =? 0).
  - rewrite <- Z.land_assoc. f_equal.
    apply Z.bits_inj'. intros n Hn.
    rewrite Z.land_spec, Z.lnot_spec by done.
    assert (Hb : Z.testbit (Z.land mask k) n = false) by (rewrite Hd; apply Z.bits_0).
    rewrite Z.land_spec in Hb.
    destruct (Z.testbit mask n), (Z.testbit k n); done.
  - rewrite Z.land_lor_distr_l, Hd. apply Z.lor_0_r.
Qed.

Lemma land_set_field mask sh v op k :
  Z.land mask k = 0 ->
  Z.land (Z.lor (Z.land op (Z.lnot mask)) (Z.land (Z.shiftl v sh) mask)) k
  = Z.land op k.
Proof.
  intros Hd. rewrite Z.land_lor_distr_l.
  rewrite <- (Z.land_assoc (Z.shiftl v sh)), Hd, Z.land_0_r, Z.lor_0_r.
  rewrite <- Z.land_assoc. f_equal.
  apply Z.bits_inj'. intros n Hn.
  rewrite Z.land_spec, Z.lnot_spec by done.
  assert (Hb : Z.testbit (Z.land mask k) n = false) by (rewrite Hd; apply Z.bits_0).
  rewrite Z.land_spec in Hb.
  destruct (Z.testbit mask n), (Z.testbit k n); done.
Qed.

(** A setter leaves alone every bit outside the mask of its field. *)
Lemma setter_frame a v op k :
  Z.land (field_mask a) k = 0 -> Z.land (setter a v op) k = Z.land op k.
Proof.
  destruct a; simpl; intros Hd;
    try (by apply land_flag_set).
  - unfold set_opcode. rewrite Z.shiftl_land.
    change (Z.shiftl 15 11) with 0x7800. by apply land_set_field.
  - unfold set_rcode. rewrite <- (Z.shiftl_0_r v) at 1. by apply land_set_field.
Qed.

(** What a getter returns depends on the bits of its mask only. *)
Lemma getter_mask a op op' :
  Z.land op (field_mask a) = Z.land op' (field_mask a) ->
  getter a op = getter a op'.
Proof.
  destruct a; simpl; unfold qr, aa, tc, rd, ra, zero, flag_get, opcode, rcode;
    intros H; try (by rewrite H); try done.
  change 15 with (Z.shiftr 0x7800 11).
  rewrite <- !Z.shiftr_land. by rewrite H.
Qed.

Lemma masks_disjoint a b : a <> b -> Z.land (field_mask a) (field_mask b) = 0.
Proof. destruct a, b; intros H; try done. Qed.

(** C7.  Setting the field of one accessor of the flags word leaves what
    every other accessor reads unchanged, for every flags word and every
    value set.  The class has accessors for QR, Opcode, AA, TC, RD, RA, Z
    and RCODE; it has none for AD and CD, whose bits in the flags word no
    setter changes.  From 0x8180, setting RD to 0 gives 0x8080, and QR
    still reads 1. *)
Theorem flag_setters_independent :
  (forall (a b : accessor) (v op : Z),
     a <> b -> getter b (setter a v op) = getter b op)
  /\ (forall (a : accessor) (v op : Z),
     Z.land (setter a v op) DNS_AD = Z.land op DNS_AD /\
     Z.land (setter a v op) DNS_CD = Z.land op DNS_CD)
  /\ set_rd 0 0x8180 = 0x8080
  /\ qr (set_rd 0 0x8180) = 1.
Proof.
  split; [|split; [|split]]; [| |done..].
  - intros a b v op Hab. apply getter_mask, setter_frame, masks_disjoint, Hab.
  - intros a v op. split; apply setter_frame; by destruct a.
Qed.

Lemma flag_setters_independent_witness :
  RD <> QR /\ getter QR (setter RD 0 0x8180) = getter QR 0x8180.
Proof.
  split; [discriminate|].
  apply (proj1 flag_setters_independent RD QR 0 0x8180). discriminate.
Defined.

End flags_properties.

(** ** pack_name and the compression table *)

Module pack_name_properties.
Import dns.
Local Open Scope N_scope.

Lemma pack_name_loop_below_guard labels off buf t :
  below_guard t -> below_guard (fst (pack_name_loop labels off buf t)).
Proof.
  revert buf t. induction labels as [|label rest IH]; intros buf t Ht; [done|].
  cbn [pack_name_loop].
  destruct (t !! upper (join [x2e] (label :: rest))) as [[|p]|]; [|done|].
  all: match goal with
       | |- context [if 1 <? ?l then _ else _] => destruct (1 <? l)
       end.
  all: try match goal with
       | |- context [if ?a <? 49152 then _ else _] => destruct (a <? 49152) eqn:E
       end.
  all: destruct (struct_pack 1 _); simpl; try apply IH; try done.
  all: try (apply map_Forall_insert_2; [by apply N.ltb_lt|done]).
Qed.

Lemma pack_name_below_guard name off t :
  below_guard t -> below_guard (fst (pack_name name off t)).
Proof. apply pack_name_loop_below_guard. Qed.

(** C3.  Packing the name a.b at offset 0x4000 records that offset, which
    does not fit in 14 bits, in the table; the pointer emitted from it for
    the same name later has target 0 in its low 14 bits. *)
Lemma pack_name_guard_admits_0x4000 :
  let t := fst (pack_name (B "a.b") 0x4000 ∅) in
  t !! B "A.B." = Some 0x4000
  /\ exists w, snd (pack_name (B "a.b") 0x4007 t) = Ok w /\ pointer_target w = 0.
Proof.
  split; [vm_compute; reflexivity|].
  eexists. split; vm_compute; reflexivity.
Qed.

End pack_name_properties.

(** ** Count and length fields on encode *)

Module encode_properties.
Import dns.
Local Open Scope N_scope.

Section prefix.
Context {RR : Type}.
Context (rr_name : RR -> bytes) (rr_type rr_cls rr_ttl : RR -> Z).
Context (pack_rdata : RR -> N -> packer bytes).

Lemma pack_q_prefix buf q t t' out :
  pack_q buf q t = (t', Ok out) -> buf `prefix_of` out.
Proof.
  unfold pack_q. intros H.
  apply stx_bind_ok in H as (t1 & nm & _ & H).
  apply stx_bind_ok in H as (t2 & tc & _ & H).
  injection H as _ <-. by eexists.
Qed.

Lemma pack_rr_prefix buf rr t t' out :
  pack_rr rr_name rr_type rr_cls rr_ttl pack_rdata buf rr t = (t', Ok out) ->
  buf `prefix_of` out.
Proof.
  unfold pack_rr. intros H.
  apply stx_bind_ok in H as (t1 & nm & _ & H).
  apply stx_bind_ok in H as (t2 & rdata & _ & H).
  apply stx_bind_ok in H as (t3 & h & _ & H).
  injection H as _ <-. by eexists.
Qed.

Lemma pack_each_prefix {X} (f : bytes -> X -> packer bytes) xs buf t t' out :
  (forall buf x t t' out, f buf x t = (t', Ok out) -> buf `prefix_of` out) ->
  pack_each f xs buf t = (t', Ok out) -> buf `prefix_of` out.
Proof.
  intros Hf. revert buf t. induction xs as [|x xs IH]; intros buf t H.
  - by injection H as _ <-.
  - cbn [pack_each] in H. apply stx_bind_ok in H as (t1 & buf1 & H1 & H).
    etrans; [by eapply Hf|by eapply IH].
Qed.

(** The output of [DNS.__bytes__] starts with the six header fields. *)
Lemma DNS_bytes_header m out :
  DNS_bytes rr_name rr_type rr_cls rr_ttl pack_rdata m = Ok out ->
  exists i o q a n r rest,
    struct_pack 2 (id m) = Ok i /\ struct_pack 2 (op m) = Ok o /\
    struct_pack 2 (Z.of_N (py_len (qd m))) = Ok q /\
    struct_pack 2 (Z.of_N (py_len (an m))) = Ok a /\
    struct_pack 2 (Z.of_N (py_len (ns m))) = Ok n /\
    struct_pack 2 (Z.of_N (py_len (ar m))) = Ok r /\
    out = i ++ o ++ q ++ a ++ n ++ r ++ rest.
Proof.
  unfold DNS_bytes. intros H.
  match type of H with snd (?m ?t) = _ => destruct (m t) as [t' res] eqn:E end.
  simpl in H. subst res.
  apply stx_bind_ok in E as (t0 & hdr & Hh & E).
  apply (f_equal snd) in Hh. cbv beta iota delta [snd lift] in Hh.
  apply struct_pack_fields_cons in Hh as (i & ? & Hi & Hh & ->).
  apply struct_pack_fields_cons in Hh as (o & ? & Ho & Hh & ->).
  apply struct_pack_fields_cons in Hh as (q & ? & Hq & Hh & ->).
  apply struct_pack_fields_cons in Hh as (a & ? & Ha & Hh & ->).
  apply struct_pack_fields_cons in Hh as (n & ? & Hn & Hh & ->).
  apply struct_pack_fields_cons in Hh as (r & ? & Hr & Hh & ->).
  injection Hh as <-.
  apply stx_bind_ok in E as (t1 & b1 & H1 & E). apply pack_each_prefix in H1; [|apply pack_q_prefix].
  apply stx_bind_ok in E as (t2 & b2 & H2 & E). apply pack_each_prefix in H2; [|apply pack_rr_prefix].
  apply stx_bind_ok in E as (t3 & b3 & H3 & E). apply pack_each_prefix in H3; [|apply pack_rr_prefix].
  apply pack_each_prefix in E; [|apply pack_rr_prefix].
  assert (Hp : (i ++ o ++ q ++ a ++ n ++ r ++ []) `prefix_of` out)
    by (do 3 (etrans; [done|]); done).
  destruct Hp as [rest ->].
  exists i, o, q, a, n, r, rest. repeat (split; [done|]).
  rewrite app_nil_r. by rewrite <- !app_assoc.
Qed.
End prefix.


Lemma count_field v bs :
  struct_pack 2 (Z.of_N v) = Ok bs -> struct_unpack 2 bs = Ok v.
Proof. intros H. apply struct_unpack_pack in H. by rewrite N2Z.id in H. Qed.

Lemma IEv2_pack_hdr_inv ie ie' hdr :
  gtp_c.IEv2.pack_hdr ie = (ie', Ok hdr) ->
  ie' = gtp_c.IEv2.mk (gtp_c.IEv2.type ie) (Z.of_N (py_len (gtp_c.IEv2.data ie)))
                      (gtp_c.IEv2.flags ie) (gtp_c.IEv2.data ie)
  /\ exists t l f,
      struct_pack 1 (gtp_c.IEv2.type ie) = Ok t /\
      struct_pack 2 (Z.of_N (py_len (gtp_c.IEv2.data ie))) = Ok l /\
      struct_pack 1 (gtp_c.IEv2.flags ie) = Ok f /\
      hdr = t ++ l ++ f.
Proof.
  unfold gtp_c.IEv2.pack_hdr. intros H.
  apply stx_bind_ok in H as (s1 & [] & H1 & H).
  injection H1 as <-.
  apply stx_bind_ok in H as (s2 & self & H2 & H).
  injection H2 as <- <-.
  unfold lift in H. injection H as <- H. split; [done|].
  unfold Packet.pack_hdr in H. cbn [gtp_c.IEv2.type gtp_c.IEv2.len gtp_c.IEv2.flags] in H.
  destruct (struct_pack_fields _) as [bs|e] eqn:E; [|by destruct e].
  injection H as ->.
  apply struct_pack_fields_cons in E as (t & ? & Ht & E & ->).
  apply struct_pack_fields_cons in E as (l & ? & Hl & E & ->).
  apply struct_pack_fields_cons in E as (f & ? & Hf & E & ->).
  injection E as <-. exists t, l, f. by rewrite app_nil_r.
Qed.

(** C9.  The count and length fields written on encode come from the
    contents at that moment.  Whenever [DNS.__bytes__] returns, bytes 4-12
    of its output are the lengths of the [qd], [an], [ns] and [ar] lists
    as 16-bit big-endian numbers (the message holds the lists themselves,
    no separate counts).  [IEv2.pack_hdr] stores the length of the value
    bytes in [len] and writes it as the 2-byte length field, whatever [len]
    held before; an IE whose type, flags and value length fit their fields
    does encode. *)
Theorem encode_counts_derived :
  (forall (RR : Type) (rr_name : RR -> bytes) (rr_type rr_cls rr_ttl : RR -> Z)
          (pack_rdata : RR -> N -> packer bytes) (m : DNS) (out : bytes),
     DNS_bytes rr_name rr_type rr_cls rr_ttl pack_rdata m = Ok out ->
     struct_unpack 2 (slice out 4 6) = Ok (py_len (qd m)) /\
     struct_unpack 2 (slice out 6 8) = Ok (py_len (an m)) /\
     struct_unpack 2 (slice out 8 10) = Ok (py_len (ns m)) /\
     struct_unpack 2 (slice out 10 12) = Ok (py_len (ar m)))
  /\ (forall (ie ie' : gtp_c.IEv2.t) (hdr : bytes),
     gtp_c.IEv2.pack_hdr ie = (ie', Ok hdr) ->
     struct_unpack 2 (slice hdr 1 3) = Ok (py_len (gtp_c.IEv2.data ie)) /\
     gtp_c.IEv2.len ie' = Z.of_N (py_len (gtp_c.IEv2.data ie)))
  /\ (forall (ie : gtp_c.IEv2.t) (out : bytes),
     gtp_c.IEv2.__bytes__ ie = Ok out ->
     struct_unpack 2 (slice out 1 3) = Ok (py_len (gtp_c.IEv2.data ie)) /\
     slice_from out 4 = gtp_c.IEv2.data ie)
  /\ (forall ie : gtp_c.IEv2.t,
     (0 <= gtp_c.IEv2.type ie < 256)%Z -> (0 <= gtp_c.IEv2.flags ie < 256)%Z ->
     py_len (gtp_c.IEv2.data ie) < 65536 ->
     exists out, gtp_c.IEv2.__bytes__ ie = Ok out).
Proof.
  split; [|split; [|split]].
  - intros RR rr_name rr_type rr_cls rr_ttl pack_rdata m out H.
    apply DNS_bytes_header in H
      as (i & o & q & a & n & r & rest & Hi & Ho & Hq & Ha & Hn & Hr & ->).
    apply count_field in Hq, Ha, Hn, Hr.
    apply struct_pack_2 in Hi as (? & ? & ->), Ho as (? & ? & ->).
    pose proof Hq as Hq'. pose proof Ha as Ha'. pose proof Hn as Hn'.
    pose proof Hr as Hr'.
    unfold struct_unpack in Hq', Ha', Hn', Hr'.
    destruct q as [|? [|? [|]]], a as [|? [|? [|]]], n as [|? [|? [|]]],
      r as [|? [|? [|]]]; try discriminate.
    done.
  - intros ie ie' hdr H. apply IEv2_pack_hdr_inv in H as (-> & t & l & f & Ht & Hl & Hf & ->).
    split; [|done]. apply count_field in Hl.
    apply struct_pack_1 in Ht as (? & ->).
    pose proof Hl as Hl'. unfold struct_unpack in Hl'.
    destruct l as [|? [|? [|]]]; try discriminate. done.
  - intros ie out H. unfold gtp_c.IEv2.__bytes__ in H.
    apply bind_ok in H as (h & Hh & H). injection H as <-.
    destruct (gtp_c.IEv2.pack_hdr ie) as [ie' r] eqn:E. simpl in Hh. subst r.
    apply IEv2_pack_hdr_inv in E as (-> & t & l & f & Ht & Hl & Hf & ->).
    apply count_field in Hl.
    apply struct_pack_1 in Ht as (? & ->), Hf as (? & ->).
    pose proof Hl as Hl'. unfold struct_unpack in Hl'.
    destruct l as [|? [|? [|]]]; try discriminate. done.
  - intros [t l f d] Ht Hf Hd. cbn in Ht, Hf, Hd.
    unfold gtp_c.IEv2.__bytes__, gtp_c.IEv2.pack_hdr, Packet.pack_hdr.
    unfold mbind, stx_bind, modify, get, lift. cbn -[struct_pack py_len Z.of_N].
    rewrite !struct_pack_ok by (cbn; lia). cbn. by eexists.
Qed.

Lemma encode_counts_derived_witness :
  exists out,
    DNS_bytes r_name r_type r_cls r_ttl raw_pack_rdata cnn_query = Ok out /\
    struct_unpack 2 (slice out 4 6) = Ok 1.
Proof.
  eexists. split; [vm_compute; reflexivity|].
  apply (proj1 encode_counts_derived raw_rr r_name r_type r_cls r_ttl
           raw_pack_rdata cnn_query).
  vm_compute. reflexivity.
Defined.

End encode_properties.

(** ** gtp_c.py *)

Module gtp_c_properties.
Import gtp_c.
Local Open Scope Z_scope.

(** C5.  On an IE whose flags byte is 0, setting the CR flag to 3 and
    reading it back gives 0, and so does setting the instance to 5: both
    setters leave the flags byte as it is. *)
Lemma IEv2_flag_setters_do_nothing :
  let ie := IEv2.mk 1 0 0 [x00] in
  IEv2.cr_flag (IEv2.set_cr_flag 3 ie) = 0
  /\ IEv2.instance (IEv2.set_instance 5 ie) = 0
  /\ IEv2.flags (IEv2.set_instance 3 (IEv2.set_cr_flag 10 ie)) = 0.
Proof. by vm_compute. Qed.

(** A TV-form IE whose type is not a key of [TV_LEN_DICT] decodes: its
    length is [None] and its value is all that follows the type byte. *)
Lemma IEv1_unknown_tv_type :
  forall (b : byte) (rest : bytes),
    (ord b < 128)%N -> TV_LEN_DICT !! Z.of_N (ord b) = None ->
    IEv1.of_bytes (b :: rest) = Ok (IEv1.mk (Z.of_N (ord b)) PNone rest).
Proof.
  intros b rest Hb Hd. unfold IEv1.of_bytes, Packet.init, IEv1.unpack.
  cbn -[TV_LEN_DICT Z.land Z.shiftr ord].
  rewrite !take_0, !drop_0. cbn [fold_left]. rewrite N.mul_0_l, N.add_0_l.
  assert ((Z.land (Z.shiftr (Z.of_N (ord b)) 7) 1 =? 0) = true) as ->.
  { apply Z.eqb_eq. rewrite Z.shiftr_div_pow2 by lia.
    rewrite Z.div_small by (change (2 ^ 7) with 128; lia). done. }
  by rewrite Hd.
Qed.

(** C4.  Type 0x1e is not a key of [TV_LEN_DICT]; the buffer of
    [test_iev1_unknown_tv_type_raises] decodes to an IE instead of raising
    a decode error. *)
Lemma IEv1_unknown_tv_type_decodes :
  TV_LEN_DICT !! 0x1e = None
  /\ IEv1.of_bytes [x1e; x00] = Ok (IEv1.mk 0x1e PNone [x00]).
Proof. split; vm_compute; reflexivity. Qed.

(** C2.  Decoding an Echo Response without TEID leaves the 5th payload
    byte, the type byte of the Recovery IE, out of the bytes given to the
    loop over the IEs: the loop starts 9 bytes into the message and reads
    an IE of type 0.  [pack_hdr] on the message puts 4 bytes (sequence
    number and spare) before the IE. *)
Lemma GTPv2C_no_teid_skips_five_bytes :
  GTPv2C.unpack_fields echo_response
  = Ok (GTPv2C.mk 0x40 2 9 PUnset (PBytes [x00; x00; x01]) PUnset
          (BBytes (drop 9 echo_response)) None,
        drop 9 echo_response)
  /\ GTPv2C.of_bytes echo_response
     = Some (Ok (GTPv2C.mk 0x40 2 9 PUnset (PBytes [x00; x00; x01]) PUnset
                   (BList [IEv2.mk 0 256 7 []]) (Some [IEv2.mk 0 256 7 []])))
  /\ GTPv2C.data (fst (GTPv2C.pack_hdr echo_response_message))
     = BBytes (drop 4 echo_response).
Proof. repeat split; vm_compute; reflexivity. Qed.

(** The loop over the information elements ends when every element that
    is decoded takes at least one byte. *)
Lemma unpack_ies_total {IE} (of_bytes : bytes -> result IE) (ie_len : IE -> N) :
  (forall data ie, of_bytes data = Ok ie -> (0 < ie_len ie)%N) ->
  forall fuel data, (length data <= fuel)%nat ->
    is_Some (unpack_ies of_bytes ie_len fuel data).
Proof.
  intros Hpos fuel. induction fuel as [|fuel IH]; intros data Hlen.
  - destruct data; [by eexists|simpl in Hlen; lia].
  - destruct data as [|b data]; [by eexists|].
    cbn [unpack_ies]. destruct (of_bytes (b :: data)) as [ie|e] eqn:E; [|by eexists].
    apply Hpos in E.
    destruct (IH (slice_from (b :: data) (ie_len ie))) as [r Hr].
    { unfold slice_from. rewrite length_drop. simpl in *. lia. }
    rewrite Hr. destruct r as [l|e]; by eexists.
Qed.

Lemma IEv2_len_pos data ie : IEv2.of_bytes data = Ok ie -> (0 < IEv2.__len__ ie)%N.
Proof. intros _. unfold IEv2.__len__, IEv2.hdr_len. lia. Qed.

Lemma GTPv2C_unpack_terminates buf : is_Some (GTPv2C.unpack buf).
Proof.
  unfold GTPv2C.unpack. destruct (GTPv2C.unpack_fields buf) as [[self data]|e]; [|by eexists].
  destruct (unpack_ies_total IEv2.of_bytes IEv2.__len__ IEv2_len_pos
              (length data) data) as [r Hr]; [done|].
  rewrite Hr. destruct r; by eexists.
Qed.

(** Without the TEID flag, the loop over the information elements starts
    9 bytes into the message: 4 bytes of header and 5 bytes of payload. *)
Lemma GTPv2C_unpack_fields_no_teid f t l1 l0 payload :
  Z.land (Z.shiftr (Z.of_N (ord f)) 3) 1 = 0 ->
  exists self,
    GTPv2C.unpack_fields (f :: t :: l1 :: l0 :: payload) = Ok (self, drop 5 payload)
    /\ GTPv2C.seqnum self = PBytes (take 3 payload).
Proof.
  intros Hf. unfold GTPv2C.unpack_fields.
  cbn -[Z.land Z.shiftr ord Z.of_N N.mul N.add slice slice_from].
  rewrite !take_0, !drop_0. cbn [fold_left]. rewrite !N.mul_0_l, !N.add_0_l.
  rewrite Hf. cbn -[ord Z.of_N N.mul N.add slice slice_from].
  eexists. split; [reflexivity|]. cbn. unfold slice. by rewrite drop_0.
Qed.

(** [pack_hdr] leaves an element with its [len] set, whether or not it
    can write the header. *)
Lemma IEv2_pack_hdr_fst ie : fst (IEv2.pack_hdr ie) = IEv2.packed ie.
Proof. reflexivity. Qed.

(** When the bytes of all elements can be written, all elements are left
    with their [len] set. *)
Lemma IEv2_after_bytes_ok l : forall J,
  join_bytes IEv2.__bytes__ l = Ok J -> IEv2.after_bytes l = map IEv2.packed l.
Proof.
  induction l as [|d l IH]; intros J H; [done|].
  cbn [join_bytes] in H.
  apply bind_ok in H as (b & Hb & H). apply bind_ok in H as (J' & HJ' & _).
  cbn [IEv2.after_bytes map]. unfold IEv2.__bytes__ in Hb.
  pose proof (IEv2_pack_hdr_fst d) as Hf.
  destruct (IEv2.pack_hdr d) as [d' [h|e]]; [|done].
  cbn in Hf. subst d'. by rewrite (IH J').
Qed.

(** What [pack_hdr] makes of a GTPv2-C message that holds a list of
    elements and an integer sequence number. *)
Lemma GTPv2C_pack_hdr_list fl ty ln te pr ie ds body s :
  join_bytes IEv2.__bytes__ ds = Ok body ->
  let seq := [byte_of_Z (Z.land (Z.shiftr s 16) 0xff);
              byte_of_Z (Z.land (Z.shiftr s 8) 0xff); byte_of_Z (Z.land s 0xff)] in
  GTPv2C.pack_hdr (GTPv2C.mk fl ty ln te (PInt s) pr (BList ds) ie)
  = if Z.land (Z.shiftr fl 3) 0x1 =? 0 then
      GTPv2C.Packet_pack_hdr
        (GTPv2C.mk fl ty (Z.of_N (py_len (seq ++ [x00] ++ body))) te (PBytes seq) pr
                   (BBytes (seq ++ [x00] ++ body)) ie)
    else
      match as_int te with
      | Ok t =>
        let teid := [byte_of_Z (Z.land (Z.shiftr t 24) 0xff);
                     byte_of_Z (Z.land (Z.shiftr t 16) 0xff);
                     byte_of_Z (Z.land (Z.shiftr t 8) 0xff);
                     byte_of_Z (Z.land t 0xff)] in
        GTPv2C.Packet_pack_hdr
          (GTPv2C.mk fl ty (Z.of_N (py_len (teid ++ seq ++ [x00] ++ body)))
                     (PBytes teid) (PBytes seq) pr
                     (BBytes (teid ++ seq ++ [x00] ++ body)) ie)
      | Raise e =>
        (GTPv2C.mk fl ty ln te (PBytes seq) pr (BList (map IEv2.packed ds)) ie,
         Raise e)
      end.
Proof.
  intros HJ seq.
  unfold GTPv2C.pack_hdr, mbind, stx_bind, get, lift, modify.
  cbn -[Packet.pack_hdr byte_of_Z Z.land Z.shiftr py_len IEv2.after_bytes].
  rewrite HJ, (IEv2_after_bytes_ok ds body HJ).
  cbn -[Packet.pack_hdr byte_of_Z Z.land Z.shiftr py_len].
  unfold GTPv2C.t_flag. cbn [GTPv2C.flags].
  destruct (Z.land (Z.shiftr fl 3) 1 =? 0) eqn:Et.
  - cbn -[Packet.pack_hdr byte_of_Z Z.land Z.shiftr py_len]. reflexivity.
  - cbn -[Packet.pack_hdr byte_of_Z Z.land Z.shiftr py_len].
    destruct te; cbn -[Packet.pack_hdr byte_of_Z Z.land Z.shiftr py_len]; reflexivity.
Qed.

(** [bytes(msg)] of a message that has its [ies]: the elements of [ies]
    get their [len] set, then [pack_hdr] runs, and the bytes of the
    elements of [ies] follow the header that it returns. *)
Lemma GTPv2C_bytes_list fl ty ln te sq pr da l J :
  join_bytes IEv2.__bytes__ l = Ok J ->
  GTPv2C.__bytes__ (GTPv2C.mk fl ty ln te sq pr da (Some l))
  = match GTPv2C.pack_hdr (GTPv2C.mk fl ty ln te sq pr da (Some (map IEv2.packed l))) with
    | (self', Ok h) => (self', Ok (h ++ J))
    | (self', Raise e) => (self', Raise e)
    end.
Proof.
  intros HJ. unfold GTPv2C.__bytes__.
  unfold mbind at 1, stx_bind at 1, get. cbn [GTPv2C.ies].
  unfold mbind at 1, stx_bind at 1, modify.
  unfold mbind at 1, stx_bind at 1, lift. rewrite HJ.
  rewrite (IEv2_after_bytes_ok l J HJ).
  unfold mbind at 1, stx_bind at 1. unfold GTPv2C.set_ies.
  cbn [GTPv2C.flags GTPv2C.type GTPv2C.len GTPv2C.teid GTPv2C.seqnum GTPv2C.priority GTPv2C.data].
  by destruct (GTPv2C.pack_hdr _) as [self' [h|e]].
Qed.









End gtp_c_properties.

(** ** The F-TEID sub-codec *)

Module fteid_properties.
Import fteid.
Local Open Scope Z_scope.

Lemma flags_byte_v4_only it a :
  0 <= it < 64 ->
  let f := flags_byte it (Some a) None in
  f = 128 + it /\ Z.land f 0x80 = 0x80 /\ Z.land f 0x40 = 0 /\ Z.land f 0x3f = it.
Proof.
  intros Hit. unfold flags_byte.
  replace it with (Z.of_nat (Z.to_nat it)) by lia.
  assert (Hn : (Z.to_nat it < 64)%nat) by lia.
  revert Hn. generalize (Z.to_nat it). clear Hit. intros n Hn.
  do 64 (destruct n as [|n]; [by vm_compute|]). lia.
Qed.

Lemma address_truncated flags flag n rest :
  Z.land flags flag <> 0 -> (length rest < n)%nat ->
  address flags flag n rest = Raise (UnpackError TruncatedFTEID).
Proof.
  intros Hf Hn. unfold address. apply Z.eqb_neq in Hf. rewrite Hf.
  apply Nat.ltb_lt in Hn. by rewrite Hn.
Qed.

Lemma address_absent flags flag n rest :
  Z.land flags flag = 0 -> address flags flag n rest = Ok (None, rest).
Proof. intros Hf. unfold address. by rewrite Hf. Qed.

Lemma address_present flags flag n rest :
  Z.land flags flag <> 0 -> (n <= length rest)%nat ->
  address flags flag n rest = Ok (Some (take n rest), drop n rest).
Proof.
  intros Hf Hn. unfold address. apply Z.eqb_neq in Hf. rewrite Hf.
  apply Nat.ltb_ge in Hn. by rewrite Hn.
Qed.

(** C8.  Encoding without an address fails with a value error; decoding
    fails with a decode error on fewer than 5 bytes and when the bytes of a
    flagged IPv4 (4) or IPv6 (16) address are not all there; a value
    encoded with an IPv4 address only is 9 bytes and decodes to the same
    TEID, interface type and IPv4 address, without IPv6. *)
Theorem fteid_codec :
  (forall teid it, encode_fteid teid it None None = Raise ValueError)
  /\ (forall buf, (length buf < 5)%nat ->
        decode_fteid buf = Raise (UnpackError TruncatedFTEID))
  /\ (forall buf, (5 <= length buf)%nat ->
        Z.land (Z.of_N (be_value (take 1 buf))) 0x80 <> 0 ->
        (length buf < 5 + 4)%nat ->
        decode_fteid buf = Raise (UnpackError TruncatedFTEID))
  /\ (forall buf, (5 <= length buf)%nat ->
        Z.land (Z.of_N (be_value (take 1 buf))) 0x40 <> 0 ->
        (length buf <
           5 + (if (Z.land (Z.of_N (be_value (take 1 buf))) 0x80 =? 0)%Z
                then 0 else 4) + 16)%nat ->
        decode_fteid buf = Raise (UnpackError TruncatedFTEID))
  /\ (forall teid it a,
        0 <= teid < 2 ^ 32 -> 0 <= it < 64 -> length a = 4%nat ->
        exists raw,
          encode_fteid teid it (Some a) None = Ok raw /\
          length raw = 9%nat /\
          decode_fteid raw = Ok (mk teid it (Some a) None)).
Proof.
  split; [|split; [|split; [|split]]].
  - done.
  - intros buf Hlen. unfold decode_fteid. apply Nat.ltb_lt in Hlen. by rewrite Hlen.
  - intros buf H5 Hf H9. unfold decode_fteid.
    assert ((length buf <? 5)%nat = false) as -> by (apply Nat.ltb_ge; lia).
    cbv zeta. rewrite address_truncated; [done..|]. rewrite length_drop. lia.
  - intros buf H5 Hf Hlen. unfold decode_fteid.
    assert ((length buf <? 5)%nat = false) as -> by (apply Nat.ltb_ge; lia).
    cbv zeta. destruct (Z.land _ 128 =? 0) eqn:E80.
    + apply Z.eqb_eq in E80. rewrite address_absent by done.
      cbn [mbind result_bind]. rewrite address_truncated; [done..|].
      rewrite length_drop. lia.
    + apply Z.eqb_neq in E80.
      destruct (decide (length (drop 5 buf) < 4)%nat) as [Hs|Hs].
      * by rewrite address_truncated.
      * rewrite address_present by (done || lia).
        cbn [mbind result_bind]. rewrite address_truncated; [done..|].
        rewrite !length_drop. lia.
  - intros teid it a Ht Hit Ha.
    destruct a as [|a1 [|a2 [|a3 [|a4 [|]]]]]; try discriminate. clear Ha.
    destruct (flags_byte_v4_only it [a1; a2; a3; a4] Hit) as (Hf & H80 & H40 & H3f).
    cbv zeta in Hf, H80, H40, H3f.
    unfold encode_fteid. rewrite struct_pack_ok by (cbn; lia).
    eexists. split; [reflexivity|]. split; [reflexivity|].
    unfold decode_fteid. cbn [length Nat.ltb Nat.leb app default].
    cbn [be_bytes app take drop firstn skipn].
    set (f := byte_of_N (Z.to_N (flags_byte it (Some [a1; a2; a3; a4]) None))).
    assert (Hfl : Z.of_N (be_value [f]) = flags_byte it (Some [a1; a2; a3; a4]) None).
    { change (be_value [f]) with (0 * 256 + ord f)%N. subst f.
      rewrite ord_byte_of_N, N.mul_0_l, N.add_0_l.
      rewrite N.mod_small by lia. lia. }
    rewrite Hfl. unfold address. rewrite H80, H40, H3f.
    cbn [Z.eqb length Nat.ltb Nat.leb mbind result_bind take drop firstn skipn].
    rewrite ?take_0, ?drop_0. unfold id.
    cbn [app Z.eqb length Nat.ltb Nat.leb mbind result_bind take drop firstn skipn].
    do 2 f_equal.
    match goal with
    | |- Z.of_N (be_value ?l) = _ => change l with (be_bytes 4 (Z.to_N teid))
    end.
    rewrite be_value_be_bytes. rewrite N.mod_small; [lia|].
    change (256 ^ N.of_nat 4)%N with 4294967296%N. lia.
Qed.

Lemma fteid_codec_witness :
  exists raw,
    encode_fteid 0xDEADBEEF 10 (Some [x0a; x00; x00; x01]) None = Ok raw /\
    length raw = 9%nat /\
    decode_fteid raw = Ok (mk 0xDEADBEEF 10 (Some [x0a; x00; x00; x01]) None).
Proof.
  apply (proj2 (proj2 (proj2 (proj2 fteid_codec)))); [lia|lia|reflexivity].
Defined.

End fteid_properties.

(** ** Bit fields of a flags word *)

(** The bits of two integers, one position at a time. *)
Ltac bitwise :=
  apply Z.bits_inj'; intros ?n ?Hn;
  repeat first
    [ rewrite Z.lor_spec | rewrite Z.land_spec | rewrite Z.lnot_spec by lia
    | rewrite Z.shiftl_spec by lia | rewrite Z.shiftr_spec by lia ].

Module bitfields.
Local Open Scope Z_scope.

Lemma testbit_land_eq a m n :
  Z.land a m = a -> Z.testbit a n = Z.testbit a n && Z.testbit m n.
Proof. intros H. by rewrite <- Z.land_spec, H. Qed.

Lemma land_fits a w : 0 <= w -> Z.land a (Z.ones w) = a <-> 0 <= a < 2 ^ w.
Proof.
  intros Hw. rewrite Z.land_ones by done. split.
  - intros <-. apply Z.mod_pos_bound. lia.
  - intros H. by apply Z.mod_small.
Qed.

Lemma field_get_set sh w v x :
  0 <= sh -> 0 <= w ->
  Z.land (Z.shiftr (Z.lor (Z.land x (Z.lnot (Z.shiftl (Z.ones w) sh)))
                          (Z.shiftl (Z.land v (Z.ones w)) sh)) sh) (Z.ones w)
  = Z.land v (Z.ones w).
Proof.
  intros Hsh Hw. bitwise.
  replace (n + sh - sh) with n by lia.
  destruct (Z.testbit (Z.ones w) n); [|by rewrite !andb_false_r].
  cbn. by rewrite andb_false_r, andb_true_r.
Qed.

Lemma field_set_set m b b' x :
  Z.lor (Z.land (Z.lor (Z.land x (Z.lnot m)) (Z.land b' m)) (Z.lnot m)) (Z.land b m)
  = Z.lor (Z.land x (Z.lnot m)) (Z.land b m).
Proof.
  bitwise.
  by destruct (Z.testbit x n), (Z.testbit m n), (Z.testbit b n), (Z.testbit b' n).
Qed.

End bitfields.

Module flags_extra.
Import dns bitfields.
Local Open Scope Z_scope.

Lemma flag_get_set mask v op :
  mask <> 0 -> flag_get mask (flag_set mask v op) = if v =? 0 then 0 else 1.
Proof.
  intros Hm. unfold flag_get, flag_set. destruct (v =? 0).
  - assert (Z.land (Z.land op (Z.lnot mask)) mask = 0) as ->.
    { bitwise. rewrite Z.bits_0. by destruct (Z.testbit op n), (Z.testbit mask n). }
    destruct (0 =? mask) eqn:E; [apply Z.eqb_eq in E; congruence|done].
  - assert (Z.land (Z.lor op mask) mask = mask) as ->.
    { bitwise. by destruct (Z.testbit op n), (Z.testbit mask n). }
    by rewrite Z.eqb_refl.
Qed.

Lemma flag_set_set mask v v' op :
  flag_set mask v (flag_set mask v' op) = flag_set mask v op.
Proof.
  unfold flag_set. destruct (v =? 0), (v' =? 0); bitwise;
    by destruct (Z.testbit op n), (Z.testbit mask n).
Qed.

(** X1.  Every accessor of the flags word reads back what its setter wrote (a
    flag as 0 or 1, a 4-bit field as the low 4 bits of the value), and of
    two writes through the same setter only the last one counts. *)
Theorem flag_set_get_laws (a : accessor) (v v' op : Z) :
  getter a (setter a v op) = field_value a v
  /\ setter a v (setter a v' op) = setter a v op.
Proof.
  split.
  - destruct a; cbn [getter setter field_value];
      try (by apply flag_get_set).
    + unfold opcode, set_opcode.
      change 15 with (Z.ones 4). change 30720 with (Z.shiftl (Z.ones 4) 11).
      by apply field_get_set.
    + unfold rcode, set_rcode.
      rewrite <- (Z.shiftr_0_r (Z.lor _ _)).
      rewrite <- (Z.shiftl_0_r (Z.land v 15)).
      change 15 with (Z.ones 4). change (Z.ones 4) with (Z.shiftl (Z.ones 4) 0) at 1.
      by apply field_get_set.
  - destruct a; cbn [setter]; try apply flag_set_set.
    + unfold set_opcode. rewrite !Z.shiftl_land.
      change (Z.shiftl 15 11) with 30720. apply field_set_set.
    + unfold set_rcode. apply field_set_set.
Qed.

(** X2.  A flags word that fits in 16 bits still does after any setter. *)
Theorem flag_setters_keep_16_bits (a : accessor) (v op : Z) :
  0 <= op < 2 ^ 16 -> 0 <= setter a v op < 2 ^ 16.
Proof.
  intros H. apply (land_fits _ 16) in H; [|lia]. apply (land_fits _ 16); [lia|].
  assert (Hm : Z.land (field_mask a) (Z.ones 16) = field_mask a) by (by destruct a).
  assert (Hs : setter a v op = flag_set (field_mask a) v op \/
               exists b, setter a v op
                         = Z.lor (Z.land op (Z.lnot (field_mask a)))
                                 (Z.land b (field_mask a))).
  { destruct a; cbn [setter field_mask]; try (by left); right.
    - exists (Z.shiftl v 11). unfold set_opcode. by rewrite Z.shiftl_land.
    - by exists v. }
  destruct Hs as [->|[b ->]]; [unfold flag_set; destruct (v =? 0)|]; bitwise.
  all: pose proof (testbit_land_eq _ _ n H) as Ho;
       pose proof (testbit_land_eq _ _ n Hm) as Hk.
  all: destruct (Z.testbit op n), (Z.testbit (field_mask a) n),
         (Z.testbit (Z.ones 16) n); try destruct (Z.testbit b n); done.
Qed.

Lemma flag_setters_keep_16_bits_witness : 0 <= setter OPCODE 5 0x8180 < 2 ^ 16.
Proof. apply flag_setters_keep_16_bits. lia. Defined.

End flags_extra.

Module unpack_name_extra.
Import dns unpack_name_properties.
Local Open Scope N_scope.

Lemma loop_ok_visits buf f st r :
  unpack_name_loop f buf st = Some (Ok r) ->
  exists st' st'', rtc (pass buf) st st' /\
                   unpack_name_body buf st' = Break st'' /\
                   r = unpack_name_return st''.
Proof.
  revert st. induction f as [|f IH]; intros st; [done|]. simpl.
  destruct (unpack_name_body buf st) as [st1|st1|e] eqn:E; [| |done].
  - intros H. destruct (IH _ H) as (st' & st'' & Hr & Hb & ->).
    exists st', st''. split; [by eapply rtc_l|done].
  - intros [= <-]. exists st, st1. split; [apply rtc_refl|done].
Qed.

Lemma struct_unpack_2_length (bs : bytes) w :
  struct_unpack 2 bs = Ok w -> length bs = 2%nat.
Proof.
  unfold struct_unpack. destruct (Nat.eqb _ _) eqn:E; [|done].
  intros _. by apply Nat.eqb_eq.
Qed.

Lemma length_slice_le {A} (l : list A) a b :
  (length (slice l a b) <= length l - N.to_nat a)%nat.
Proof. unfold slice. rewrite length_take, length_drop. lia. Qed.

Lemma visits_saved_ok buf o st : visits buf o st -> saved_ok buf o st.
Proof.
  unfold visits. revert st. apply rtc_ind_r.
  - unfold saved_ok. simpl. lia.
  - intros st st' _ Hp IH. unfold saved_ok in *.
    body_cases Hp; injection Hp as <-; simpl in *; bool_hyps; try lia.
    all: try match goal with
             | H : struct_unpack 2 _ = Ok _ |- _ =>
               apply struct_unpack_2_length in H;
               pose proof (length_slice_le buf (off st) (off st + 2))
             end.
    all: repeat match goal with
                | |- context [if ?c then _ else _] => destruct c eqn:?
                end; bool_hyps; unfold py_len in *; try lia.
Qed.

(** X3.  When [unpack_name] returns, the offset it returns lies after the start
    offset and within the buffer, and the name has at most 254 bytes. *)
Theorem unpack_name_result_bounds buf o nm o' :
  unpack_name buf o = Some (Ok (nm, o')) ->
  o < o' <= py_len buf /\ py_len nm <= 254.
Proof.
  intros H. apply loop_ok_visits in H as (st & st' & Hv & Hb & Hr).
  fold (visits buf o st) in Hv.
  pose proof (visits_saved_ok _ _ _ Hv) as Hs.
  destruct (visits_capped _ _ _ Hv) as [Hc _].
  assert (Hin : off st < py_len buf).
  { unfold unpack_name_body in Hb.
    destruct (buf !! N.to_nat (off st)) eqn:E; [|done].
    apply lookup_lt_Some in E. unfold py_len. lia. }
  pose proof (visits_name_length _ _ _ Hv ltac:(lia)) as Hn.
  assert (Hst' : st' = NameState (off st + 1) (start_off st) (saved_off st)
                                 (name_length st) (name st)).
  { unfold unpack_name_body in Hb.
    repeat match type of Hb with
           | context [match ?x with _ => _ end] => destruct x eqn:?
           end; try discriminate. by injection Hb as <-. }
  subst st'. unfold unpack_name_return in Hr. simpl in Hr.
  injection Hr as -> ->. unfold saved_ok, capped in *. split.
  - revert Hs. destruct (saved_off st =? 0); lia.
  - destruct (name st) as [|l ls] eqn:En; [by vm_compute|].
    pose proof (len_join_dot (l :: ls) ltac:(done)). lia.
Qed.

Lemma unpack_name_result_bounds_witness :
  0 < 256 <= py_len name_of_255 /\ py_len (join [x2e] (replicate 3 (replicate 63 x61) ++ [replicate 62 x61])) <= 254.
Proof.
  apply (unpack_name_result_bounds name_of_255 0). vm_compute. reflexivity.
Defined.

(** X4.  Whenever the cursor is at or beyond the end of the buffer, the result
    is [NeedData].  When the bytes of a label run up to the end of the
    buffer or beyond it, no name is returned: the result is [NeedData] if
    the label keeps the length count at or below 255, and 'name longer than
    255 bytes' if it does not, since the count is checked first. *)
Theorem unpack_name_need_data :
  (forall buf o st,
     visits buf o st -> py_len buf <= off st ->
     unpack_name buf o = Some (Raise NeedData))
  /\ (forall buf o st n,
     visits buf o st -> label_at buf st = Some n ->
     py_len buf <= off st + 1 + n ->
     unpack_name buf o
     = Some (Raise (if 255 <? name_length st + (n + 1)
                    then UnpackError NameTooLong else NeedData))).
Proof.
  assert (Hend : forall buf st, py_len buf <= off st ->
                   unpack_name_body buf st = Throw NeedData).
  { intros buf st Hle. unfold unpack_name_body.
    rewrite lookup_ge_None_2; [done|]. unfold py_len in Hle. lia. }
  split.
  - intros buf o st Hv Hle. rewrite (visits_run _ _ _ Hv). by apply run_throw, Hend.
  - intros buf o st n Hv Hl Hle.
    destruct (255 <? name_length st + (n + 1)) eqn:Hcap.
    { rewrite (visits_run _ _ _ Hv). apply run_throw, body_too_long.
      exists n. split; [done|]. by apply N.ltb_lt. }
    set (st' := NameState (off st + 1 + n) (start_off st) (saved_off st)
                          (name_length st + (n + 1))
                          (name st ++ [slice buf (off st + 1) (off st + 1 + n)])).
    assert (Hp : pass buf st st').
    { unfold pass, unpack_name_body. unfold label_at in Hl.
      destruct (buf !! N.to_nat (off st)) as [b|]; [|done].
      destruct (ord b =? 0); [done|]. simpl in Hl.
      destruct (N.land (ord b) 192 =? 0) eqn:E0; [|done]. injection Hl as <-.
      assert ((N.land (ord b) 192 =? 192) = false) as ->.
      { apply N.eqb_eq in E0. by rewrite E0. }
      cbv zeta. by rewrite Hcap. }
    assert (Hv' : visits buf o st') by (eapply rtc_r; done).
    rewrite (visits_run _ _ _ Hv'). apply run_throw, Hend. simpl. lia.
Qed.

(** A label of 32 bytes announced in a buffer of one byte; and three labels
    of 63 bytes followed by a fourth that is cut short. *)
Lemma unpack_name_need_data_witness :
  unpack_name [x20] 0 = Some (Raise NeedData)
  /\ unpack_name (mjoin (replicate 3 ([x3f] ++ replicate 63 x61)) ++ [x3f; x61]) 0
     = Some (Raise (UnpackError NameTooLong)).
Proof.
  split.
  - apply (proj2 unpack_name_need_data [x20] 0 (init_state 0) 32);
      [apply rtc_refl|reflexivity|vm_compute; discriminate].
  - apply (proj2 unpack_name_need_data
             (mjoin (replicate 3 ([x3f] ++ replicate 63 x61)) ++ [x3f; x61]) 0
             (NameState 192 0 0 192 (replicate 3 (replicate 63 x61))) 63).
    + unfold visits.
      eapply rtc_l; [unfold pass; vm_compute; reflexivity|].
      eapply rtc_l; [unfold pass; vm_compute; reflexivity|].
      eapply rtc_l; [unfold pass; vm_compute; reflexivity|].
      apply rtc_refl.
    + vm_compute. reflexivity.
    + vm_compute. discriminate.
Defined.

End unpack_name_extra.

Module pack_name_extra.
Import dns unpack_name_properties.
Local Open Scope N_scope.

Lemma split_nonempty sep s : split sep s <> [].
Proof.
  induction s as [|c s IH]; [done|]. simpl.
  destruct (decide (c = sep)); [done|]. by destruct (split sep s).
Qed.

(** [sep.join(s.split(sep)) == s] *)
Lemma join_split sep s : join [sep] (split sep s) = s.
Proof.
  induction s as [|c s IH]; [done|]. simpl.
  pose proof (split_nonempty sep s) as Hne.
  destruct (decide (c = sep)) as [->|Hc].
  - destruct (split sep s) as [|l ls]; [done|]. simpl in *. by rewrite IH.
  - destruct (split sep s) as [|l [|l' ls]]; [done|..]; simpl in *; by rewrite <- IH.
Qed.

Lemma join_labels_of name : join [x2e] (labels_of name) = name.
Proof. destruct name; [done|]. apply join_split. Qed.

Lemma length_upper s : length (upper s) = length s.
Proof. unfold upper. by rewrite length_map. Qed.

Lemma join_suffix_length sep (t l : list bytes) :
  t `suffix_of` l -> (length (join sep t) <= length (join sep l))%nat.
Proof.
  intros [k ->]. induction k as [|a k IH]; [done|].
  rewrite <- app_comm_cons. destruct (k ++ t) as [|b r] eqn:E.
  - apply app_eq_nil in E as [_ ->]. simpl. lia.
  - change (join sep (a :: b :: r)) with (a ++ sep ++ join sep (b :: r)).
    rewrite !length_app. lia.
Qed.

Lemma struct_pack_B n :
  n <= 255 -> struct_pack 1 (Z.of_N n) = Ok [byte_of_N n].
Proof.
  intros Hn. rewrite struct_pack_ok by (cbn; lia). by rewrite N2Z.id.
Qed.

Lemma wire_cons l ls : wire (l :: ls) = byte_of_N (py_len l) :: l ++ wire ls.
Proof. done. Qed.

Lemma wire_snoc_empty ls : wire (ls ++ [[]]) = wire ls ++ [x00].
Proof. unfold wire. rewrite map_app, concat_app. done. Qed.

(** With no suffix of the name in the table, the labels are written out
    uncompressed. *)
Lemma pack_name_loop_plain labels off buf t :
  (forall s, s `suffix_of` labels -> s <> [] -> absent t (upper (join [x2e] s))) ->
  Forall (fun l => py_len l <= 255) labels ->
  snd (pack_name_loop labels off buf t) = Ok (buf ++ wire labels).
Proof.
  revert buf t. induction labels as [|l rest IH]; intros buf t Habs Hlen.
  - simpl. by rewrite app_nil_r.
  - apply Forall_cons in Hlen as [Hl Hrest].
    cbn [pack_name_loop].
    assert (Hk : absent t (upper (join [x2e] (l :: rest)))) by (by apply Habs).
    rewrite struct_pack_B by done.
    set (t' := if 1 <? py_len (upper (join [x2e] (l :: rest)))
               then if off + py_len buf <? 49152
                    then <[upper (join [x2e] (l :: rest)) := off + py_len buf]> t
                    else t
               else t).
    assert (Hstep : snd (pack_name_loop rest off (buf ++ [byte_of_N (py_len l)] ++ l) t')
                    = Ok (buf ++ wire (l :: rest))).
    { rewrite IH; [by rewrite wire_cons, <- !app_assoc| |done].
      intros s Hs Hne.
      assert (Hold : absent t (upper (join [x2e] s))).
      { apply Habs; [|done]. by apply suffix_cons_r. }
      subst t'. destruct (1 <? _); [|done]. destruct (_ <? 49152); [|done].
      assert (upper (join [x2e] (l :: rest)) <> upper (join [x2e] s)) as Hneq.
      { intros Heq. apply (f_equal length) in Heq. rewrite !length_upper in Heq.
        pose proof (join_suffix_length [x2e] s rest Hs) as Hle.
        destruct rest as [|r rs].
        - apply suffix_nil_inv in Hs. done.
        - change (join [x2e] (l :: r :: rs)) with (l ++ [x2e] ++ join [x2e] (r :: rs)) in Heq.
          rewrite !length_app in Heq. simpl in Heq, Hle. lia. }
      unfold absent. by rewrite lookup_insert_ne. }
    destruct Hk as [-> | ->]; exact Hstep.
Qed.

Lemma pack_name_plain name off :
  Forall (fun l => py_len l <= 255) (labels_of name) ->
  snd (pack_name name off ∅) = Ok (wire (labels_of name) ++ [x00]).
Proof.
  intros Hlen. unfold pack_name. fold (labels_of name).
  rewrite pack_name_loop_plain.
  - by rewrite wire_snoc_empty.
  - intros s _ _. by left.
  - apply Forall_app. split; [done|]. by apply Forall_singleton.
Qed.


Lemma run_break buf st st' :
  unpack_name_body buf st = Break st' ->
  run buf st = Some (Ok (unpack_name_return st')).
Proof. intros H. unfold run. simpl. by rewrite H. Qed.

Lemma land_below_64 n : n < 64 -> N.land n 192 = 0.
Proof.
  intros Hn. rewrite <- (N2Nat.id n).
  assert (Hlt : (N.to_nat n < 64)%nat) by lia.
  revert Hlt. generalize (N.to_nat n). intros k Hk.
  do 64 (destruct k as [|k]; [by vm_compute|]). lia.
Qed.

Lemma ord_byte_of_small n : n <= 255 -> ord (byte_of_N n) = n.
Proof. intros Hn. rewrite ord_byte_of_N. apply N.mod_small. lia. Qed.

Lemma lookup_middle {A} (pre : list A) x post :
  (pre ++ x :: post) !! N.to_nat (py_len pre) = Some x.
Proof. unfold py_len. rewrite Nat2N.id. apply list_lookup_middle. done. Qed.

Lemma slice_middle {A} (pre l post : list A) :
  slice (pre ++ l ++ post) (py_len pre) (py_len pre + py_len l) = l.
Proof.
  unfold slice, py_len. rewrite Nat2N.id.
  replace (N.to_nat (_ + _) - length pre)%nat with (length l) by lia.
  rewrite drop_app_length. by rewrite take_app_length.
Qed.

(** Labels written out plainly at the cursor, followed by the zero octet,
    are read back as they are. *)
Lemma run_wire labels : forall buf st pre post,
  buf = pre ++ wire labels ++ [x00] ++ post ->
  off st = py_len pre ->
  Forall (fun l => 1 <= py_len l <= 63) labels ->
  name_length st + octets labels <= 255 ->
  run buf st =
    Some (Ok (join [x2e] (name st ++ labels),
              if saved_off st =? 0 then off st + py_len (wire labels) + 1
              else saved_off st)).
Proof.
  induction labels as [|l ls IH]; intros buf st pre post -> Hoff Hlen Hcap.
  - rewrite (run_break _ st (NameState (off st + 1) (start_off st) (saved_off st)
                                       (name_length st) (name st))).
    + unfold unpack_name_return. simpl. rewrite app_nil_r.
      change (py_len (wire [])) with 0. by rewrite N.add_0_r.
    + unfold unpack_name_body. rewrite Hoff. simpl wire. simpl app at 1.
      by rewrite lookup_middle.
  - apply Forall_cons in Hlen as [Hl Hls].
    change (octets (l :: ls)) with (py_len l + 1 + octets ls) in Hcap.
    set (st1 := NameState (off st + 1 + py_len l) (start_off st) (saved_off st)
                          (name_length st + (py_len l + 1)) (name st ++ [l])).
    assert (Hp : pass (pre ++ wire (l :: ls) ++ [x00] ++ post) st st1).
    { unfold pass, unpack_name_body. rewrite Hoff, wire_cons.
      rewrite <- app_comm_cons, lookup_middle.
      rewrite ord_byte_of_small by lia.
      assert ((py_len l =? 0) = false) as -> by (apply N.eqb_neq; lia).
      rewrite land_below_64 by lia. cbn [N.eqb]. cbv zeta.
      assert ((255 <? name_length st + (py_len l + 1)) = false) as ->
        by (apply N.ltb_ge; lia).
      subst st1. do 2 f_equal.
      - by rewrite Hoff.
      - do 2 f_equal.
        replace (pre ++ byte_of_N (py_len l) :: (l ++ wire ls) ++ [x00] ++ post)
          with ((pre ++ [byte_of_N (py_len l)]) ++ l ++ (wire ls ++ [x00] ++ post))
          by (by rewrite <- !app_assoc).
        replace (py_len pre + 1) with (py_len (pre ++ [byte_of_N (py_len l)]))
          by (unfold py_len; rewrite length_app; simpl; lia).
        apply slice_middle. }
    rewrite (run_pass _ st st1); [|unfold capped; clear -Hcap; lia|done].
    rewrite (IH _ st1 (pre ++ byte_of_N (py_len l) :: l) post).
    + subst st1. cbn [name saved_off off]. rewrite <- app_assoc. do 3 f_equal.
      destruct (saved_off st =? 0); [|done].
      rewrite wire_cons. unfold py_len. simpl. rewrite length_app. lia.
    + rewrite wire_cons. rewrite <- !app_assoc. simpl. by rewrite <- !app_assoc.
    + subst st1. cbn [off]. rewrite Hoff. unfold py_len.
      rewrite length_app. simpl. lia.
    + done.
    + subst st1. cbn [name_length]. lia.
Qed.

(** X5.  A name packed with an empty table is read back by [unpack_name], which
    returns the offset just after it, wherever it lies in a buffer. *)
Theorem pack_unpack_name_roundtrip (nm pre post : bytes) :
  Forall (fun l => 1 <= py_len l <= 63) (labels_of nm) ->
  octets (labels_of nm) <= 255 ->
  exists enc,
    snd (pack_name nm (py_len pre) ∅) = Ok enc /\
    unpack_name (pre ++ enc ++ post) (py_len pre)
    = Some (Ok (nm, py_len pre + py_len enc)).
Proof.
  intros Hlen Hcap. exists (wire (labels_of nm) ++ [x00]). split.
  - apply pack_name_plain. eapply Forall_impl; [done|]. simpl. lia.
  - change (unpack_name ?b ?o) with (run b (init_state o)).
    rewrite (run_wire (labels_of nm) _ _ pre post); [| |done..].
    + cbn [name saved_off off init_state N.eqb app]. rewrite join_labels_of.
      do 3 f_equal. unfold py_len. rewrite length_app. simpl. lia.
    + by rewrite <- app_assoc.
Qed.

Lemma pack_unpack_name_roundtrip_witness :
  exists enc,
    snd (pack_name (B "www.cnn.com") (py_len [x05; xf5]) ∅) = Ok enc /\
    unpack_name ([x05; xf5] ++ enc ++ [x00; x01]) (py_len [x05; xf5])
    = Some (Ok (B "www.cnn.com", py_len [x05; xf5] + py_len enc)).
Proof.
  apply (pack_unpack_name_roundtrip (B "www.cnn.com") [x05; xf5] [x00; x01]).
  - vm_compute. repeat constructor; discriminate.
  - vm_compute. discriminate.
Defined.


(** An entry of the table with a non-zero offset is never overwritten: the
    offset at which a suffix was first written stays. *)
Lemma pack_name_loop_keeps labels off buf t k p :
  t !! k = Some (Npos p) ->
  fst (pack_name_loop labels off buf t) !! k = Some (Npos p).
Proof.
  revert buf t. induction labels as [|l rest IH]; intros buf t Hk; [done|].
  cbn [pack_name_loop].
  set (key := upper (join [x2e] (l :: rest))).
  assert (Hstep : forall t', t' !! k = Some (N.pos p) ->
            (match struct_pack 1 (Z.of_N (py_len l)) with
             | Ok i => pack_name_loop rest off (buf ++ i ++ l) t'
             | Raise e => (t', Raise e)
             end).1 !! k = Some (N.pos p)).
  { intros t' Hk'. destruct (struct_pack 1 _); [by apply IH|done]. }
  destruct (t !! key) as [[|q]|] eqn:Ek; [|done|].
  all: apply Hstep.
  all: destruct (1 <? py_len key); [|done].
  all: destruct (off + py_len buf <? 49152); [|done].
  all: rewrite lookup_insert_ne; [done|]; intros <-; congruence.
Qed.

(** X6.  [pack_name] never overwrites a non-zero offset of the table: the place
    at which a name was first written stays the target of its pointers. *)
Theorem pack_name_keeps_entries nm off t k p :
  t !! k = Some (Npos p) -> fst (pack_name nm off t) !! k = Some (Npos p).
Proof. apply pack_name_loop_keeps. Qed.

Lemma pack_name_keeps_entries_witness :
  fst (pack_name (B "b.c") 30 {[ B "B.C." := 12 ]}) !! B "B.C." = Some 12.
Proof. apply (pack_name_keeps_entries (B "b.c") 30). reflexivity. Defined.

Lemma join_snoc_empty nm :
  nm <> [] -> join [x2e] (labels_of nm ++ [[]]) = nm ++ [x2e].
Proof.
  intros Hne. rewrite <- (join_labels_of nm) at 2.
  assert (Hl : labels_of nm <> []).
  { destruct nm; [done|]. apply split_nonempty. }
  induction (labels_of nm) as [|l [|l' ls] IH]; [done|done|].
  change (join [x2e] ((l :: l' :: ls) ++ [[]]))
    with (l ++ [x2e] ++ join [x2e] ((l' :: ls) ++ [[]])).
  rewrite IH by done.
  change (join [x2e] (l :: l' :: ls)) with (l ++ [x2e] ++ join [x2e] (l' :: ls)).
  by rewrite <- !app_assoc.
Qed.

(** The first name packed into an empty table at a non-zero offset below
    the guard is recorded under its upper-cased dotted form. *)
Lemma pack_name_records nm off :
  nm <> [] -> 0 < off < 0xc000 ->
  fst (pack_name nm off ∅) !! upper (nm ++ [x2e]) = Some off.
Proof.
  intros Hne Hoff. unfold pack_name. fold (labels_of nm).
  rewrite <- (join_snoc_empty nm Hne).
  assert (Hlen : 1 < py_len (upper (join [x2e] (labels_of nm ++ [[]])))).
  { rewrite join_snoc_empty by done. unfold py_len.
    rewrite length_upper, length_app. destruct nm; [done|]. simpl. lia. }
  destruct (labels_of nm ++ [[]]) as [|l rest] eqn:E; [by destruct (labels_of nm)|].
  cbn [pack_name_loop]. rewrite lookup_empty.
  apply N.ltb_lt in Hlen. rewrite Hlen.
  change (py_len []) with 0. rewrite N.add_0_r.
  assert ((off <? 49152) = true) as -> by (apply N.ltb_lt; lia).
  destruct off as [|p]; [lia|].
  assert (Hin : (<[upper (join [x2e] (l :: rest)) := N.pos p]> (∅ : gmap bytes N))
                  !! upper (join [x2e] (l :: rest)) = Some (N.pos p))
    by apply lookup_insert_eq.
  destruct (struct_pack 1 _); [|done].
  by apply pack_name_loop_keeps.
Qed.

(** A name found in the table is written as a pointer and nothing else. *)
Lemma pack_name_hit nm off t p :
  nm <> [] -> t !! upper (nm ++ [x2e]) = Some (Npos p) ->
  pack_name nm off t
  = (t, struct_pack 2 (Z.of_N (N.lor 0xc000 (Npos p)))).
Proof.
  intros Hne Hk. unfold pack_name. fold (labels_of nm).
  rewrite <- (join_snoc_empty nm Hne) in Hk.
  destruct (labels_of nm ++ [[]]) as [|l rest] eqn:E; [by destruct (labels_of nm)|].
  cbn [pack_name_loop]. rewrite Hk. f_equal.
  by destruct (struct_pack 2 _).
Qed.


Lemma land_marker r : r < 64 -> N.land (192 + r) 192 = 192.
Proof.
  intros Hr. rewrite <- (N2Nat.id r).
  assert (Hlt : (N.to_nat r < 64)%nat) by lia.
  revert Hlt. generalize (N.to_nat r). intros k Hk.
  do 64 (destruct k as [|k]; [by vm_compute|]). lia.
Qed.

Lemma land_marker_target p : p < 0x4000 -> N.land 0xc000 p = 0.
Proof.
  intros Hp. apply N.bits_inj. intros n. rewrite N.land_spec, N.bits_0.
  destruct (N.lt_ge_cases n 14) as [Hn|Hn].
  - change 0xc000 with (3 * 2 ^ 14). by rewrite N.mul_pow2_bits_low.
  - destruct p as [|p]; [by rewrite N.bits_0, andb_false_r|].
    rewrite (N.bits_above_log2 (N.pos p) n), andb_false_r; [done|].
    assert (N.log2 (N.pos p) < 14); [|lia].
    apply N.log2_lt_pow2; [lia|]. exact Hp.
Qed.

(** The pointer word of an offset of at most 14 bits: the two marker bits
    on top of the offset. *)
Lemma pointer_word p : p < 0x4000 -> N.lor 0xc000 p = 0xc000 + p.
Proof.
  intros Hp. pose proof (land_marker_target p Hp) as H0.
  rewrite <- (N.lxor_lor _ _ H0). symmetry. by apply N.add_nocarry_lxor.
Qed.

Lemma pointer_word_target p : p < 0x4000 -> N.land (0xc000 + p) 0x3fff = p.
Proof.
  intros Hp. change 0x3fff with (N.ones 14). rewrite N.land_ones.
  change 0xc000 with (3 * 2 ^ 14). rewrite N.add_comm, N.Div0.mod_add.
  by apply N.mod_small.
Qed.

(** A pointer to [p] under the cursor sends the decoder to [p]. *)
Lemma pass_pointer buf st pre post p :
  buf = pre ++ be_bytes 2 (0xc000 + p) ++ post ->
  off st = py_len pre -> p < 0x4000 -> p < start_off st ->
  pass buf st (NameState p p (if saved_off st =? 0 then off st + 2 else saved_off st)
                         (name_length st) (name st)).
Proof.
  intros -> Hoff Hp Hlt. unfold pass, unpack_name_body. rewrite Hoff.
  change (be_bytes 2 (49152 + p))
    with [byte_of_N ((49152 + p) / 256); byte_of_N (49152 + p)].
  cbn [app]. rewrite lookup_middle.
  assert (Hhi : (49152 + p) / 256 = 192 + p / 256).
  { change 49152 with (192 * 256). rewrite (N.add_comm (192 * 256) p), N.div_add by done. lia. }
  assert (Hq : p / 256 < 64).
  { apply N.Div0.div_lt_upper_bound. exact Hp. }
  pose proof (N.le_0_l (p / 256)) as Hq0.
  rewrite Hhi, ord_byte_of_small by lia.
  assert ((192 + p / 256 =? 0) = false) as -> by (apply N.eqb_neq; lia).
  rewrite land_marker by done. cbn [N.eqb Pos.eqb].
  change (byte_of_N (192 + p / 256) :: byte_of_N (49152 + p) :: post)
    with ([byte_of_N (192 + p / 256); byte_of_N (49152 + p)] ++ post).
  change (py_len pre + 2)
    with (py_len pre + py_len [byte_of_N (192 + p / 256); byte_of_N (49152 + p)]).
  rewrite slice_middle. rewrite <- Hhi.
  change [byte_of_N ((49152 + p) / 256); byte_of_N (49152 + p)]
    with (be_bytes 2 (49152 + p)).
  unfold struct_unpack. rewrite length_be_bytes. cbn [Nat.eqb].
  rewrite be_value_be_bytes. change (256 ^ N.of_nat 2) with 65536.
  rewrite (N.mod_small (49152 + p)) by lia.
  cbv zeta. rewrite pointer_word_target by done.
  assert ((start_off st <=? p) = false) as -> by (apply N.leb_gt; lia).
  rewrite <- Hoff. done.
Qed.

(** X7.  A name packed after the same name, in any spelling of upper and
    lower case, is written with the table of the first as a two-byte
    pointer, and [unpack_name] follows it back to the name in the spelling
    of the first, returning the offset after the pointer. *)
Theorem pack_unpack_name_compressed (nm nm' pre mid post : bytes) :
  nm <> [] -> nm' <> [] -> upper nm' = upper nm ->
  Forall (fun l => 1 <= py_len l <= 63) (labels_of nm) ->
  octets (labels_of nm) <= 255 ->
  0 < py_len pre < 0x4000 ->
  exists enc t ptr,
    pack_name nm (py_len pre) ∅ = (t, Ok enc) /\
    pack_name nm' (py_len (pre ++ enc ++ mid)) t = (t, Ok ptr) /\
    py_len ptr = 2 /\
    unpack_name (pre ++ enc ++ mid ++ ptr ++ post) (py_len (pre ++ enc ++ mid))
    = Some (Ok (nm, py_len (pre ++ enc ++ mid) + 2)).
Proof.
  intros Hne Hne' Hup Hlen Hcap Hpre.
  set (p := py_len pre) in *.
  set (enc := wire (labels_of nm) ++ [x00]).
  set (q := py_len (pre ++ enc ++ mid)).
  assert (Hpq : p < q).
  { subst p q enc. unfold py_len. rewrite !length_app. simpl. lia. }
  exists enc, (fst (pack_name nm p ∅)), (be_bytes 2 (0xc000 + p)).
  fold q.
  assert (Hrec : fst (pack_name nm p ∅) !! upper (nm' ++ [x2e]) = Some p).
  { unfold upper in *. rewrite map_app, Hup, <- map_app.
    apply pack_name_records; [done|lia]. }
  split; [|split; [|split]].
  - rewrite (surjective_pairing (pack_name nm p ∅)). f_equal.
    apply pack_name_plain. eapply Forall_impl; [done|]. simpl. lia.
  - assert (exists pp, p = N.pos pp) as [pp Ep].
    { destruct p as [|pp]; [lia|by exists pp]. }
    rewrite Ep in Hrec at 2.
    rewrite (pack_name_hit nm' q _ pp Hne' Hrec). f_equal.
    rewrite <- Ep, pointer_word by lia.
    rewrite struct_pack_ok by (cbn; lia). by rewrite N2Z.id.
  - done.
  - change (unpack_name ?b ?o) with (run b (init_state o)).
    rewrite (run_pass _ (init_state q) (NameState p p (q + 2) 0 []));
      [|by vm_compute|].
    + rewrite (run_wire (labels_of nm) _ _ pre (mid ++ be_bytes 2 (0xc000 + p) ++ post));
        [| |done..].
      * cbn [name saved_off off app]. rewrite join_labels_of.
        assert ((q + 2 =? 0) = false) as -> by (apply N.eqb_neq; lia). done.
      * subst enc. by rewrite <- !app_assoc.
    + eapply (pass_pointer _ (init_state q) (pre ++ enc ++ mid) post p);
        [by rewrite <- !app_assoc|done|lia|done].
Qed.

Lemma pack_unpack_name_compressed_witness :
  exists enc t ptr,
    pack_name (B "CNN.com") (py_len (replicate 12 x00)) ∅ = (t, Ok enc) /\
    pack_name (B "cnn.COM") (py_len (replicate 12 x00 ++ enc ++ [x00; x01])) t
      = (t, Ok ptr) /\
    py_len ptr = 2 /\
    unpack_name (replicate 12 x00 ++ enc ++ [x00; x01] ++ ptr ++ [x00; x05])
                (py_len (replicate 12 x00 ++ enc ++ [x00; x01]))
    = Some (Ok (B "CNN.com", py_len (replicate 12 x00 ++ enc ++ [x00; x01]) + 2)).
Proof.
  apply (pack_unpack_name_compressed (B "CNN.com") (B "cnn.COM")
           (replicate 12 x00) [x00; x01] [x00; x05]).
  - discriminate.
  - discriminate.
  - reflexivity.
  - vm_compute. repeat constructor; discriminate.
  - vm_compute. discriminate.
  - vm_compute. split; [done|done].
Defined.

End pack_name_extra.

Module gtp_flags.
Import gtp_c bitfields.
Local Open Scope Z_scope.

(** The value that the setters write: the bits of [x] outside the field of
    [w] bits at [sh], the low [w] bits of [v] inside. *)
Lemma field_frame sh w sh' w' v x :
  0 <= sh -> 0 <= w -> 0 <= sh' -> 0 <= w' ->
  sh + w <= sh' \/ sh' + w' <= sh ->
  Z.land (Z.shiftr (Z.lor (Z.land x (Z.lnot (Z.shiftl (Z.ones w) sh)))
                          (Z.shiftl (Z.land v (Z.ones w)) sh)) sh') (Z.ones w')
  = Z.land (Z.shiftr x sh') (Z.ones w').
Proof.
  intros Hsh Hw Hsh' Hw' Hd. bitwise.
  rewrite (Z.testbit_ones_nonneg w' n) by lia.
  destruct (n <? w') eqn:E; [|by rewrite !andb_false_r].
  apply Z.ltb_lt in E. rewrite !andb_true_r.
  assert (Z.testbit (Z.ones w) (n + sh' - sh) = false) as ->.
  { destruct Hd as [Hd|Hd].
    - rewrite Z.testbit_ones_nonneg by lia. apply Z.ltb_ge. lia.
    - apply Z.testbit_neg_r. lia. }
  cbn. by rewrite andb_false_r, andb_true_r, orb_false_r.
Qed.

Lemma field_set_range sh w v x k :
  0 <= sh -> 0 <= w -> sh + w <= k -> 0 <= x < 2 ^ k ->
  0 <= Z.lor (Z.land x (Z.lnot (Z.shiftl (Z.ones w) sh)))
             (Z.shiftl (Z.land v (Z.ones w)) sh) < 2 ^ k.
Proof.
  intros Hsh Hw Hk Hx. apply (land_fits _ k) in Hx; [|lia].
  apply (land_fits _ k); [lia|]. bitwise.
  pose proof (testbit_land_eq _ _ n Hx) as Ho.
  rewrite (Z.testbit_ones_nonneg k n) in * by lia.
  destruct (n <? k) eqn:E; [by rewrite !andb_true_r|].
  apply Z.ltb_ge in E. rewrite andb_false_r in Ho. rewrite Ho.
  assert (Z.testbit (Z.ones w) (n - sh) = false) as ->.
  { rewrite Z.testbit_ones_nonneg by lia. apply Z.ltb_ge. lia. }
  by rewrite !andb_false_r.
Qed.

Lemma v1_setter_put a v m :
  GTPv1C.flags (GTPv1C.setter a v m)
  = put (v1_shift a) (GTPv1C.width a) v (GTPv1C.flags m).
Proof. by destruct a. Qed.

Lemma v1_getter_take a m :
  GTPv1C.getter a m = take_field (v1_shift a) (GTPv1C.width a) (GTPv1C.flags m).
Proof. by destruct a. Qed.

Lemma v2_setter_put a v m :
  GTPv2C.flags (GTPv2C.setter a v m)
  = put (v2_shift a) (GTPv2C.width a) v (GTPv2C.flags m).
Proof. by destruct a. Qed.

Lemma v2_getter_take a m :
  GTPv2C.getter a m = take_field (v2_shift a) (GTPv2C.width a) (GTPv2C.flags m).
Proof. by destruct a. Qed.

(** X8.  The flag setters of a GTPv1-C header: a field reads back the low bits
    of what was written, the fields of the other accessors keep their
    values, and a flags octet stays an octet. *)
Theorem GTPv1C_flag_accessors (a b : GTPv1C.accessor) (v : Z) (m : GTPv1C.t) :
  GTPv1C.getter a (GTPv1C.setter a v m) = Z.land v (Z.ones (GTPv1C.width a))
  /\ (a <> b -> GTPv1C.getter b (GTPv1C.setter a v m) = GTPv1C.getter b m)
  /\ (0 <= GTPv1C.flags m < 256 -> 0 <= GTPv1C.flags (GTPv1C.setter a v m) < 256).
Proof.
  rewrite !v1_getter_take, !v1_setter_put. unfold put, take_field.
  split; [|split].
  - apply field_get_set; by destruct a.
  - intros Hab. apply field_frame; try (by destruct a); try (by destruct b).
    destruct a, b; try congruence; cbn; lia.
  - intros H. apply (field_set_range _ _ _ _ 8); by destruct a.
Qed.

Lemma GTPv1C_flag_accessors_witness :
  let m := GTPv1C.mk 0x32 16 0 0 PUnset PUnset PUnset (BBytes []) None in
  GTPv1C.getter GTPv1C.S_FLAG (GTPv1C.setter GTPv1C.S_FLAG 3 m) = 1
  /\ GTPv1C.getter GTPv1C.VERSION (GTPv1C.setter GTPv1C.S_FLAG 3 m)
     = GTPv1C.getter GTPv1C.VERSION m
  /\ 0 <= GTPv1C.flags (GTPv1C.setter GTPv1C.S_FLAG 3 m) < 256.
Proof.
  intros m.
  destruct (GTPv1C_flag_accessors GTPv1C.S_FLAG GTPv1C.VERSION 3 m)
    as (Hget & Hframe & Hrange).
  split; [exact Hget|split].
  - apply Hframe. discriminate.
  - apply Hrange. cbn. lia.
Defined.

(** X9.  The flag setters of a GTPv2-C header, in the same way. *)
Theorem GTPv2C_flag_accessors (a b : GTPv2C.accessor) (v : Z) (m : GTPv2C.t) :
  GTPv2C.getter a (GTPv2C.setter a v m) = Z.land v (Z.ones (GTPv2C.width a))
  /\ (a <> b -> GTPv2C.getter b (GTPv2C.setter a v m) = GTPv2C.getter b m)
  /\ (0 <= GTPv2C.flags m < 256 -> 0 <= GTPv2C.flags (GTPv2C.setter a v m) < 256).
Proof.
  rewrite !v2_getter_take, !v2_setter_put. unfold put, take_field.
  split; [|split].
  - apply field_get_set; by destruct a.
  - intros Hab. apply field_frame; try (by destruct a); try (by destruct b).
    destruct a, b; try congruence; cbn; lia.
  - intros H. apply (field_set_range _ _ _ _ 8); by destruct a.
Qed.

Lemma GTPv2C_flag_accessors_witness :
  let m := GTPv2C.mk 0x40 1 0 PUnset PUnset PUnset (BBytes []) None in
  GTPv2C.getter GTPv2C.T_FLAG (GTPv2C.setter GTPv2C.T_FLAG 1 m) = 1
  /\ GTPv2C.getter GTPv2C.VERSION (GTPv2C.setter GTPv2C.T_FLAG 1 m)
     = GTPv2C.getter GTPv2C.VERSION m
  /\ 0 <= GTPv2C.flags (GTPv2C.setter GTPv2C.T_FLAG 1 m) < 256.
Proof.
  intros m.
  destruct (GTPv2C_flag_accessors GTPv2C.T_FLAG GTPv2C.VERSION 1 m)
    as (Hget & Hframe & Hrange).
  split; [exact Hget|split].
  - apply Hframe. discriminate.
  - apply Hrange. cbn. lia.
Defined.

End gtp_flags.

Module ie_codec.
Import gtp_c.
Local Open Scope Z_scope.

Lemma struct_pack_inv w v bs :
  struct_pack w v = Ok bs ->
  0 <= v < 2 ^ (8 * Z.of_nat w) /\ bs = be_bytes w (Z.to_N v).
Proof.
  unfold struct_pack. destruct (_ && _)%bool eqn:E; [|done]. intros [= <-].
  apply andb_true_iff in E as [H0 H1].
  apply Z.leb_le in H0. apply Z.ltb_lt in H1. done.
Qed.

Lemma be_value_1 v : (v < 256)%N -> be_value [byte_of_N v] = v.
Proof.
  intros Hv. change [byte_of_N v] with (be_bytes 1 v).
  rewrite be_value_be_bytes. apply N.mod_small. exact Hv.
Qed.

Lemma be_value_2 v :
  (v < 65536)%N -> be_value [byte_of_N (v / 256); byte_of_N v] = v.
Proof.
  intros Hv. change [byte_of_N (v / 256); byte_of_N v] with (be_bytes 2 v).
  rewrite be_value_be_bytes. apply N.mod_small. exact Hv.
Qed.

Lemma be_value_4 v :
  (v < 4294967296)%N ->
  be_value [byte_of_N (v / 256 / 256 / 256); byte_of_N (v / 256 / 256);
            byte_of_N (v / 256); byte_of_N v] = v.
Proof.
  intros Hv.
  change [byte_of_N (v / 256 / 256 / 256); byte_of_N (v / 256 / 256);
          byte_of_N (v / 256); byte_of_N v] with (be_bytes 4 v).
  rewrite be_value_be_bytes. apply N.mod_small. exact Hv.
Qed.

(** The bytes of an element: its four header octets, then its value. *)
Lemma IEv2_bytes_inv ie b :
  IEv2.__bytes__ ie = Ok b ->
  (0 <= IEv2.type ie < 256 /\ 0 <= IEv2.flags ie < 256 /\
   (py_len (IEv2.data ie) < 65536)%N) /\
  b = [byte_of_N (Z.to_N (IEv2.type ie));
       byte_of_N (py_len (IEv2.data ie) / 256); byte_of_N (py_len (IEv2.data ie));
       byte_of_N (Z.to_N (IEv2.flags ie))] ++ IEv2.data ie.
Proof.
  unfold IEv2.__bytes__. intros H. apply bind_ok in H as (h & Hh & [= <-]).
  destruct (IEv2.pack_hdr ie) as [ie' r] eqn:E. cbn in Hh. subst r.
  apply encode_properties.IEv2_pack_hdr_inv in E as (_ & t & l & f & Ht & Hl & Hf & ->).
  apply struct_pack_inv in Ht as [Ht ->], Hl as [Hl ->], Hf as [Hf ->].
  rewrite N2Z.id. split; [|done].
  change (2 ^ (8 * Z.of_nat 1)) with 256 in *.
  change (2 ^ (8 * Z.of_nat 2)) with 65536 in *. lia.
Qed.

Lemma IEv2_bytes_ok ie :
  0 <= IEv2.type ie < 256 -> 0 <= IEv2.flags ie < 256 ->
  (py_len (IEv2.data ie) < 65536)%N ->
  IEv2.__bytes__ ie
  = Ok ([byte_of_N (Z.to_N (IEv2.type ie));
         byte_of_N (py_len (IEv2.data ie) / 256); byte_of_N (py_len (IEv2.data ie));
         byte_of_N (Z.to_N (IEv2.flags ie))] ++ IEv2.data ie).
Proof.
  intros Ht Hf Hl. unfold IEv2.__bytes__, IEv2.pack_hdr.
  unfold mbind at 2 3, stx_bind, modify, get, lift. cbn [snd IEv2.type IEv2.len IEv2.flags IEv2.data].
  unfold Packet.pack_hdr. cbn [struct_pack_fields].
  rewrite !struct_pack_ok by (cbn; lia). rewrite N2Z.id. reflexivity.
Qed.

(** What the constructor makes of a buffer of four bytes or more. *)
Lemma IEv2_of_bytes_cons t l1 l0 f payload :
  IEv2.of_bytes (t :: l1 :: l0 :: f :: payload)
  = Ok (IEv2.mk (Z.of_N (ord t)) (Z.of_N (be_value [l1; l0])) (Z.of_N (ord f))
                (take (N.to_nat (be_value [l1; l0])) payload)).
Proof.
  unfold IEv2.of_bytes, Packet.init, IEv2.unpack, Packet.unpack.
  cbn -[be_value N.mul N.add take Z.of_N ord].
  change (take 1 (t :: l1 :: l0 :: f :: payload)) with [t].
  change (take 2 (l1 :: l0 :: f :: payload)) with [l1; l0].
  change (take 1 (f :: payload)) with [f].
  rewrite drop_0, <- Z_N_nat, N2Z.id. by cbn [be_value fold_left].
Qed.

Lemma IEv2_roundtrip ie b rest :
  IEv2.__bytes__ ie = Ok b ->
  IEv2.of_bytes (b ++ rest) = Ok (IEv2.packed ie) /\
  IEv2.__len__ (IEv2.packed ie) = py_len b.
Proof.
  intros H. apply IEv2_bytes_inv in H as ((Ht & Hf & Hl) & ->). split.
  - cbn [app]. rewrite IEv2_of_bytes_cons.
    rewrite be_value_2 by done. rewrite !ord_byte_of_N.
    rewrite !N.mod_small by lia. rewrite !Z2N.id by lia.
    unfold IEv2.packed. f_equal.
    unfold py_len. rewrite Nat2N.id. by rewrite take_app_length.
  - unfold IEv2.__len__, IEv2.hdr_len, py_len. cbn [IEv2.packed IEv2.data].
    rewrite length_app. cbn [length]. lia.
Qed.

(** X11.  A buffer of fewer than four bytes is refused with [NeedData]; any
    other buffer decodes, also when its length field promises more bytes
    than the buffer has: the value is then what is there. *)
Theorem IEv2_decode_short_value buf :
  ((py_len buf < 4)%N -> IEv2.of_bytes buf = Raise NeedData) /\
  ((4 <= py_len buf)%N ->
   exists ie,
     IEv2.of_bytes buf = Ok ie /\
     IEv2.len ie = Z.of_N (be_value (slice buf 1 3)) /\
     IEv2.data ie = slice buf 4 (4 + Z.to_N (IEv2.len ie)) /\
     py_len (IEv2.data ie) = N.min (Z.to_N (IEv2.len ie)) (py_len buf - 4) /\
     (IEv2.__len__ ie <= py_len buf)%N).
Proof.
  split.
  - intros Hlen. unfold IEv2.of_bytes, Packet.init, IEv2.unpack, Packet.unpack.
    cbn [foldr Nat.add].
    assert ((length buf <? 4)%nat = true) as ->.
    { apply Nat.ltb_lt. unfold py_len in Hlen. lia. }
    cbn. unfold IEv2.hdr_len.
    by assert ((py_len buf <? 4)%N = true) as -> by (by apply N.ltb_lt).
  - intros Hlen.
    destruct buf as [|t [|l1 [|l0 [|f payload]]]];
      try (unfold py_len in Hlen; cbn in Hlen; lia).
    rewrite IEv2_of_bytes_cons. eexists. split; [reflexivity|].
    cbn [IEv2.len IEv2.data]. rewrite N2Z.id.
    assert (Hs : slice (t :: l1 :: l0 :: f :: payload) 4
                       (4 + be_value [l1; l0])
                 = take (N.to_nat (be_value [l1; l0])) payload).
    { unfold slice. f_equal. lia. }
    rewrite Hs. split; [done|]. split; [done|].
    unfold IEv2.__len__, IEv2.hdr_len, py_len. cbn [IEv2.data length].
    rewrite length_take. lia.
Qed.

Lemma IEv2_decode_short_value_witness :
  IEv2.of_bytes [x47; x00; x11] = Raise NeedData /\
  exists ie,
    IEv2.of_bytes [x47; x00; x11; x00; x61; x62] = Ok ie /\
    IEv2.len ie = 17 /\ py_len (IEv2.data ie) = 2%N.
Proof.
  split.
  - apply (proj1 (IEv2_decode_short_value [x47; x00; x11])). reflexivity.
  - destruct (proj2 (IEv2_decode_short_value [x47; x00; x11; x00; x61; x62]))
      as (ie & Hie & Hlen & _ & Hd & _); [discriminate|].
    exists ie. split; [exact Hie|]. split; [exact Hlen|].
    rewrite Hd, Hlen. reflexivity.
Defined.

(** The loop over the elements of a payload reads back the elements whose
    bytes were joined to make it. *)
Lemma unpack_ies_join_v2 ies : forall J fuel,
  join_bytes IEv2.__bytes__ ies = Ok J -> (length J <= fuel)%nat ->
  unpack_ies IEv2.of_bytes IEv2.__len__ fuel J
  = Some (Ok (map IEv2.packed ies)).
Proof.
  induction ies as [|ie ies IH]; intros J fuel HJ Hfuel.
  - injection HJ as <-. by destruct fuel.
  - cbn [join_bytes] in HJ.
    apply bind_ok in HJ as (b & Hb & HJ). apply bind_ok in HJ as (J' & HJ' & [= <-]).
    destruct (IEv2_roundtrip ie b J' Hb) as [Hdec Hlen].
    pose proof (IEv2_bytes_inv ie b Hb) as [_ Hshape].
    assert (Hb4 : (4 <= length b)%nat).
    { rewrite Hshape. cbn. lia. }
    rewrite length_app in Hfuel.
    destruct fuel as [|fuel]; [lia|].
    destruct (b ++ J') as [|c k] eqn:E.
    { apply (f_equal length) in E. rewrite length_app in E. cbn in E. lia. }
    cbn [unpack_ies]. rewrite Hdec, Hlen, <- E.
    unfold slice_from, py_len. rewrite Nat2N.id, drop_app_length.
    rewrite (IH J' fuel HJ') by lia. done.
Qed.

(** X10.  Decoding the bytes of an element gives the element back, with its
    [len] set to the length of its value, whatever follows the element in
    the buffer, and the length of the element is the length of its bytes;
    so the loop over a payload made of the bytes of a list of elements
    reads back that list. *)
Theorem IEv2_bytes_roundtrip :
  (forall ie b rest,
     IEv2.__bytes__ ie = Ok b ->
     IEv2.of_bytes (b ++ rest) = Ok (IEv2.packed ie) /\
     IEv2.__len__ (IEv2.packed ie) = py_len b)
  /\ (forall ies J,
     join_bytes IEv2.__bytes__ ies = Ok J ->
     unpack_ies IEv2.of_bytes IEv2.__len__ (length J) J
     = Some (Ok (map IEv2.packed ies))).
Proof.
  split.
  - intros ie b rest. apply IEv2_roundtrip.
  - intros ies J HJ. by apply unpack_ies_join_v2.
Qed.

Lemma IEv2_bytes_roundtrip_witness :
  let ie := IEv2.mk 71 0 0 (dns.B "some.operator.net") in
  let b := [x47; x00; x11; x00] ++ dns.B "some.operator.net" in
  (IEv2.of_bytes (b ++ [x03; x00; x01; x00; x07]) = Ok (IEv2.packed ie) /\
   IEv2.__len__ (IEv2.packed ie) = py_len b)
  /\ unpack_ies IEv2.of_bytes IEv2.__len__ (length (b ++ b)) (b ++ b)
     = Some (Ok (map IEv2.packed [ie; ie])).
Proof.
  intros ie b. split.
  - apply (proj1 IEv2_bytes_roundtrip ie b). reflexivity.
  - apply (proj2 IEv2_bytes_roundtrip [ie; ie] (b ++ b)). reflexivity.
Defined.

End ie_codec.

Module gtpv2_codec.
Import gtp_c bitfields ie_codec.
Local Open Scope Z_scope.

Lemma land_byte_range x : 0 <= Z.land x 0xff < 256.
Proof.
  apply (land_fits _ 8); [lia|]. change 255 with (Z.ones 8).
  by rewrite <- Z.land_assoc, Z.land_diag.
Qed.

(** An octet made of the low eight bits of an integer is read back as
    those bits. *)
Lemma compat_ord_byte x : compat_ord (byte_of_Z (Z.land x 0xff)) = Z.land x 0xff.
Proof.
  pose proof (land_byte_range x) as H.
  unfold compat_ord, byte_of_Z. rewrite ord_byte_of_N.
  rewrite N.mod_small by lia. lia.
Qed.

Lemma testbit_octet t k n :
  0 <= k -> 0 <= n ->
  Z.testbit (Z.shiftl (Z.land (Z.shiftr t k) 0xff) k) n
  = Z.testbit t n && (k <=? n) && (n <? k + 8).
Proof.
  intros Hk Hn. rewrite Z.shiftl_spec by lia.
  destruct (k <=? n) eqn:E.
  - apply Z.leb_le in E. rewrite Z.land_spec, Z.shiftr_spec by lia.
    replace (n - k + k) with n by lia.
    change 255 with (Z.ones 8). rewrite Z.testbit_ones_nonneg by lia.
    rewrite andb_true_r. f_equal.
    destruct (n - k <? 8) eqn:E1, (n <? k + 8) eqn:E2; try done;
      [apply Z.ltb_lt in E1; apply Z.ltb_ge in E2|
       apply Z.ltb_ge in E1; apply Z.ltb_lt in E2]; lia.
  - apply Z.leb_gt in E. rewrite Z.testbit_neg_r by lia.
    by rewrite andb_false_r.
Qed.

Lemma testbit_low_octet t n :
  0 <= n -> Z.testbit (Z.land t 0xff) n = Z.testbit t n && (0 <=? n) && (n <? 0 + 8).
Proof.
  intros Hn. rewrite <- (testbit_octet t 0 n) by lia.
  by rewrite Z.shiftl_0_r, Z.shiftr_0_r.
Qed.

Ltac octet_cases n :=
  repeat match goal with
         | |- context [(?a <=? n)] => destruct (Z.leb_spec a n)
         | |- context [(n <? ?a)] => destruct (Z.ltb_spec n a)
         end;
  rewrite ?andb_true_r, ?andb_false_r, ?orb_false_r, ?orb_false_l; try done; try lia.

(** Four octets cut from a 32-bit integer make it up again. *)
Lemma octets4_value t :
  0 <= t < 2 ^ 32 ->
  Z.lor (Z.lor (Z.lor (Z.shiftl (Z.land (Z.shiftr t 24) 0xff) 24)
                      (Z.shiftl (Z.land (Z.shiftr t 16) 0xff) 16))
               (Z.shiftl (Z.land (Z.shiftr t 8) 0xff) 8))
        (Z.land t 0xff) = t.
Proof.
  intros Ht. apply (land_fits _ 32) in Ht; [|lia].
  apply Z.bits_inj'. intros n Hn.
  pose proof (testbit_land_eq _ _ n Ht) as Ho.
  rewrite Z.testbit_ones_nonneg in Ho by lia.
  rewrite !Z.lor_spec, !testbit_octet, testbit_low_octet by lia.
  rewrite Ho. octet_cases n.
Qed.

Lemma octets3_value s :
  0 <= s < 2 ^ 24 ->
  Z.lor (Z.lor (Z.shiftl (Z.land (Z.shiftr s 16) 0xff) 16)
               (Z.shiftl (Z.land (Z.shiftr s 8) 0xff) 8))
        (Z.land s 0xff) = s.
Proof.
  intros Hs. apply (land_fits _ 24) in Hs; [|lia].
  apply Z.bits_inj'. intros n Hn.
  pose proof (testbit_land_eq _ _ n Hs) as Ho.
  rewrite Z.testbit_ones_nonneg in Ho by lia.
  rewrite !Z.lor_spec, !testbit_octet, testbit_low_octet by lia.
  rewrite Ho. octet_cases n.
Qed.

(** The fields that [unpack] reads when the T flag is set. *)
Lemma GTPv2C_unpack_fields_teid f t l1 l0 d0 d1 d2 d3 d4 d5 d6 d7 payload :
  Z.land (Z.shiftr (Z.of_N (ord f)) 3) 1 <> 0 ->
  GTPv2C.unpack_fields
    (f :: t :: l1 :: l0 :: d0 :: d1 :: d2 :: d3 :: d4 :: d5 :: d6 :: d7 :: payload)
  = Ok (GTPv2C.mk (Z.of_N (ord f)) (Z.of_N (ord t)) (Z.of_N (be_value [l1; l0]))
          (PInt (Z.lor (Z.lor (Z.lor (Z.shiftl (compat_ord d0) 24)
                                     (Z.shiftl (compat_ord d1) 16))
                              (Z.shiftl (compat_ord d2) 8)) (compat_ord d3)))
          (PInt (Z.lor (Z.lor (Z.shiftl (compat_ord d4) 16)
                              (Z.shiftl (compat_ord d5) 8)) (compat_ord d6)))
          (PInt (Z.land (Z.shiftr (compat_ord d7) 4) 0xf))
          (BBytes payload) None,
        payload).
Proof.
  intros Hf. apply Z.eqb_neq in Hf. unfold GTPv2C.unpack_fields, Packet.unpack.
  cbn -[be_value Z.land Z.lor Z.shiftl Z.shiftr ord Z.of_N compat_ord take].
  change (take 1 (f :: ?x)) with [f].
  change (take 1 (t :: ?x)) with [t].
  change (take 2 (l1 :: l0 :: ?x)) with [l1; l0].
  change (be_value [f]) with (0 * 256 + ord f)%N.
  change (be_value [t]) with (0 * 256 + ord t)%N.
  rewrite !N.mul_0_l, !N.add_0_l. rewrite Hf.
  reflexivity.
Qed.

(** What [pack_hdr] makes of a message with the T flag that holds a list
    of elements. *)
Lemma GTPv2C_pack_hdr_teid fl ty ln pr ie ds J s t :
  join_bytes IEv2.__bytes__ ds = Ok J ->
  Z.land (Z.shiftr fl 3) 1 <> 0 ->
  0 <= fl < 256 -> 0 <= ty < 256 -> (py_len J + 8 < 65536)%N ->
  let seq := [byte_of_Z (Z.land (Z.shiftr s 16) 0xff);
              byte_of_Z (Z.land (Z.shiftr s 8) 0xff); byte_of_Z (Z.land s 0xff)] in
  let teid := [byte_of_Z (Z.land (Z.shiftr t 24) 0xff);
               byte_of_Z (Z.land (Z.shiftr t 16) 0xff);
               byte_of_Z (Z.land (Z.shiftr t 8) 0xff); byte_of_Z (Z.land t 0xff)] in
  let body := teid ++ seq ++ [x00] ++ J in
  GTPv2C.pack_hdr (GTPv2C.mk fl ty ln (PInt t) (PInt s) pr (BList ds) ie)
  = (GTPv2C.mk fl ty (Z.of_N (py_len body)) (PBytes teid) (PBytes seq) pr
               (BBytes body) ie,
     Ok [byte_of_N (Z.to_N fl); byte_of_N (Z.to_N ty);
         byte_of_N (py_len body / 256); byte_of_N (py_len body)]).
Proof.
  intros HJ Ht Hfl Hty Hlen seq teid body.
  unfold GTPv2C.pack_hdr, mbind, stx_bind, get, lift, modify.
  cbn -[Packet.pack_hdr byte_of_Z Z.land Z.shiftr py_len].
  rewrite HJ. cbn -[Packet.pack_hdr byte_of_Z Z.land Z.shiftr py_len].
  fold (GTPv2C.t_flag (GTPv2C.mk fl ty ln (PInt t) (PInt s) pr (BList ds) ie)).
  unfold GTPv2C.t_flag. cbn [GTPv2C.flags].
  apply Z.eqb_neq in Ht. rewrite Ht.
  cbn -[Packet.pack_hdr byte_of_Z Z.land Z.shiftr py_len].
  unfold GTPv2C.Packet_pack_hdr, mbind, stx_bind, get, lift, mret, stx_ret.
  cbn -[Packet.pack_hdr byte_of_Z Z.land Z.shiftr py_len].
  fold seq teid. change (teid ++ seq ++ x00 :: J) with body.
  f_equal. unfold Packet.pack_hdr. cbn [struct_pack_fields].
  assert (Hb : (py_len body < 65536)%N).
  { subst body teid seq. unfold py_len in *. rewrite !length_app. cbn [length]. lia. }
  change (py_len (byte_of_Z _ :: _)) with (py_len body).
  rewrite !struct_pack_ok
    by (first [change (2 ^ (8 * Z.of_nat 1)) with 256
              |change (2 ^ (8 * Z.of_nat 2)) with 65536]; lia).
  rewrite N2Z.id. reflexivity.
Qed.

(** X12.  A message with the T flag is read back from the header that
    [pack_hdr] returns and the payload that it leaves in [data]: flags,
    type, TEID and sequence number as they were, the elements with their
    lengths set, and the priority 0, which is not written. *)
Theorem GTPv2C_teid_roundtrip (m : GTPv2C.t) ds J s t :
  GTPv2C.data m = BList ds ->
  join_bytes IEv2.__bytes__ ds = Ok J ->
  GTPv2C.seqnum m = PInt s -> 0 <= s < 2 ^ 24 ->
  GTPv2C.teid m = PInt t -> 0 <= t < 2 ^ 32 ->
  GTPv2C.t_flag m <> 0 ->
  0 <= GTPv2C.flags m < 256 -> 0 <= GTPv2C.type m < 256 ->
  (py_len J + 8 < 65536)%N ->
  exists m' h body,
    GTPv2C.pack_hdr m = (m', Ok h) /\
    GTPv2C.data m' = BBytes body /\
    py_len body = (8 + py_len J)%N /\
    GTPv2C.of_bytes (h ++ body)
    = Some (Ok (GTPv2C.mk (GTPv2C.flags m) (GTPv2C.type m) (Z.of_N (py_len body))
                          (PInt t) (PInt s) (PInt 0)
                          (BList (map IEv2.packed ds))
                          (Some (map IEv2.packed ds)))).
Proof.
  destruct m as [fl ty ln te sq pr da ie].
  cbn [GTPv2C.data GTPv2C.seqnum GTPv2C.teid GTPv2C.flags GTPv2C.type].
  unfold GTPv2C.t_flag. cbn [GTPv2C.flags].
  intros -> HJ -> Hs -> Ht Hfl Hrfl Hrty Hlen.
  rewrite (GTPv2C_pack_hdr_teid fl ty ln pr ie ds J s t) by done.
  cbv zeta. eexists _, _, _. split; [reflexivity|]. split; [reflexivity|].
  set (teid := [byte_of_Z (Z.land (Z.shiftr t 24) 255);
                byte_of_Z (Z.land (Z.shiftr t 16) 255);
                byte_of_Z (Z.land (Z.shiftr t 8) 255); byte_of_Z (Z.land t 255)]).
  set (seq := [byte_of_Z (Z.land (Z.shiftr s 16) 255);
               byte_of_Z (Z.land (Z.shiftr s 8) 255); byte_of_Z (Z.land s 255)]).
  assert (Hbody : py_len (teid ++ seq ++ [x00] ++ J) = (8 + py_len J)%N).
  { subst teid seq. unfold py_len. rewrite !length_app. cbn [length]. lia. }
  split; [exact Hbody|].
  unfold GTPv2C.of_bytes, GTPv2C.unpack. subst teid seq. cbn [app] in *.
  rewrite GTPv2C_unpack_fields_teid.
  2:{ rewrite ord_byte_of_N, N.mod_small by lia. by rewrite Z2N.id by lia. }
  rewrite (unpack_ies_join_v2 ds J (length J) HJ) by done.
  cbn [GTPv2C.flags GTPv2C.type GTPv2C.len GTPv2C.teid GTPv2C.seqnum
       GTPv2C.priority Packet.init].
  rewrite !compat_ord_byte, octets4_value, octets3_value by done.
  rewrite !ord_byte_of_N, !N.mod_small, !Z2N.id by lia.
  set (n := py_len (_ :: _)) in *.
  rewrite be_value_2 by lia.
  reflexivity.
Qed.

Lemma GTPv2C_teid_roundtrip_witness :
  let ds := [IEv2.mk 1 0 0 [x44; x90; x01; x12; x23; x34; x45; xf5];
             IEv2.mk 71 0 0 (dns.B "some.operator.net")] in
  let m := GTPv2C.mk 0x48 32 0 (PInt 0x10) (PInt 0x01000a) PUnset (BList ds) None in
  exists m' h body,
    GTPv2C.pack_hdr m = (m', Ok h) /\
    GTPv2C.data m' = BBytes body /\
    py_len body = (8 + 33)%N /\
    GTPv2C.of_bytes (h ++ body)
    = Some (Ok (GTPv2C.mk 0x48 32 (Z.of_N (py_len body))
                          (PInt 0x10) (PInt 0x01000a) (PInt 0)
                          (BList (map IEv2.packed ds))
                          (Some (map IEv2.packed ds)))).
Proof.
  intros ds m.
  apply (GTPv2C_teid_roundtrip m ds
           ([x01; x00; x08; x00; x44; x90; x01; x12; x23; x34; x45; xf5]
            ++ [x47; x00; x11; x00] ++ dns.B "some.operator.net")
           0x01000a 0x10);
    try reflexivity; try (cbn; lia); try discriminate.
Defined.

(** X13.  A message with the T flag set whose payload has fewer than the eight
    bytes of TEID, sequence number and spare octet is refused with an
    [IndexError]. *)
Theorem GTPv2C_short_teid_payload f t l1 l0 payload :
  Z.land (Z.shiftr (Z.of_N (ord f)) 3) 1 <> 0 ->
  (length payload < 8)%nat ->
  GTPv2C.of_bytes (f :: t :: l1 :: l0 :: payload) = Some (Raise IndexError).
Proof.
  intros Hf Hlen. apply Z.eqb_neq in Hf.
  unfold GTPv2C.of_bytes, GTPv2C.unpack, GTPv2C.unpack_fields, Packet.unpack.
  cbn -[be_value Z.land Z.lor Z.shiftl Z.shiftr ord Z.of_N compat_ord take].
  change (take 1 (f :: ?x)) with [f].
  change (be_value [f]) with (0 * 256 + ord f)%N.
  rewrite !N.mul_0_l, !N.add_0_l. rewrite Hf.
  do 8 (destruct payload as [|? payload]; [reflexivity|]).
  cbn in Hlen. lia.
Qed.

Lemma GTPv2C_short_teid_payload_witness :
  GTPv2C.of_bytes [x48; x20; x00; x08; x00; x00; x00; x10; x01; x00; x0a]
  = Some (Raise IndexError).
Proof.
  apply (GTPv2C_short_teid_payload x48 x20 x00 x08
           [x00; x00; x00; x10; x01; x00; x0a]).
  - discriminate.
  - cbn. lia.
Defined.

End gtpv2_codec.

Module gtpv2_reencode.
Import gtp_c bitfields ie_codec gtpv2_codec.
Local Open Scope Z_scope.

Lemma be_value_2_bound a b : (be_value [a; b] < 65536)%N.
Proof.
  pose proof (ord_bounded a). pose proof (ord_bounded b).
  cbn [be_value fold_left]. lia.
Qed.

(** A decoded element can be encoded again, into as many bytes as its
    length, which the buffer it was read from has. *)
Lemma IEv2_decoded_bytes d ie :
  IEv2.of_bytes d = Ok ie ->
  exists b, IEv2.__bytes__ ie = Ok b /\
            py_len b = IEv2.__len__ ie /\ (IEv2.__len__ ie <= py_len d)%N.
Proof.
  intros H.
  destruct d as [|t [|l1 [|l0 [|f payload]]]]; try (by cbv in H).
  rewrite IEv2_of_bytes_cons in H. injection H as <-.
  pose proof (be_value_2_bound l1 l0) as Hl.
  pose proof (ord_bounded t). pose proof (ord_bounded f).
  set (n := be_value [l1; l0]) in *.
  assert (Hd : (py_len (take (N.to_nat n) payload) < 65536)%N).
  { unfold py_len. rewrite length_take. lia. }
  rewrite IEv2_bytes_ok; cbn [IEv2.type IEv2.flags IEv2.data]; [|lia|lia|done].
  eexists. split; [reflexivity|].
  unfold IEv2.__len__, IEv2.hdr_len, py_len. cbn [IEv2.data].
  rewrite !length_app. cbn [length]. rewrite length_take. lia.
Qed.

Lemma unpack_ies_bytes fuel : forall data l,
  unpack_ies IEv2.of_bytes IEv2.__len__ fuel data = Some (Ok l) ->
  exists J, join_bytes IEv2.__bytes__ l = Ok J /\ (length J <= length data)%nat.
Proof.
  induction fuel as [|fuel IH]; intros data l H.
  - destruct data; [|done]. injection H as <-. by exists [].
  - destruct data as [|c data]; [injection H as <-; by exists []|].
    cbn [unpack_ies] in H.
    destruct (IEv2.of_bytes (c :: data)) as [ie|e] eqn:E; [|done].
    destruct (unpack_ies _ _ fuel _) as [[l'|e]|] eqn:E'; [|done|done].
    injection H as <-.
    destruct (IEv2_decoded_bytes _ _ E) as (b & Hb & Hlen & Hle).
    destruct (IH _ _ E') as (J & HJ & HJle).
    exists (b ++ J). cbn [join_bytes]. rewrite Hb, HJ. split; [done|].
    unfold slice_from in HJle. rewrite length_drop in HJle.
    rewrite length_app. unfold py_len in *. lia.
Qed.

(** What the constructor has read when it returns a message. *)
Lemma GTPv2C_of_bytes_inv buf m :
  GTPv2C.of_bytes buf = Some (Ok m) ->
  exists self data l,
    GTPv2C.unpack_fields buf = Ok (self, data) /\
    unpack_ies IEv2.of_bytes IEv2.__len__ (length data) data = Some (Ok l) /\
    m = GTPv2C.mk (GTPv2C.flags self) (GTPv2C.type self) (GTPv2C.len self)
                  (GTPv2C.teid self) (GTPv2C.seqnum self) (GTPv2C.priority self)
                  (BList l) (Some l).
Proof.
  unfold GTPv2C.of_bytes, GTPv2C.unpack.
  destruct (GTPv2C.unpack_fields buf) as [[self data]|e] eqn:E.
  - destruct (unpack_ies _ _ _ _) as [[l|e]|] eqn:E'; [| |done].
    + cbn. intros [= <-]. by exists self, data, l.
    + cbn. destruct e; try done. by destruct (_ <? _)%N.
  - cbn. destruct e; try done. by destruct (_ <? _)%N.
Qed.

(** The two shapes of the fields that [unpack] sets. *)
Lemma GTPv2C_unpack_fields_inv buf self data :
  GTPv2C.unpack_fields buf = Ok (self, data) ->
  (GTPv2C.t_flag self = 0 /\ (exists s, GTPv2C.seqnum self = PBytes s)
   /\ (length data + 4 <= length buf)%nat)
  \/ (GTPv2C.t_flag self <> 0 /\ (exists s, GTPv2C.seqnum self = PInt s)
      /\ (exists t, GTPv2C.teid self = PInt t)
      /\ (length data + 12 <= length buf)%nat).
Proof.
  unfold GTPv2C.unpack_fields. intros H.
  apply bind_ok in H as ([fields payload] & Hu & H).
  unfold Packet.unpack in Hu. cbn [foldr Nat.add] in Hu.
  destruct (length buf <? 4)%nat eqn:E4; [done|]. apply Nat.ltb_ge in E4.
  injection Hu as _ <-. cbv beta iota zeta in H.
  set (fl := Z.of_N (nth 0 fields 0%N)) in *.
  destruct (Z.land (Z.shiftr fl 3) 1 =? 0) eqn:Et; cbn [negb] in H.
  - injection H as <- <-. left. unfold GTPv2C.t_flag. cbn [GTPv2C.flags GTPv2C.seqnum].
    apply Z.eqb_eq in Et. split; [done|]. split; [by eexists|].
    unfold slice_from. rewrite !length_drop. lia.
  - right. apply Z.eqb_neq in Et.
    repeat (apply bind_ok in H as (? & ? & H)).
    injection H as <- <-. unfold GTPv2C.t_flag. cbn [GTPv2C.flags GTPv2C.seqnum GTPv2C.teid].
    split; [done|]. split; [by eexists|]. split; [by eexists|].
    match goal with
    | Hi : GTPv2C.item _ 7 = Ok _ |- _ =>
        unfold GTPv2C.item in Hi;
        destruct (drop 4 buf !! 7%nat) eqn:E7; [|done];
        apply lookup_lt_Some in E7
    end.
    unfold slice_from. rewrite !length_drop in *. cbn. lia.
Qed.

Lemma Packet_pack_hdr_v2_length a b c h :
  Packet.pack_hdr [(1%nat, a); (1%nat, b); (2%nat, c)] = Ok h -> length h = 4%nat.
Proof.
  unfold Packet.pack_hdr.
  destruct (struct_pack_fields _) as [bs|e] eqn:E; [|by destruct e].
  intros [= <-].
  apply struct_pack_fields_cons in E as (x & ? & Hx & E & ->).
  apply struct_pack_fields_cons in E as (y & ? & Hy & E & ->).
  apply struct_pack_fields_cons in E as (z & ? & Hz & E & ->).
  injection E as <-.
  apply struct_pack_inv in Hx as [_ ->], Hy as [_ ->], Hz as [_ ->].
  rewrite !length_app, !length_be_bytes. done.
Qed.

(** X14.  Encoding a message that was decoded does not give back the bytes it
    was decoded from.  Without the T flag the sequence number was left as
    bytes, on which [pack_hdr] fails with a [TypeError]; with the T flag
    the result is the four header octets and the elements, without the
    eight octets of TEID, sequence number and spare. *)
Theorem GTPv2C_decoded_bytes buf m :
  GTPv2C.of_bytes buf = Some (Ok m) ->
  (GTPv2C.t_flag m = 0 -> snd (GTPv2C.__bytes__ m) = Raise TypeError) /\
  (forall out, snd (GTPv2C.__bytes__ m) = Ok out ->
               (py_len out + 8 <= py_len buf)%N) /\
  snd (GTPv2C.__bytes__ m) <> Ok buf.
Proof.
  intros H. apply GTPv2C_of_bytes_inv in H as (self & data & l & Hf & Hl & ->).
  destruct (unpack_ies_bytes _ _ _ Hl) as (J & HJ & HJle).
  destruct self as [fl ty ln te sq pr da ie].
  cbn [GTPv2C.flags GTPv2C.type GTPv2C.len GTPv2C.teid GTPv2C.seqnum GTPv2C.priority].
  rewrite (gtp_c_properties.GTPv2C_bytes_list _ _ _ _ _ _ _ _ _ HJ).
  assert (Hcases :
    (GTPv2C.t_flag (GTPv2C.mk fl ty ln te sq pr (BList l) (Some l)) = 0 /\
     snd (GTPv2C.pack_hdr (GTPv2C.mk fl ty ln te sq pr (BList l)
                                     (Some (map IEv2.packed l))))
     = Raise TypeError)
    \/ (GTPv2C.t_flag (GTPv2C.mk fl ty ln te sq pr (BList l) (Some l)) <> 0 /\
        forall h,
          snd (GTPv2C.pack_hdr (GTPv2C.mk fl ty ln te sq pr (BList l)
                                          (Some (map IEv2.packed l))))
          = Ok h -> (length h = 4)%nat /\ (length J + 12 <= length buf)%nat)).
  { apply GTPv2C_unpack_fields_inv in Hf.
    unfold GTPv2C.t_flag in *. cbn [GTPv2C.flags GTPv2C.seqnum GTPv2C.teid] in *.
    destruct Hf as [(Ht & [s ->] & Hlen)|(Ht & [s ->] & [t ->] & Hlen)].
    - left. split; [done|].
      unfold GTPv2C.pack_hdr, mbind, stx_bind, get, lift, modify.
      cbn -[Packet.pack_hdr byte_of_Z Z.land Z.shiftr py_len IEv2.after_bytes].
      rewrite HJ. by cbn -[Packet.pack_hdr byte_of_Z Z.land Z.shiftr py_len].
    - right. split; [done|]. intros h.
      rewrite (gtp_c_properties.GTPv2C_pack_hdr_list _ _ _ _ _ _ _ _ _ HJ). cbv zeta.
      apply Z.eqb_neq in Ht. rewrite Ht. cbn [as_int].
      unfold GTPv2C.Packet_pack_hdr, mbind, stx_bind, get, lift.
      cbn -[Packet.pack_hdr byte_of_Z Z.land Z.shiftr py_len].
      intros Eh. apply Packet_pack_hdr_v2_length in Eh. split; [done|lia]. }
  destruct (GTPv2C.pack_hdr _) as [self' [h|e]]; cbn [snd] in *.
  - destruct Hcases as [[Ht Herr]|[Ht Hout]]; [done|].
    destruct (Hout h eq_refl) as [Hh Hlen].
    assert (Hle : (py_len (h ++ J) + 8 <= py_len buf)%N).
    { unfold py_len. rewrite length_app. lia. }
    split; [done|]. split.
    + by intros out [= <-].
    + intros [= Heq]. rewrite Heq in Hle. lia.
  - destruct Hcases as [[Ht Herr]|[Ht Hout]].
    + split; [done|]. by split.
    + split; [done|]. by split.
Qed.

Lemma GTPv2C_decoded_bytes_witness :
  exists m,
    GTPv2C.of_bytes create_session_request = Some (Ok m) /\
    (forall out, snd (GTPv2C.__bytes__ m) = Ok out ->
                 (py_len out + 8 <= py_len create_session_request)%N) /\
    snd (GTPv2C.__bytes__ m) <> Ok create_session_request.
Proof.
  eexists. split; [vm_compute; reflexivity|].
  eapply GTPv2C_decoded_bytes. vm_compute. reflexivity.
Defined.

End gtpv2_reencode.

Module gtpv1_codec.
Import gtp_c bitfields ie_codec gtpv2_codec.
Local Open Scope Z_scope.

Lemma ord_byte_of_Z v : 0 <= v < 256 -> Z.of_N (ord (byte_of_N (Z.to_N v))) = v.
Proof. intros Hv. rewrite ord_byte_of_N, N.mod_small by lia. lia. Qed.

(** The constructor on a TV element of a type of the table. *)
Lemma IEv1_of_bytes_tv t payload l :
  Z.land (Z.shiftr (Z.of_N (ord t)) 7) 1 = 0 ->
  TV_LEN_DICT !! Z.of_N (ord t) = Some l ->
  IEv1.of_bytes (t :: payload)
  = Ok (IEv1.mk (Z.of_N (ord t)) (PInt l) (take (Z.to_nat l) payload)).
Proof.
  intros He Hl. unfold IEv1.of_bytes, Packet.init, IEv1.unpack, Packet.unpack.
  cbn -[be_value Z.land Z.shiftr ord Z.of_N TV_LEN_DICT take].
  change (take 1 (t :: payload)) with [t].
  change (be_value [t]) with (0 * 256 + ord t)%N.
  rewrite N.mul_0_l, N.add_0_l, He, Hl. by rewrite drop_0.
Qed.

(** The constructor on a TLV element. *)
Lemma IEv1_of_bytes_tlv t l1 l0 payload :
  Z.land (Z.shiftr (Z.of_N (ord t)) 7) 1 <> 0 ->
  IEv1.of_bytes (t :: l1 :: l0 :: payload)
  = Ok (IEv1.mk (Z.of_N (ord t)) (PInt (Z.of_N (be_value [l1; l0])))
                (take (N.to_nat (be_value [l1; l0])) payload)).
Proof.
  intros He. apply Z.eqb_neq in He.
  unfold IEv1.of_bytes, Packet.init, IEv1.unpack, Packet.unpack.
  cbn -[be_value Z.land Z.shiftr ord Z.of_N TV_LEN_DICT take slice struct_unpack].
  change (take 1 (t :: ?x)) with [t].
  change (be_value [t]) with (0 * 256 + ord t)%N.
  rewrite N.mul_0_l, N.add_0_l, He.
  change (take 2 (l1 :: l0 :: payload)) with [l1; l0].
  unfold struct_unpack. cbn [length Nat.eqb mbind result_bind].
  do 2 f_equal. unfold slice. cbn [N.to_nat Pos.to_nat Pos.iter_op Nat.add drop].
  f_equal. lia.
Qed.

(** The bytes of a well-formed element, and what the constructor makes of
    them. *)
Lemma IEv1_roundtrip ie rest :
  IEv1.well_formed ie ->
  exists b,
    IEv1.__bytes__ ie = Ok b /\
    IEv1.of_bytes (b ++ rest) = Ok (IEv1.decoded ie) /\
    IEv1.__len__ (IEv1.decoded ie) = py_len b /\ (0 < length b)%nat.
Proof.
  destruct ie as [ty ln da]. unfold IEv1.well_formed, IEv1.decoded.
  cbn [IEv1.type IEv1.len IEv1.data]. intros [Hty Hwf].
  unfold IEv1.__bytes__, IEv1.pack_hdr, IEv1.__len__, IEv1.encoding, Packet.pack_hdr in *.
  cbn [IEv1.type IEv1.len IEv1.data struct_pack_fields] in *.
  rewrite struct_pack_ok by (cbn; lia).
  cbn [mbind result_bind be_bytes app].
  destruct (Z.land (Z.shiftr ty 7) 1 =? 0) eqn:E.
  - apply Z.eqb_eq in E. eexists. split; [reflexivity|].
    cbn [app]. split; [|split].
    + rewrite (IEv1_of_bytes_tv _ _ (Z.of_N (py_len da)));
        rewrite ?ord_byte_of_Z by done; try done.
      do 2 f_equal. rewrite <- Z_N_nat, N2Z.id. unfold py_len.
      by rewrite Nat2N.id, take_app_length.
    + unfold IEv1.hdr_len, py_len. cbn [length]. lia.
    + cbn. lia.
  - apply Z.eqb_neq in E. destruct Hwf as [-> Hlen].
    rewrite struct_pack_ok by (cbn; lia).
    cbn [mbind result_bind be_bytes app]. rewrite N2Z.id.
    eexists. split; [reflexivity|].
    cbn [app]. split; [|split].
    + rewrite IEv1_of_bytes_tlv by (by rewrite ord_byte_of_Z).
      rewrite ord_byte_of_Z by done. rewrite be_value_2 by done.
      do 2 f_equal. unfold py_len. by rewrite Nat2N.id, take_app_length.
    + unfold IEv1.hdr_len, py_len. cbn [length]. lia.
    + cbn. lia.
Qed.

Lemma unpack_ies_join_v1 ies : forall J fuel,
  Forall IEv1.well_formed ies ->
  join_bytes IEv1.__bytes__ ies = Ok J -> (length J <= fuel)%nat ->
  unpack_ies IEv1.of_bytes IEv1.__len__ fuel J
  = Some (Ok (map IEv1.decoded ies)).
Proof.
  induction ies as [|ie ies IH]; intros J fuel Hwf HJ Hfuel.
  - injection HJ as <-. by destruct fuel.
  - apply Forall_cons in Hwf as [Hie Hwf]. cbn [join_bytes] in HJ.
    apply bind_ok in HJ as (b & Hb & HJ). apply bind_ok in HJ as (J' & HJ' & [= <-]).
    destruct (IEv1_roundtrip ie J' Hie) as (b' & Hb' & Hdec & Hlen & Hpos).
    rewrite Hb in Hb'. injection Hb' as <-.
    rewrite length_app in Hfuel.
    destruct fuel as [|fuel]; [lia|].
    destruct (b ++ J') as [|c k] eqn:E.
    { apply (f_equal length) in E. rewrite length_app in E. cbn in E. lia. }
    cbn [unpack_ies]. rewrite Hdec, Hlen, <- E.
    unfold slice_from, py_len. rewrite Nat2N.id, drop_app_length.
    rewrite (IH J' fuel Hwf HJ') by lia. done.
Qed.

(** The join of the bytes of well-formed elements. *)
Lemma join_bytes_v1_ok ies :
  Forall IEv1.well_formed ies -> exists J, join_bytes IEv1.__bytes__ ies = Ok J.
Proof.
  induction ies as [|ie ies IH]; intros Hwf; [by eexists|].
  apply Forall_cons in Hwf as [Hie Hwf].
  destruct (IEv1_roundtrip ie [] Hie) as (b & Hb & _).
  destruct (IH Hwf) as [J HJ]. exists (b ++ J). cbn [join_bytes]. by rewrite Hb, HJ.
Qed.

(** X15.  Round trip of an information element of GTPv1: a TV element of a type
    of the length table with a value of that length, and a TLV element
    whose [len] is the length of its value, are read back from their bytes,
    whatever follows them, with [len] set; so the loop over a payload made
    of the bytes of a list of such elements reads back that list. *)
Theorem IEv1_bytes_roundtrip :
  (forall ie rest,
     IEv1.well_formed ie ->
     exists b,
       IEv1.__bytes__ ie = Ok b /\
       IEv1.of_bytes (b ++ rest) = Ok (IEv1.decoded ie) /\
       IEv1.__len__ (IEv1.decoded ie) = py_len b)
  /\ (forall ies J,
     Forall IEv1.well_formed ies ->
     join_bytes IEv1.__bytes__ ies = Ok J ->
     unpack_ies IEv1.of_bytes IEv1.__len__ (length J) J
     = Some (Ok (map IEv1.decoded ies))).
Proof.
  split.
  - intros ie rest H. destruct (IEv1_roundtrip ie rest H) as (b & Hb & Hd & Hl & _).
    by exists b.
  - intros ies J Hwf HJ. by apply unpack_ies_join_v1.
Qed.

Lemma IEv1_bytes_roundtrip_witness :
  let tv := IEv1.mk 14 PUnset [x05] in
  let tlv := IEv1.mk 0x83 (PInt 8) (dns.B "internet") in
  (exists b, IEv1.__bytes__ tlv = Ok b /\
             IEv1.of_bytes (b ++ [x10; x00]) = Ok (IEv1.decoded tlv) /\
             IEv1.__len__ (IEv1.decoded tlv) = py_len b)
  /\ unpack_ies IEv1.of_bytes IEv1.__len__ 13
       ([x0e; x05] ++ [x83; x00; x08] ++ dns.B "internet")
     = Some (Ok (map IEv1.decoded [tv; tlv])).
Proof.
  cbv zeta. split.
  - apply (proj1 IEv1_bytes_roundtrip
             (IEv1.mk 0x83 (PInt 8) (dns.B "internet")) [x10; x00]).
    split; [cbn [IEv1.type]; lia|]. split; [reflexivity|]. by vm_compute.
  - apply (proj2 IEv1_bytes_roundtrip
             [IEv1.mk 14 PUnset [x05]; IEv1.mk 0x83 (PInt 8) (dns.B "internet")]
             ([x0e; x05] ++ [x83; x00; x08] ++ dns.B "internet")).
    + repeat constructor; try reflexivity; try (cbn [IEv1.type]; lia); by vm_compute.
    + reflexivity.
Defined.

Lemma octets2_value s :
  0 <= s < 2 ^ 16 ->
  Z.lor (Z.shiftl (Z.land (Z.shiftr s 8) 0xff) 8) (Z.land s 0xff) = s.
Proof.
  intros Hs. apply (land_fits _ 16) in Hs; [|lia].
  apply Z.bits_inj'. intros n Hn.
  pose proof (testbit_land_eq _ _ n Hs) as Ho.
  rewrite Z.testbit_ones_nonneg in Ho by lia.
  rewrite !Z.lor_spec, !testbit_octet, testbit_low_octet by lia.
  rewrite Ho. octet_cases n.
Qed.

(** The fixed header that the constructor reads. *)
Lemma GTPv1C_unpack_header f t l1 l0 t3 t2 t1 t0 payload :
  Packet.unpack [1%nat; 1%nat; 2%nat; 4%nat]
    (f :: t :: l1 :: l0 :: t3 :: t2 :: t1 :: t0 :: payload)
  = Ok ([ord f; ord t; be_value [l1; l0]; be_value [t3; t2; t1; t0]], payload).
Proof.
  unfold Packet.unpack.
  cbn -[be_value take ord].
  change (take 1 (f :: ?x)) with [f].
  change (take 1 (t :: ?x)) with [t].
  change (take 2 (l1 :: l0 :: ?x)) with [l1; l0].
  change (take 4 (t3 :: t2 :: t1 :: t0 :: ?x)) with [t3; t2; t1; t0].
  change (be_value [f]) with (0 * 256 + ord f)%N.
  change (be_value [t]) with (0 * 256 + ord t)%N.
  by rewrite !N.mul_0_l, !N.add_0_l.
Qed.

Lemma Packet_pack_hdr_v1 fl ty ln te :
  0 <= fl < 256 -> 0 <= ty < 256 -> 0 <= ln < 65536 -> 0 <= te < 2 ^ 32 ->
  Packet.pack_hdr [(1%nat, fl); (1%nat, ty); (2%nat, ln); (4%nat, te)]
  = Ok ([byte_of_N (Z.to_N fl); byte_of_N (Z.to_N ty)]
        ++ be_bytes 2 (Z.to_N ln) ++ be_bytes 4 (Z.to_N te)).
Proof.
  intros Hfl Hty Hln Hte. unfold Packet.pack_hdr. cbn [struct_pack_fields].
  rewrite !struct_pack_ok
    by (first [change (2 ^ (8 * Z.of_nat 1)) with 256
              |change (2 ^ (8 * Z.of_nat 2)) with 65536
              |change (2 ^ (8 * Z.of_nat 4)) with (2 ^ 32)]; lia).
  cbn [mbind result_bind]. by rewrite app_nil_r.
Qed.

(** X16.  Round trip of a GTPv1-C message: from the header returned by
    [pack_hdr] and the payload it leaves in [data], the constructor reads
    back flags, type and TEID and the elements; sequence number, N-PDU
    number and next extension type come back when one of the E, S and PN
    flags is set, and are left out otherwise. *)
Theorem GTPv1C_roundtrip (m : GTPv1C.t) ds J s n x :
  GTPv1C.data m = BList ds ->
  Forall IEv1.well_formed ds ->
  join_bytes IEv1.__bytes__ ds = Ok J ->
  0 <= GTPv1C.flags m < 256 -> 0 <= GTPv1C.type m < 256 ->
  0 <= GTPv1C.teid m < 2 ^ 32 ->
  GTPv1C.seqnum m = PInt s -> 0 <= s < 2 ^ 16 ->
  GTPv1C.npdu m = PInt n -> 0 <= n < 256 ->
  GTPv1C.next_type m = PInt x -> 0 <= x < 256 ->
  (py_len J + 4 < 65536)%N ->
  exists m' h body,
    GTPv1C.pack_hdr m = (m', Ok h) /\
    GTPv1C.data m' = BBytes body /\
    GTPv1C.of_bytes (h ++ body)
    = Some (Ok (if GTPv1C.additionals m =? 0
                then GTPv1C.mk (GTPv1C.flags m) (GTPv1C.type m)
                       (Z.of_N (py_len body)) (GTPv1C.teid m)
                       PUnset PUnset PUnset
                       (BList (map IEv1.decoded ds)) (Some (map IEv1.decoded ds))
                else GTPv1C.mk (GTPv1C.flags m) (GTPv1C.type m)
                       (Z.of_N (py_len body)) (GTPv1C.teid m)
                       (PInt s) (PInt n) (PInt x)
                       (BList (map IEv1.decoded ds)) (Some (map IEv1.decoded ds)))).
Proof.
  destruct m as [fl ty ln te sq np nx da ie].
  cbn [GTPv1C.data GTPv1C.seqnum GTPv1C.npdu GTPv1C.next_type GTPv1C.teid
       GTPv1C.flags GTPv1C.type].
  unfold GTPv1C.additionals. cbn [GTPv1C.flags].
  intros -> Hwf HJ Hfl Hty Hte -> Hs -> Hn -> Hx Hlen.
  unfold GTPv1C.pack_hdr, mbind, stx_bind, get, lift, modify.
  cbn -[Packet.pack_hdr byte_of_Z Z.land Z.shiftr py_len].
  rewrite HJ. cbn -[Packet.pack_hdr byte_of_Z Z.land Z.shiftr py_len].
  fold (GTPv1C.additionals
          (GTPv1C.mk fl ty ln te (PInt s) (PInt n) (PInt x) (BList ds) ie)).
  unfold GTPv1C.additionals. cbn [GTPv1C.flags].
  destruct (Z.land fl 7 =? 0) eqn:Ea.
  - cbn -[Packet.pack_hdr byte_of_Z Z.land Z.shiftr py_len].
    unfold GTPv1C.Packet_pack_hdr, mbind, stx_bind, get, lift, mret, stx_ret.
    cbn -[Packet.pack_hdr byte_of_Z Z.land Z.shiftr py_len].
    rewrite Packet_pack_hdr_v1 by (unfold py_len in *; lia).
    eexists _, _, _. split; [reflexivity|]. split; [reflexivity|].
    rewrite !N2Z.id.
    change (be_bytes 2 ?v) with [byte_of_N (v / 256); byte_of_N v].
    change (be_bytes 4 ?v)
      with [byte_of_N (v / 256 / 256 / 256); byte_of_N (v / 256 / 256);
            byte_of_N (v / 256); byte_of_N v].
    cbn [app]. unfold GTPv1C.of_bytes, GTPv1C.unpack, GTPv1C.unpack_fields.
    rewrite GTPv1C_unpack_header.
    cbn -[be_value Z.land Z.shiftr Z.of_N ord unpack_ies py_len N.div].
    rewrite !ord_byte_of_Z by done. rewrite Ea.
    cbn -[be_value Z.land Z.shiftr Z.of_N ord unpack_ies py_len N.div].
    rewrite (unpack_ies_join_v1 ds J (length J) Hwf HJ) by done.
    cbn -[be_value Z.of_N py_len N.div].
    rewrite be_value_2 by (unfold py_len in *; lia).
    rewrite be_value_4 by lia. by rewrite Z2N.id by lia.
  - cbn -[Packet.pack_hdr byte_of_Z Z.land Z.shiftr py_len].
    unfold GTPv1C.Packet_pack_hdr, mbind, stx_bind, get, lift, mret, stx_ret.
    cbn -[Packet.pack_hdr byte_of_Z Z.land Z.shiftr py_len].
    set (body := byte_of_Z _ :: _).
    assert (Hbody : py_len body = (4 + py_len J)%N).
    { subst body. unfold py_len. cbn [length]. lia. }
    rewrite Packet_pack_hdr_v1 by lia.
    eexists _, _, _. split; [reflexivity|]. split; [reflexivity|].
    rewrite !N2Z.id.
    change (be_bytes 2 ?v) with [byte_of_N (v / 256); byte_of_N v].
    change (be_bytes 4 ?v)
      with [byte_of_N (v / 256 / 256 / 256); byte_of_N (v / 256 / 256);
            byte_of_N (v / 256); byte_of_N v].
    cbn [app]. unfold GTPv1C.of_bytes, GTPv1C.unpack, GTPv1C.unpack_fields.
    rewrite GTPv1C_unpack_header.
    cbn -[be_value Z.land Z.lor Z.shiftl Z.shiftr Z.of_N ord unpack_ies py_len N.div
          compat_ord body].
    rewrite !ord_byte_of_Z by done. rewrite Ea.
    subst body.
    cbn -[be_value Z.land Z.lor Z.shiftl Z.shiftr Z.of_N ord unpack_ies py_len N.div
          compat_ord byte_of_Z].
    change (slice_from (_ :: _ :: _ :: _ :: J) 4) with J.
    rewrite (unpack_ies_join_v1 ds J (length J) Hwf HJ) by done.
    cbn -[be_value Z.land Z.lor Z.shiftl Z.shiftr Z.of_N py_len N.div compat_ord byte_of_Z].
    rewrite be_value_2 by lia.
    rewrite be_value_4 by lia. rewrite Z2N.id by lia.
    rewrite !compat_ord_byte, octets2_value by done.
    assert (Z.land n 255 = n) as -> by (by apply (land_fits n 8)).
    assert (Z.land x 255 = x) as -> by (by apply (land_fits x 8)).
    done.
Qed.

Lemma GTPv1C_roundtrip_witness :
  let ds := [IEv1.mk 14 PUnset [x05]; IEv1.mk 0x83 (PInt 8) (dns.B "internet")] in
  let m := GTPv1C.mk 0x32 16 0 0x10 (PInt 0x0a) (PInt 0xca) (PInt 0xfe)
                     (BList ds) None in
  exists m' h body,
    GTPv1C.pack_hdr m = (m', Ok h) /\
    GTPv1C.data m' = BBytes body /\
    GTPv1C.of_bytes (h ++ body)
    = Some (Ok (GTPv1C.mk 0x32 16 (Z.of_N (py_len body)) 0x10
                          (PInt 0x0a) (PInt 0xca) (PInt 0xfe)
                          (BList (map IEv1.decoded ds))
                          (Some (map IEv1.decoded ds)))).
Proof.
  cbv zeta.
  apply (GTPv1C_roundtrip
           (GTPv1C.mk 0x32 16 0 0x10 (PInt 0x0a) (PInt 0xca) (PInt 0xfe)
              (BList [IEv1.mk 14 PUnset [x05];
                      IEv1.mk 0x83 (PInt 8) (dns.B "internet")]) None)
           [IEv1.mk 14 PUnset [x05]; IEv1.mk 0x83 (PInt 8) (dns.B "internet")]
           ([x0e; x05] ++ [x83; x00; x08] ++ dns.B "internet")
           0x0a 0xca 0xfe);
    try reflexivity; try (cbn [GTPv1C.flags GTPv1C.type GTPv1C.teid]; lia);
    try (by vm_compute).
  repeat constructor; try reflexivity; try (cbn [IEv1.type]; lia); by vm_compute.
Defined.

(** X17.  A message with one of the E, S and PN flags set whose payload has
    fewer than the four bytes of sequence number, N-PDU number and next
    extension type is refused with an [IndexError]. *)
Theorem GTPv1C_short_optional_fields f t l1 l0 t3 t2 t1 t0 payload :
  Z.land (Z.of_N (ord f)) 7 <> 0 ->
  (length payload < 4)%nat ->
  GTPv1C.of_bytes (f :: t :: l1 :: l0 :: t3 :: t2 :: t1 :: t0 :: payload)
  = Some (Raise IndexError).
Proof.
  intros Hf Hlen. apply Z.eqb_neq in Hf.
  unfold GTPv1C.of_bytes, GTPv1C.unpack, GTPv1C.unpack_fields.
  rewrite GTPv1C_unpack_header.
  cbn -[be_value Z.land Z.lor Z.shiftl Z.shiftr Z.of_N ord unpack_ies compat_ord].
  rewrite Hf.
  do 4 (destruct payload as [|? payload]; [reflexivity|]).
  cbn in Hlen. lia.
Qed.

Lemma GTPv1C_short_optional_fields_witness :
  GTPv1C.of_bytes [x32; x10; x00; x03; x00; x00; x00; x10; x00; x0a; xca]
  = Some (Raise IndexError).
Proof.
  apply (GTPv1C_short_optional_fields x32 x10 x00 x03 x00 x00 x00 x10 [x00; x0a; xca]).
  - discriminate.
  - cbn. lia.
Defined.

Lemma IEv1_len_pos data ie : IEv1.of_bytes data = Ok ie -> (0 < IEv1.__len__ ie)%N.
Proof.
  intros _. unfold IEv1.__len__, IEv1.hdr_len. destruct (_ =? _); lia.
Qed.

(** X18.  The loops over the elements of a payload come to an end on every
    buffer: each pass reads an element of at least one byte (GTPv1) or four
    bytes (GTPv2) or raises. *)
Theorem GTP_constructors_terminate buf :
  is_Some (GTPv1C.of_bytes buf) /\ is_Some (GTPv2C.of_bytes buf).
Proof.
  split.
  - unfold GTPv1C.of_bytes, GTPv1C.unpack.
    destruct (GTPv1C.unpack_fields buf) as [[self data]|e]; [|by eexists].
    destruct (gtp_c_properties.unpack_ies_total IEv1.of_bytes IEv1.__len__
                IEv1_len_pos (length data) data) as [r Hr]; [done|].
    rewrite Hr. destruct r; by eexists.
  - unfold GTPv2C.of_bytes, GTPv2C.unpack.
    destruct (GTPv2C.unpack_fields buf) as [[self data]|e]; [|by eexists].
    destruct (gtp_c_properties.unpack_ies_total IEv2.of_bytes IEv2.__len__
                gtp_c_properties.IEv2_len_pos (length data) data) as [r Hr]; [done|].
    rewrite Hr. destruct r; by eexists.
Qed.

End gtpv1_codec.

Module question_codec.
Import dns unpack_name_properties pack_name_extra.
Local Open Scope N_scope.

Lemma lor_below_2_16 a b : a < 65536 -> b < 65536 -> N.lor a b < 65536.
Proof.
  intros Ha Hb. destruct (N.eq_dec (N.lor a b) 0) as [->|Hne]; [lia|].
  apply (N.log2_lt_pow2 _ 16); [lia|].
  rewrite N.log2_lor.
  destruct (N.eq_dec a 0) as [->|Ha0], (N.eq_dec b 0) as [->|Hb0].
  - done.
  - rewrite N.max_r by (cbn; lia). apply N.log2_lt_pow2; lia.
  - rewrite N.max_l by (cbn; lia). apply N.log2_lt_pow2; lia.
  - apply N.max_lub_lt; apply N.log2_lt_pow2; lia.
Qed.

Lemma pack_name_loop_ok labels off : forall buf t,
  below_guard t -> Forall (fun l => py_len l <= 255) labels ->
  exists out, snd (pack_name_loop labels off buf t) = Ok out.
Proof.
  induction labels as [|l rest IH]; intros buf t Ht Hl; [by eexists|].
  apply Forall_cons in Hl as [Hl Hrest]. cbn [pack_name_loop].
  set (key := upper (join [x2e] (l :: rest))).
  assert (Hgo : forall t', below_guard t' ->
            exists out,
              (match struct_pack 1 (Z.of_N (py_len l)) with
               | Ok i => pack_name_loop rest off (buf ++ i ++ l) t'
               | Raise e => (t', Raise e)
               end).2 = Ok out).
  { intros t' Ht'. rewrite struct_pack_B by done. by apply IH. }
  destruct (t !! key) as [[|p]|] eqn:Ek.
  - apply Hgo. destruct (1 <? py_len key); [|done].
    destruct (off + py_len buf <? 49152) eqn:E; [|done].
    apply map_Forall_insert_2; [by apply N.ltb_lt|done].
  - cbn [snd]. apply Ht in Ek. cbv beta in Ek.
    rewrite struct_pack_ok.
    + by eexists.
    + pose proof (lor_below_2_16 49152 (N.pos p)).
      change (2 ^ (8 * Z.of_nat 2))%Z with 65536%Z. lia.
  - apply Hgo. destruct (1 <? py_len key); [|done].
    destruct (off + py_len buf <? 49152) eqn:E; [|done].
    apply map_Forall_insert_2; [by apply N.ltb_lt|done].
Qed.

(** X19.  With a table whose offsets are below 0xc000, packing a name whose
    labels have at most 255 bytes never fails, and the table stays below
    0xc000: every pointer written fits in 16 bits with its marker bits. *)
Theorem pack_name_succeeds nm off t :
  below_guard t ->
  Forall (fun l => py_len l <= 255) (labels_of nm) ->
  (exists out, snd (pack_name nm off t) = Ok out)
  /\ below_guard (fst (pack_name nm off t)).
Proof.
  intros Ht Hl. split.
  - unfold pack_name. fold (labels_of nm). apply pack_name_loop_ok; [done|].
    apply Forall_app. split; [done|]. by repeat constructor.
  - by apply pack_name_properties.pack_name_loop_below_guard.
Qed.

Lemma pack_name_succeeds_witness :
  (exists out, snd (pack_name (B "www.cnn.com") 12 {[ B "CNN.COM." := 30 ]}) = Ok out)
  /\ below_guard (fst (pack_name (B "www.cnn.com") 12 {[ B "CNN.COM." := 30 ]})).
Proof.
  apply (pack_name_succeeds (B "www.cnn.com") 12 {[ B "CNN.COM." := 30 ]}).
  - apply map_Forall_singleton. reflexivity.
  - vm_compute. repeat constructor; discriminate.
Defined.

Lemma struct_pack_HH a b :
  (0 <= a < 65536)%Z -> (0 <= b < 65536)%Z ->
  struct_pack_fields [(2%nat, a); (2%nat, b)]
  = Ok (be_bytes 2 (Z.to_N a) ++ be_bytes 2 (Z.to_N b)).
Proof.
  intros Ha Hb. cbn [struct_pack_fields].
  rewrite !struct_pack_ok by (change (2 ^ (8 * Z.of_nat 2))%Z with 65536%Z; lia).
  cbn [mbind result_bind]. by rewrite app_nil_r.
Qed.

(** X20.  Round trip of a question: a question packed after [pre] with an empty
    pointer table is read back by [unpack_q], which returns the offset
    just after it. *)
Theorem pack_unpack_q_roundtrip (q : Q) (pre post : bytes) :
  Forall (fun l => 1 <= py_len l <= 63) (labels_of (q_name q)) ->
  octets (labels_of (q_name q)) <= 255 ->
  (0 <= q_type q < 65536)%Z -> (0 <= q_cls q < 65536)%Z ->
  exists out,
    snd (pack_q pre q ∅) = Ok out /\
    unpack_q (out ++ post) (py_len pre) = Some (Ok (q, py_len out)).
Proof.
  destruct q as [nm ty cls]. cbn [q_name q_type q_cls].
  intros Hlen Hcap Hty Hcls.
  set (enc := wire (labels_of nm) ++ [x00]).
  set (tc := be_bytes 2 (Z.to_N ty) ++ be_bytes 2 (Z.to_N cls)).
  exists (pre ++ enc ++ tc). split.
  - unfold pack_q, mbind, stx_bind, lift, mret, stx_ret. cbn [q_name q_type q_cls].
    pose proof (pack_name_plain nm (py_len pre)) as Hp.
    destruct (pack_name nm (py_len pre) ∅) as [t' r]. cbn [snd] in Hp.
    rewrite Hp by (eapply Forall_impl; [done|]; simpl; lia).
    by rewrite struct_pack_HH.
  - unfold unpack_q.
    change (unpack_name ?b ?o) with (run b (init_state o)).
    rewrite (run_wire (labels_of nm) _ _ pre (tc ++ post)); [| |done..].
    2:{ subst enc. by rewrite <- !app_assoc. }
    cbn [name saved_off off init_state N.eqb app]. rewrite join_labels_of.
    set (o := py_len pre + py_len (wire (labels_of nm)) + 1).
    assert (Ho : o = py_len (pre ++ enc)).
    { subst o enc. unfold py_len. rewrite !length_app. cbn [length]. lia. }
    replace ((pre ++ enc ++ tc) ++ post) with ((pre ++ enc) ++ tc ++ post)
      by (by rewrite <- !app_assoc).
    rewrite Ho.
    replace (py_len (pre ++ enc) + 4) with (py_len (pre ++ enc) + py_len tc)
      by (subst tc; unfold py_len; rewrite !length_app, !length_be_bytes; lia).
    rewrite slice_middle.
    unfold struct_unpack_HH. subst tc.
    rewrite length_app, !length_be_bytes. cbn [Nat.eqb Nat.add].
    rewrite take_app_length' by (by rewrite length_be_bytes).
    rewrite drop_app_length' by (by rewrite length_be_bytes).
    rewrite !be_value_be_bytes. change (256 ^ N.of_nat 2) with 65536.
    rewrite !N.mod_small by lia. cbn [mbind result_bind].
    rewrite !Z2N.id by lia. do 3 f_equal.
    unfold py_len. rewrite !length_app, !length_be_bytes. lia.
Qed.

Lemma pack_unpack_q_roundtrip_witness :
  exists out,
    snd (pack_q (replicate 12 x00) (MkQ (B "www.cnn.com") 1 1) ∅) = Ok out /\
    unpack_q (out ++ [x00; x05]) (py_len (replicate 12 x00))
    = Some (Ok (MkQ (B "www.cnn.com") 1 1, py_len out)).
Proof.
  apply (pack_unpack_q_roundtrip (MkQ (B "www.cnn.com") 1 1) (replicate 12 x00)
                                 [x00; x05]).
  - vm_compute. repeat constructor; discriminate.
  - vm_compute. discriminate.
  - cbn [q_type]. lia.
  - cbn [q_cls]. lia.
Defined.

End question_codec.

Module factory_helpers.
Import gtpc_factory.
Local Open Scope N_scope.

(** Two semi-octets in one octet. *)
Lemma nibbles h l :
  h < 16 -> l < 16 ->
  N.lor (N.shiftl h 4) l < 256
  /\ N.land (N.lor (N.shiftl h 4) l) 15 = l
  /\ N.shiftr (N.lor (N.shiftl h 4) l) 4 = h.
Proof.
  intros Hh Hl. rewrite <- (N2Nat.id h), <- (N2Nat.id l).
  assert (Hh' : (N.to_nat h < 16)%nat) by lia.
  assert (Hl' : (N.to_nat l < 16)%nat) by lia.
  revert Hh' Hl'. generalize (N.to_nat h) (N.to_nat l). clear. intros h l Hh Hl.
  do 16 (destruct h as [|h];
         [do 16 (destruct l as [|l]; [by vm_compute|]); lia|]).
  lia.
Qed.

Lemma int16_decimal c : is_decimal c -> int16 c = Ok (N_of_ascii c - 48).
Proof.
  unfold is_decimal, int16. intros [H0 H1].
  apply N.leb_le in H0, H1. by rewrite H0, H1.
Qed.

Lemma int16_bound c v : int16 c = Ok v -> v < 16.
Proof.
  unfold int16.
  repeat match goal with
         | |- context [if ?b then _ else _] => destruct b eqn:?
         end; intros [= <-];
    repeat match goal with
           | H : (_ && _)%bool = true |- _ => apply andb_true_iff in H as [? ?]
           | H : (_ <=? _) = true |- _ => apply N.leb_le in H
           end; lia.
Qed.

Lemma pair_induction {A} (P : list A -> Prop) :
  P [] -> (forall a, P [a]) -> (forall a b l, P l -> P (a :: b :: l)) ->
  forall l, P l.
Proof.
  intros H0 H1 H2 l.
  assert (H : P l /\ forall a, P (a :: l)); [|by destruct H].
  induction l as [|b l [IH1 IH2]]; split; auto.
Qed.

Lemma even_odd_step (n : nat) : Nat.even (S (S n)) = Nat.even n.
Proof. done. Qed.

(** The octets of a string of hexadecimal digits of even length. *)
Lemma semi_octets_spec (s : list ascii) :
  Nat.even (length s) = true ->
  Forall (fun c => is_Some (match int16 c with Ok v => Some v | _ => None end)) s ->
  exists out,
    semi_octets s = Ok out /\
    (2 * length out = length s)%nat /\
    forall i c, s !! i = Some c ->
      exists v, int16 c = Ok v /\ semi_octet out i = Some v.
Proof.
  induction s as [|a|lo hi rest IH] using pair_induction; intros Hev Hall.
  - exists []. split; [done|]. split; [done|]. intros i c H. by destruct i.
  - done.
  - apply Forall_cons in Hall as [[l Hl] Hall].
    apply Forall_cons in Hall as [[h Hh] Hall].
    destruct (int16 lo) as [l'|] eqn:El; [|done]. injection Hl as ->.
    destruct (int16 hi) as [h'|] eqn:Eh; [|done]. injection Hh as ->.
    destruct (IH Hev Hall) as (out & Hout & Hlen & Hdig).
    pose proof (nibbles h l (int16_bound _ _ Eh) (int16_bound _ _ El))
      as (Hb & Hlo & Hhi).
    exists (byte_of_N (N.lor (N.shiftl h 4) l) :: out).
    cbn [semi_octets]. rewrite Eh, El, Hout. split; [done|].
    split; [cbn [length]; lia|].
    intros i c Hi. destruct i as [|[|i]].
    + injection Hi as <-. exists l. split; [done|].
      unfold semi_octet. cbn. rewrite ord_byte_of_N, N.mod_small by done.
      by rewrite Hlo.
    + injection Hi as <-. exists h. split; [done|].
      unfold semi_octet. cbn. rewrite ord_byte_of_N, N.mod_small by done.
      by rewrite Hhi.
    + cbn in Hi. destruct (Hdig i c Hi) as (v & Hv & Hs). exists v. split; [done|].
      unfold semi_octet in *. rewrite even_odd_step.
      replace (S (S i) / 2)%nat with (S (i / 2)).
      * done.
      * change (S (S i)) with (2 + i)%nat.
        rewrite (Nat.add_comm 2 i).
        replace (i + 2)%nat with (i + 1 * 2)%nat by lia.
        rewrite Nat.div_add by done. lia.
Qed.

(** X21.  A string of decimal digits is packed two digits to the octet, the
    first of each pair in the low half; a string of odd length is filled
    up with the semi-octet 0xF. *)
Theorem encode_imsi_digits (imsi_str : string) :
  Forall is_decimal (chars imsi_str) ->
  exists out,
    _encode_imsi imsi_str = Ok out /\
    length out = ((length (chars imsi_str) + 1) / 2)%nat /\
    (forall i c, chars imsi_str !! i = Some c ->
                 semi_octet out i = Some (N_of_ascii c - 48)) /\
    (Nat.odd (length (chars imsi_str)) = true ->
     semi_octet out (length (chars imsi_str)) = Some 15).
Proof.
  intros Hdec. unfold _encode_imsi.
  set (s := chars imsi_str) in *.
  set (s' := if Nat.odd (length s) then s ++ ["F"%char] else s).
  assert (Hev : Nat.even (length s') = true).
  { subst s'. destruct (Nat.odd (length s)) eqn:E.
    - rewrite length_app. cbn [length]. rewrite Nat.add_1_r, Nat.even_succ. done.
    - by rewrite <- Nat.negb_odd, E. }
  assert (Hall : Forall (fun c => is_Some (match int16 c with
                                           | Ok v => Some v | _ => None end)) s').
  { assert (Hs : Forall (fun c => is_Some (match int16 c with
                                            | Ok v => Some v | _ => None end)) s).
    { eapply Forall_impl; [exact Hdec|]. intros c Hc. cbv beta.
      rewrite int16_decimal by done. by eexists. }
    subst s'. destruct (Nat.odd (length s)); [|done].
    apply Forall_app. split; [done|]. repeat constructor. by eexists. }
  destruct (semi_octets_spec s' Hev Hall) as (out & Hout & Hlen & Hdig).
  exists out. split; [done|].
  assert (Hpre : forall i c, s !! i = Some c -> s' !! i = Some c).
  { intros i c Hi. subst s'. destruct (Nat.odd (length s)); [|done].
    by apply lookup_app_l_Some. }
  split; [|split].
  - subst s'. destruct (Nat.odd (length s)) eqn:E.
    + rewrite length_app in Hlen. cbn [length] in Hlen.
      replace (length s + 1)%nat with (length out * 2)%nat by lia.
      by rewrite Nat.div_mul.
    + assert (Hlen' : length s = (length out * 2)%nat) by lia.
      rewrite Hlen'. rewrite Nat.div_add_l by done. cbn. lia.
  - intros i c Hi. destruct (Hdig i c (Hpre i c Hi)) as (v & Hv & Hs).
    rewrite int16_decimal in Hv.
    + by injection Hv as <-.
    + eapply Forall_lookup_1; [exact Hdec|exact Hi].
  - intros Hodd. subst s'. rewrite Hodd in Hdig.
    destruct (Hdig (length s) "F"%char) as (v & Hv & Hs).
    { by rewrite lookup_app_r, Nat.sub_diag by done. }
    by injection Hv as <-.
Qed.

Lemma encode_imsi_digits_witness :
  exists out,
    _encode_imsi "12345" = Ok out /\
    length out = 3%nat /\
    semi_octet out 2 = Some 3 /\
    semi_octet out 5 = Some 15.
Proof.
  destruct (encode_imsi_digits "12345") as (out & Hout & Hlen & Hdig & Hpad).
  { repeat constructor; by vm_compute. }
  exists out. split; [exact Hout|]. split; [exact Hlen|]. split.
  - apply (Hdig 2%nat "3"%char). reflexivity.
  - apply Hpad. reflexivity.
Defined.

Lemma byte_of_N_ascii c : byte_of_N (N_of_ascii c) = byte_of_ascii c.
Proof.
  unfold byte_of_N. rewrite N.mod_small by apply N_ascii_bounded.
  by rewrite <- byte_of_ascii_via_N.
Qed.

Lemma utf8_ascii c : is_ascii c -> utf8 c = [byte_of_ascii c].
Proof.
  unfold is_ascii, utf8. intros H. apply N.ltb_lt in H. rewrite H.
  by rewrite byte_of_N_ascii.
Qed.

Lemma encode_ascii label :
  Forall is_ascii label -> encode label = map byte_of_ascii label.
Proof.
  induction 1 as [|c l Hc _ IH]; [done|].
  unfold encode in *. cbn [flat_map map]. by rewrite utf8_ascii, IH.
Qed.

Lemma byte_of_ascii_inj c d : byte_of_ascii c = byte_of_ascii d -> c = d.
Proof.
  intros H. apply (f_equal ascii_of_byte) in H.
  by rewrite !ascii_of_byte_of_ascii in H.
Qed.

(** Splitting the bytes of an ASCII string at the dots is splitting the
    string at the dots. *)
Lemma split_map s :
  dns.split x2e (map byte_of_ascii s)
  = map (map byte_of_ascii) (split "."%char s).
Proof.
  induction s as [|c s IH]; [done|]. cbn [map dns.split split].
  rewrite IH.
  destruct (decide (c = "."%char)) as [->|Hc].
  - by rewrite decide_True by done.
  - rewrite decide_False.
    + by destruct (split "."%char s).
    + intros H. apply Hc. by apply byte_of_ascii_inj.
Qed.

Lemma split_Forall (P : ascii -> Prop) sep s :
  Forall P s -> Forall (Forall P) (split sep s).
Proof.
  induction 1 as [|c s Hc _ IH]; [by repeat constructor|].
  cbn [split]. destruct (decide (c = sep)); [by constructor|].
  destruct (split sep s) as [|l ls]; [by repeat constructor|].
  apply Forall_cons in IH as [Hl Hls]. by repeat constructor.
Qed.

Lemma py_len_map {A B} (f : A -> B) l : py_len (map f l) = py_len l.
Proof. unfold py_len. by rewrite length_map. Qed.

Lemma encode_labels_wire labels : forall out,
  Forall (Forall is_ascii) labels ->
  Forall (fun l => py_len l <= 255) labels ->
  encode_labels labels out
  = Ok (out ++ dns.wire (map (map byte_of_ascii) labels)).
Proof.
  induction labels as [|l ls IH]; intros out Ha Hl.
  - cbn. by rewrite app_nil_r.
  - apply Forall_cons in Ha as [Ha Has]. apply Forall_cons in Hl as [Hl Hls].
    cbn [encode_labels]. unfold bytes_of_int.
    assert ((py_len l <? 256) = true) as -> by (apply N.ltb_lt; lia).
    cbn [mbind result_bind]. rewrite IH by done.
    rewrite encode_ascii by done. cbn [map]. rewrite pack_name_extra.wire_cons.
    rewrite py_len_map. by rewrite <- !app_assoc.
Qed.

(** X22.  On a non-empty ASCII string whose labels have at most 255 characters,
    [_encode_apn] gives what [pack_name] gives for the same name with an
    empty pointer table, without the final zero octet. *)
Theorem encode_apn_agrees_with_pack_name (apn_str : string) (off : N) :
  chars apn_str <> [] ->
  Forall is_ascii (chars apn_str) ->
  Forall (fun l => py_len l <= 255) (split "."%char (chars apn_str)) ->
  exists out,
    _encode_apn apn_str = Ok out /\
    snd (dns.pack_name (dns.B apn_str) off ∅) = Ok (out ++ [x00]).
Proof.
  intros Hne Ha Hl. unfold _encode_apn.
  rewrite encode_labels_wire; [|by apply split_Forall|done].
  eexists. split; [reflexivity|]. cbn [app].
  assert (Hlab : dns.labels_of (dns.B apn_str)
                 = map (map byte_of_ascii) (split "."%char (chars apn_str))).
  { unfold dns.labels_of, dns.B, list_byte_of_string. fold (chars apn_str).
    destruct (chars apn_str) as [|c s] eqn:E; [done|].
    cbn [map]. by rewrite <- split_map. }
  rewrite pack_name_extra.pack_name_plain; rewrite Hlab; [done|].
  apply Forall_map. eapply Forall_impl; [exact Hl|].
  intros l. cbv beta. by rewrite py_len_map.
Qed.

Lemma encode_apn_agrees_with_pack_name_witness :
  exists out,
    _encode_apn "internet.epc" = Ok out /\
    snd (dns.pack_name (dns.B "internet.epc") 12 ∅) = Ok (out ++ [x00]).
Proof.
  apply (encode_apn_agrees_with_pack_name "internet.epc" 12).
  - discriminate.
  - repeat constructor; by vm_compute.
  - repeat constructor; by vm_compute.
Defined.

Lemma N_of_ascii_inj c d : N_of_ascii c = N_of_ascii d -> c = d.
Proof.
  intros H. apply (f_equal ascii_of_N) in H. by rewrite !ascii_N_embedding in H.
Qed.

(** The general encoder of one character gives, on a code point below
    256, the bytes of the encoder of the characters of a [string]. *)
Lemma utf8_points c : unicode.utf8 (N_of_ascii c) = Ok (utf8 c).
Proof.
  pose proof (N_ascii_bounded c) as Hc. unfold unicode.utf8, utf8.
  destruct (N.ltb_spec (N_of_ascii c) 128); [done|].
  by assert ((N_of_ascii c <? 2048) = true) as -> by (apply N.ltb_lt; lia).
Qed.

Lemma encode_points label : unicode.encode (points label) = Ok (encode label).
Proof.
  induction label as [|c l IH]; [done|].
  cbn [points map unicode.encode]. fold (points l). by rewrite utf8_points, IH.
Qed.

Lemma split_points s :
  unicode.split 46 (points s) = map points (split "."%char s).
Proof.
  induction s as [|c s IH]; [done|].
  cbn [points map unicode.split split]. fold (points s). rewrite IH.
  destruct (decide (c = "."%char)) as [->|Hc].
  - by rewrite decide_True by done.
  - rewrite decide_False.
    + by destruct (split "."%char s).
    + intros H. apply Hc. by apply N_of_ascii_inj.
Qed.

Lemma encode_labels_points labels : forall out,
  unicode.encode_labels (map points labels) out = encode_labels labels out.
Proof.
  induction labels as [|l ls IH]; intros out; [done|].
  cbn [map unicode.encode_labels encode_labels].
  change (py_len (points l)) with (py_len (map N_of_ascii l)). rewrite py_len_map.
  destruct (bytes_of_int (py_len l)) as [n|e]; [|done].
  cbn [mbind result_bind]. rewrite encode_points. cbn [mbind result_bind].
  apply IH.
Qed.

(** On a [string], whose characters have code points below 256, the
    general [_encode_apn] is the [_encode_apn] of strings. *)
Lemma encode_apn_points (apn_str : string) :
  unicode._encode_apn (points (chars apn_str)) = _encode_apn apn_str.
Proof.
  unfold unicode._encode_apn, _encode_apn.
  by rewrite split_points, encode_labels_points.
Qed.

Lemma unicode_split_no_sep sep s : sep ∉ s -> unicode.split sep s = [s].
Proof.
  induction s as [|c s IH]; [done|]. intros Hs.
  apply not_elem_of_cons in Hs as [Hc Hs]. cbn [unicode.split].
  rewrite decide_False by done. by rewrite IH.
Qed.

Lemma chars_from_cons k c label :
  chars_from k (c :: label) = (if decide (k <= c) then 1 else 0) + chars_from k label.
Proof.
  unfold chars_from, py_len. rewrite filter_cons.
  destruct (decide (k <= c)); cbn [length]; lia.
Qed.

(** The bytes of a character: one, and one more for each of the bounds
    0x80, 0x800 and 0x10000 that its code point reaches. *)
Lemma length_utf8 c :
  scalar c ->
  exists b, unicode.utf8 c = Ok b /\
    py_len b = 1 + (if decide (0x80 <= c) then 1 else 0)
                 + (if decide (0x800 <= c) then 1 else 0)
                 + (if decide (0x10000 <= c) then 1 else 0).
Proof.
  intros Hc. unfold unicode.utf8, scalar in *.
  destruct (N.ltb_spec c 0x80).
  { eexists. split; [done|]. by rewrite !decide_False by lia. }
  destruct (N.ltb_spec c 0x800).
  { eexists. split; [done|].
    by rewrite decide_True, !decide_False by lia. }
  destruct (N.ltb_spec c 0x10000).
  { assert (((0xd800 <=? c) && (c <? 0xe000))%bool = false) as ->.
    { apply andb_false_iff. destruct Hc as [Hc|Hc].
      - left. apply N.leb_gt. lia.
      - right. apply N.ltb_ge. lia. }
    eexists. split; [done|].
    by rewrite !decide_True, decide_False by lia. }
  eexists. split; [done|]. by rewrite !decide_True by lia.
Qed.

Lemma length_encode label :
  Forall scalar label ->
  exists enc, unicode.encode label = Ok enc /\
    py_len enc = py_len label + chars_from 0x80 label + chars_from 0x800 label
                 + chars_from 0x10000 label.
Proof.
  induction 1 as [|c l Hc _ (enc & Henc & Hlen)]; [by exists []|].
  destruct (length_utf8 c Hc) as (b & Hb & Hbl).
  exists (b ++ enc). cbn [unicode.encode]. rewrite Hb, Henc. split; [done|].
  rewrite !chars_from_cons, unpack_name_properties.len_app, Hbl, Hlen.
  unfold py_len. cbn [length]. lia.
Qed.

(** X23.  The length octet of a label counts its characters, not the bytes of
    its encoding.  For a label without a dot of at most 255 characters,
    none of them a surrogate, the octet is followed by one byte for every
    character and one more for every character from U+0080 on, from U+0800
    on and from U+10000 on: only for an ASCII label is it the number of
    bytes that follow. *)
Theorem encode_apn_length_octet (label : list N) :
  Forall scalar label -> 46 ∉ label -> py_len label <= 255 ->
  exists enc,
    unicode.encode label = Ok enc /\
    unicode._encode_apn label = Ok (byte_of_N (py_len label) :: enc) /\
    py_len enc = py_len label + chars_from 0x80 label + chars_from 0x800 label
                 + chars_from 0x10000 label.
Proof.
  intros Hs Hdot Hlen. destruct (length_encode label Hs) as (enc & Henc & Hl).
  exists enc. split; [done|]. split; [|done].
  unfold unicode._encode_apn. rewrite unicode_split_no_sep by done.
  cbn [unicode.encode_labels]. unfold bytes_of_int.
  assert ((py_len label <? 256) = true) as -> by (apply N.ltb_lt; lia).
  cbn [mbind result_bind]. by rewrite Henc.
Qed.

(** The label of the two characters U+20AC and t: the length octet 2 is
    followed by four bytes. *)
Lemma encode_apn_length_octet_witness :
  exists enc,
    unicode.encode [0x20ac; 0x74] = Ok enc /\
    unicode._encode_apn [0x20ac; 0x74] = Ok (x02 :: enc) /\
    py_len enc = 2 + 1 + 1 + 0.
Proof.
  apply (encode_apn_length_octet [0x20ac; 0x74]).
  - repeat constructor; right; lia.
  - intros H. by repeat (apply elem_of_cons in H as [H|H]; [discriminate|]);
      apply elem_of_nil in H.
  - by vm_compute.
Defined.

Lemma be_bytes_app a b v :
  be_bytes (a + b) v = be_bytes a (v / 256 ^ N.of_nat b) ++ be_bytes b v.
Proof.
  revert v. induction b as [|b IH]; intros v.
  - rewrite Nat.add_0_r. cbn [be_bytes N.of_nat]. by rewrite N.pow_0_r, N.div_1_r, app_nil_r.
  - rewrite Nat.add_succ_r. cbn [be_bytes]. rewrite IH, <- app_assoc.
    rewrite N.Div0.div_div.
    by rewrite Nat2N.inj_succ, N.pow_succ_r'.
Qed.

(** The five low octets of an unsigned 64-bit integer. *)
Lemma br_ok v :
  (0 <= v < 2 ^ 64)%Z -> _br v = Ok (be_bytes 5 (Z.to_N v)).
Proof.
  intros Hv. unfold _br. rewrite struct_pack_ok by (cbn; lia).
  cbn [mbind result_bind]. rewrite length_be_bytes.
  change (drop (8 - 5) (be_bytes 8 ?x)) with (drop 3 (be_bytes (3 + 5) x)).
  rewrite be_bytes_app.
  by rewrite drop_app_length' by (by rewrite length_be_bytes).
Qed.

Lemma testbit_field x w k n :
  (0 <= w -> 0 <= k -> 0 <= n ->
   Z.testbit (Z.shiftl (Z.land x (Z.ones w)) k) n
   = Z.testbit x (n - k) && (k <=? n) && (n <? k + w))%Z.
Proof.
  intros Hw Hk Hn. rewrite Z.shiftl_spec by lia.
  destruct (k <=? n)%Z eqn:E.
  - apply Z.leb_le in E. rewrite Z.land_spec, Z.testbit_ones_nonneg by lia.
    rewrite andb_true_r. f_equal.
    destruct (n - k <? w)%Z eqn:E1, (n <? k + w)%Z eqn:E2; try done;
      [apply Z.ltb_lt in E1; apply Z.ltb_ge in E2|
       apply Z.ltb_ge in E1; apply Z.ltb_lt in E2]; lia.
  - apply Z.leb_gt in E. rewrite Z.testbit_neg_r by lia.
    by rewrite andb_false_r.
Qed.

(** The flags octet of the Bearer QoS value: bit 7 and bit 0 are clear. *)
Lemma qos_flags_range pci pl pvi :
  (0 <= Z.lor (Z.lor (Z.shiftl (Z.land pci 0x1) 6) (Z.shiftl (Z.land pl 0xf) 2))
              (Z.shiftl (Z.land pvi 0x1) 1) < 128)%Z.
Proof.
  apply (bitfields.land_fits _ 7); [lia|].
  apply Z.bits_inj'. intros n Hn.
  change (Z.land pci 1) with (Z.land pci (Z.ones 1)).
  change (Z.land pvi 1) with (Z.land pvi (Z.ones 1)).
  change (Z.land pl 15) with (Z.land pl (Z.ones 4)).
  rewrite Z.land_spec, !Z.lor_spec, !testbit_field, Z.testbit_ones_nonneg by lia.
  repeat match goal with
         | |- context [(?a <=? n)%Z] => destruct (Z.leb_spec a n)
         | |- context [(n <? ?a)%Z] => destruct (Z.ltb_spec n a)
         end;
    rewrite ?andb_true_r, ?andb_false_r, ?orb_false_r, ?orb_false_l;
    try done; lia.
Qed.

(** X24.  The Bearer QoS value has 22 octets: the flags, the QCI, and four bit
    rates of five octets each.  A bit rate of 2^40 or more is not refused:
    its low 40 bits are written. *)
Theorem encode_bearer_qos_layout (qci pci pl pvi mbr_ul mbr_dl gbr_ul gbr_dl : Z) :
  (0 <= qci < 256)%Z ->
  (0 <= mbr_ul < 2 ^ 64)%Z -> (0 <= mbr_dl < 2 ^ 64)%Z ->
  (0 <= gbr_ul < 2 ^ 64)%Z -> (0 <= gbr_dl < 2 ^ 64)%Z ->
  exists out,
    _encode_bearer_qos qci pci pl pvi mbr_ul mbr_dl gbr_ul gbr_dl = Ok out /\
    py_len out = 22 /\
    be_value (slice out 0 1) < 128 /\
    be_value (slice out 1 2) = Z.to_N qci /\
    be_value (slice out 2 7) = Z.to_N mbr_ul mod 2 ^ 40 /\
    be_value (slice out 7 12) = Z.to_N mbr_dl mod 2 ^ 40 /\
    be_value (slice out 12 17) = Z.to_N gbr_ul mod 2 ^ 40 /\
    be_value (slice out 17 22) = Z.to_N gbr_dl mod 2 ^ 40.
Proof.
  intros Hq Ha Hb Hc Hd. unfold _encode_bearer_qos.
  pose proof (qos_flags_range pci pl pvi) as Hf.
  set (flags := Z.lor _ _) in *.
  cbn [struct_pack_fields]. rewrite !struct_pack_ok by (cbn; lia).
  rewrite !br_ok by done. cbn [mbind result_bind].
  eexists. split; [reflexivity|].
  set (h := (be_bytes 1 (Z.to_N flags) ++ be_bytes 1 (Z.to_N qci) ++ [])).
  set (a := be_bytes 5 (Z.to_N mbr_ul)). set (b := be_bytes 5 (Z.to_N mbr_dl)).
  set (c := be_bytes 5 (Z.to_N gbr_ul)). set (d := be_bytes 5 (Z.to_N gbr_dl)).
  assert (Hla : py_len a = 5) by (unfold py_len, a; by rewrite length_be_bytes).
  assert (Hlb : py_len b = 5) by (unfold py_len, b; by rewrite length_be_bytes).
  assert (Hlc : py_len c = 5) by (unfold py_len, c; by rewrite length_be_bytes).
  assert (Hld : py_len d = 5) by (unfold py_len, d; by rewrite length_be_bytes).
  assert (Hlh : py_len h = 2) by done.
  assert (Hval : forall v, be_value (be_bytes 5 v) = v mod 2 ^ 40).
  { intros v. by rewrite be_value_be_bytes. }
  split; [|split; [|split; [|split; [|split; [|split]]]]].
  - unfold py_len in *. rewrite !length_app. lia.
  - subst h. cbn [be_bytes app].
    change (slice (?x :: ?y :: ?r) 0 1) with [x].
    rewrite ie_codec.be_value_1 by lia. lia.
  - subst h. cbn [be_bytes app].
    change (slice (?x :: ?y :: ?r) 1 2) with [y].
    by rewrite ie_codec.be_value_1 by lia.
  - change 2 with (py_len h) at 1. change 7 with (py_len h + 5). rewrite <- Hla.
    rewrite pack_name_extra.slice_middle. apply Hval.
  - replace (h ++ a ++ b ++ c ++ d) with ((h ++ a) ++ b ++ c ++ d)
      by (by rewrite <- !app_assoc).
    replace 7 with (py_len (h ++ a))
      by (unfold py_len in *; rewrite length_app; lia).
    replace 12 with (py_len (h ++ a) + py_len b)
      by (unfold py_len in *; rewrite length_app; lia).
    rewrite pack_name_extra.slice_middle. apply Hval.
  - replace (h ++ a ++ b ++ c ++ d) with ((h ++ a ++ b) ++ c ++ d)
      by (by rewrite <- !app_assoc).
    replace 12 with (py_len (h ++ a ++ b))
      by (unfold py_len in *; rewrite !length_app; lia).
    replace 17 with (py_len (h ++ a ++ b) + py_len c)
      by (unfold py_len in *; rewrite !length_app; lia).
    rewrite pack_name_extra.slice_middle. apply Hval.
  - replace (h ++ a ++ b ++ c ++ d) with ((h ++ a ++ b ++ c) ++ d ++ [])
      by (by rewrite <- !app_assoc, app_nil_r).
    replace 17 with (py_len (h ++ a ++ b ++ c))
      by (unfold py_len in *; rewrite !length_app; lia).
    replace 22 with (py_len (h ++ a ++ b ++ c) + py_len d)
      by (unfold py_len in *; rewrite !length_app; lia).
    rewrite pack_name_extra.slice_middle. apply Hval.
Qed.

Lemma encode_bearer_qos_layout_witness :
  exists out,
    _encode_bearer_qos 9 0 15 0 (2 ^ 40 + 1024) 2048 512 256 = Ok out /\
    py_len out = 22 /\
    be_value (slice out 2 7) = 1024.
Proof.
  destruct (encode_bearer_qos_layout 9 0 15 0 (2 ^ 40 + 1024) 2048 512 256)
    as (out & Hout & Hlen & _ & _ & Hrate & _); try (cbn; lia).
  exists out. split; [exact Hout|]. split; [exact Hlen|].
  rewrite Hrate. reflexivity.
Defined.

End factory_helpers.
